(** * Bubble-hockey cabinet: scoreboard state machine and colour store

    A shallow embedding of the two programs of the repository that carry
    state worth reasoning about:

    - [LED_color_picker.py]: the colour store ([saved_colors]) with its
      flat-file persistence ([load_colors], [save_colors]), its
      keyboard-driven edits ([handle_input], [run]) and the rendering of
      the selection to the LED strip ([update_leds]);
    - [scoreboard.py] (the first, RFID-enabled variant): the game state
      record, the goal / shot / face-off / period handlers, the per-frame
      timers, the keys and the volume inputs, the set-up screen with its
      RFID profiles, the reading of the colour file
      ([load_custom_colors]) and the LED helpers [clear_leds] and
      [game_active_effect].

    Python objects become records, attribute assignment becomes a record
    update, and a method becomes a computation in a small state-and-exception
    monad, so that a handler that raises half-way leaves exactly the
    mutations it had already made. *)

From Stdlib Require Import ZArith String Ascii List Lia Bool.
From Stdlib Require Import Decimal DecimalString DecimalPos DecimalN DecimalZ.
From Stdlib Require Import QArith_base.
From stdpp Require Import gmap strings list.

Open Scope Z_scope.

(* ===================================================================== *)
(** * Python run-time conventions *)
(* ===================================================================== *)

Module Py.

(** The exceptions the modelled code can raise by itself. *)
Inductive exn : Type :=
| TypeError    (* subscripting [None] *)
| IndexError   (* list index out of range *)
| KeyError     (* missing dict key *)
| AttributeError (* method call on [None] *)
| ValueError.  (* [int()] on a malformed literal *)

(** Result of running a method on an object of type [S]: either it
    returned, or it raised; in both cases [S] is the object as the run
    left it. *)
Inductive outcome (S A : Type) : Type :=
| Returned (a : A) (s : S)
| Raised (e : exn) (s : S).
Arguments Returned {S A} a s.
Arguments Raised {S A} e s.

Definition M (S A : Type) : Type := S -> outcome S A.

Definition ret {S A} (a : A) : M S A := fun s => Returned a s.

Definition bind {S A B} (m : M S A) (k : A -> M S B) : M S B :=
  fun s => match m s with
           | Returned a s' => k a s'
           | Raised e s' => Raised e s'
           end.

Definition raise {S A} (e : exn) : M S A := fun s => Raised e s.
Definition get {S} : M S S := fun s => Returned s s.
Definition put {S} (s : S) : M S unit := fun _ => Returned tt s.
Definition modify {S} (f : S -> S) : M S unit := fun s => Returned tt (f s).
Definition gets {S A} (f : S -> A) : M S A := fun s => Returned (f s) s.

(** [if c: body] *)
Definition when {S} (c : bool) (body : M S unit) : M S unit :=
  if c then body else ret tt.

(** [o[...]] where [o] may be [None]. *)
Definition subscript {S A} (o : option A) : M S A :=
  match o with
  | Some a => ret a
  | None => raise TypeError
  end.

(** The object after the call, whether it returned or raised. *)
Definition final {S A} (o : outcome S A) : S :=
  match o with
  | Returned _ s => s
  | Raised _ s => s
  end.

Definition exec {S A} (m : M S A) (s : S) : S := final (m s).

Definition returned {S A} (o : outcome S A) : bool :=
  match o with
  | Returned _ _ => true
  | Raised _ _ => false
  end.

(** Truth value of an [Optional[str]]: [None] and [""] are falsy. *)
Definition truthy_str (o : option string) : bool :=
  match o with
  | None => false
  | Some EmptyString => false
  | Some _ => true
  end.

(** Truth value of a [str]. *)
Definition nonempty (s : string) : bool :=
  match s with
  | EmptyString => false
  | _ => true
  end.

(** Truth value of an optional object whose class has no [__bool__]
    or whose [__len__] is positive (a colour dict, the pixel strip). *)
Definition present {A} (o : option A) : bool :=
  match o with
  | Some _ => true
  | None => false
  end.

(** [l[i]] on a list, with Python's negative indices. *)
Definition index {A} (l : list A) (i : Z) : option A :=
  let n := Z.of_nat (length l) in
  if (0 <=? i) && (i <? n) then l !! Z.to_nat i
  else if (- n <=? i) && (i <? 0) then l !! Z.to_nat (n + i)
  else None.

(** [l[i] = x]; [None] stands for [IndexError]. *)
Definition assign {A} (l : list A) (i : Z) (x : A) : option (list A) :=
  let n := Z.of_nat (length l) in
  if (0 <=? i) && (i <? n) then Some (<[Z.to_nat i := x]> l)
  else if (- n <=? i) && (i <? 0) then Some (<[Z.to_nat (n + i) := x]> l)
  else None.

(** [l.pop(i)], returning the remaining list; [None] stands for
    [IndexError]. *)
Definition pop {A} (l : list A) (i : Z) : option (list A) :=
  let n := Z.of_nat (length l) in
  if (0 <=? i) && (i <? n) then Some (delete (Z.to_nat i) l)
  else if (- n <=? i) && (i <? 0) then Some (delete (Z.to_nat (n + i)) l)
  else None.

(** [l.index(x)] on a list of strings; [None] stands for [ValueError]. *)
Fixpoint index_of (x : string) (l : list string) : option Z :=
  match l with
  | [] => None
  | y :: l' =>
      if String.eqb y x then Some 0
      else match index_of x l' with
           | Some i => Some (i + 1)
           | None => None
           end
  end.

(** [next((c for c in l if p(c)), None)] *)
Definition first {A} (p : A -> bool) (l : list A) : option A :=
  List.find p l.

(** [for a in l: body(a)] *)
Fixpoint for_each {S A} (body : A -> M S unit) (l : list A) : M S unit :=
  match l with
  | [] => ret tt
  | a :: l' => bind (body a) (fun _ => for_each body l')
  end.

(** [m] returns from every state that satisfies [I], in a state that
    satisfies [I]. *)
Definition returning {S A} (I : S -> Prop) (m : M S A) : Prop :=
  forall s, I s -> exists a s', m s = Returned a s' /\ I s'.

End Py.

Notation "x <- m ;; k" := (Py.bind m (fun x => k))
  (at level 100, m at next level, k at level 200, right associativity,
   only parsing).
Notation "m ;;; k" := (Py.bind m (fun _ => k))
  (at level 100, k at level 200, right associativity, only parsing).


(** [field_setter eta f] builds the function that assigns attribute [f] of
    a record: the eta-expansion [eta] of the record with the occurrence of
    the projection [f] replaced by the new value. *)
Ltac field_setter eta proj :=
  let e := eval cbv delta [eta] in eta in
  let p := eval pattern proj in e in
  lazymatch p with
  | ?body proj =>
      let t := eval cbv beta in (fun v r => body (fun _ => v) r) in exact t
  end.
(* ===================================================================== *)
(** * Text: the [str] methods and [int()] the colour store relies on *)
(* ===================================================================== *)

(** A [str] is a Rocq [string]; its characters stand for the code points
    below 256. *)

Module Text.

Definition LF : ascii := "010"%char.
Definition CR : ascii := "013"%char.
Definition comma : ascii := ","%char.

(** [c.isspace()] on the code points below 256: TAB..CR, FS..US, space,
    NEL and NBSP. *)
Definition is_space (c : ascii) : bool :=
  let n := N_of_ascii c in
  (((9 <=? n) && (n <=? 13)) || ((28 <=? n) && (n <=? 32))
   || (n =? 133) || (n =? 160))%N.

(** [s.lstrip()], [s.rstrip()] and [s.strip()] without argument. *)
Fixpoint lstrip (s : string) : string :=
  match s with
  | EmptyString => EmptyString
  | String c s' => if is_space c then lstrip s' else s
  end.

Fixpoint rstrip (s : string) : string :=
  match s with
  | EmptyString => EmptyString
  | String c s' =>
      match rstrip s' with
      | EmptyString => if is_space c then EmptyString else String c EmptyString
      | r => String c r
      end
  end.

Definition strip (s : string) : string := rstrip (lstrip s).

(** [s.split(sep)] for a one-character separator: never the empty list. *)
Fixpoint split (sep : ascii) (s : string) : list string :=
  match s with
  | EmptyString => [EmptyString]
  | String c s' =>
      if Ascii.eqb c sep then EmptyString :: split sep s'
      else match split sep s' with
           | p :: ps => String c p :: ps
           | [] => [String c EmptyString]
           end
  end.

(** [for line in f] on a file opened in text mode: universal newlines, so
    a line ends at LF, at CR or at CR LF.  The pieces are given without
    their terminator, and a text that ends in a terminator yields one more,
    empty, piece; the only reader of this model strips each line and skips
    the blank ones, which makes both differences invisible. *)
Fixpoint file_lines (s : string) : list string :=
  match s with
  | EmptyString => [EmptyString]
  | String c s' =>
      if Ascii.eqb c LF then EmptyString :: file_lines s'
      else if Ascii.eqb c CR then
        match s' with
        | String c' s'' =>
            if Ascii.eqb c' LF then EmptyString :: file_lines s''
            else EmptyString :: file_lines s'
        | EmptyString => EmptyString :: file_lines s'
        end
      else match file_lines s' with
           | l :: ls => String c l :: ls
           | [] => [String c EmptyString]
           end
  end.

(** ** [str(n)] for an [int] *)

Definition str (z : Z) : string := NilZero.string_of_int (Z.to_int z).

(** ** [int(s)] for a [str]

    CPython first rewrites a non-ASCII argument (every code point from 127
    up becomes a blank when it is white space and an invalid mark
    otherwise; no code point below 256 is a non-ASCII decimal digit), then
    reads: C white space, an optional sign, decimal digits possibly
    separated by single underscores, C white space. *)

Definition is_c_space (c : ascii) : bool :=
  let n := N_of_ascii c in (((9 <=? n) && (n <=? 13)) || (n =? 32))%N.

Fixpoint is_ascii_str (s : string) : bool :=
  match s with
  | EmptyString => true
  | String c s' => (N_of_ascii c <? 128)%N && is_ascii_str s'
  end.

Fixpoint map_chars (f : ascii -> ascii) (s : string) : string :=
  match s with
  | EmptyString => EmptyString
  | String c s' => String (f c) (map_chars f s')
  end.

Definition to_ascii_literal (s : string) : string :=
  if is_ascii_str s then s
  else map_chars (fun c => if (N_of_ascii c <? 127)%N then c
                           else if is_space c then " "%char else "?"%char) s.

Fixpoint c_lstrip (s : string) : string :=
  match s with
  | EmptyString => EmptyString
  | String c s' => if is_c_space c then c_lstrip s' else s
  end.

Fixpoint c_rstrip (s : string) : string :=
  match s with
  | EmptyString => EmptyString
  | String c s' =>
      match c_rstrip s' with
      | EmptyString => if is_c_space c then EmptyString else String c EmptyString
      | r => String c r
      end
  end.

(** Digits with single underscores between them; at least one digit. *)
Fixpoint digits (s : string) : option uint :=
  match s with
  | EmptyString => None
  | String c s' =>
      match s' with
      | EmptyString => uint_of_char c (Some Nil)
      | String c' s'' =>
          if Ascii.eqb c' "_"%char then uint_of_char c (digits s'')
          else uint_of_char c (digits s')
      end
  end.

Definition int (s : string) : option Z :=
  let t := c_rstrip (c_lstrip (to_ascii_literal s)) in
  match t with
  | EmptyString => None
  | String c d =>
      if Ascii.eqb c "-"%char then option_map (fun u => - Z.of_uint u) (digits d)
      else if Ascii.eqb c "+"%char then option_map Z.of_uint (digits d)
      else option_map Z.of_uint (digits t)
  end.

(** [sep.join(l)]-free concatenation used by the writers below. *)
Fixpoint concat (l : list string) : string :=
  match l with
  | [] => EmptyString
  | s :: l' => s +:+ concat l'
  end.

(** No character of [s] satisfies [p]. *)
Fixpoint none_of (p : ascii -> bool) (s : string) : bool :=
  match s with
  | EmptyString => true
  | String c s' => negb (p c) && none_of p s'
  end.

(** A line terminator of a text file. *)
Definition is_break (c : ascii) : bool := Ascii.eqb c LF || Ascii.eqb c CR.

Definition is_digit (c : ascii) : bool :=
  let n := N_of_ascii c in ((48 <=? n) && (n <=? 57))%N.

(** A character of a decimal literal as [str] prints it: a digit or the
    minus sign. *)
Definition literal_char (c : ascii) : bool := is_digit c || Ascii.eqb c "-".

End Text.


(* ===================================================================== *)
(** * [LED_color_picker.py]: the colour store *)
(* ===================================================================== *)

Module LED_color_picker.

Import Py.

(** A colour is a tuple of three [int]s; a store entry is the tuple
    [(name, led_rgb, display_rgb)]. *)
Definition RGB : Type := Z * Z * Z.
Definition ColorEntry : Type := string * RGB * RGB.

Definition entry_name (e : ColorEntry) : string := e.1.1.
Definition entry_led (e : ColorEntry) : RGB := e.1.2.
Definition entry_display (e : ColorEntry) : RGB := e.2.

(** [self.editing_mode] is ['LED'] or ['DISPLAY']. *)
Inductive EditMode : Type := LED | DISPLAY.

(** The keys [handle_input] tells apart; every other key is [K_other]. *)
Inductive Key : Type :=
| K_RETURN | K_BACKSPACE | K_ESCAPE | K_UP | K_DOWN | K_PAGEUP | K_PAGEDOWN
| K_TAB | K_o | K_s | K_a | K_DELETE | K_SPACE
| K_r | K_f | K_t | K_g | K_y | K_h
| K_other (code : Z).

#[global] Instance Key_eq_dec : EqDecision Key.
Proof. solve_decision. Defined.

Inductive Event : Type :=
| QUIT
| KEYUP (key : Key)
| KEYDOWN (key : Key) (unicode : string)
| OTHER.

(** The attributes of a [ColorPicker] that the store logic reads or writes,
    and the colour file it owns ([None]: the file does not exist).  The
    [key_*_timers] dicts are keyed by key code. *)
Record ColorPicker : Type := {
  saved_colors : list ColorEntry;
  primary_index : Z;
  secondary_index : Z;
  current_led_rgb : list Z;
  current_display_rgb : list Z;
  is_saving : bool;
  input_text : string;
  editing_mode : EditMode;
  animation_mode : Z;
  overhead_mode : Z;
  frame_counter : Z;
  colors_changed : bool;
  key_hold_timers : Key -> option Z;
  key_repeat_timers : Key -> option Z;
  color_file : option string
}.

Definition eta (p : ColorPicker) : ColorPicker :=
  {| saved_colors := saved_colors p; primary_index := primary_index p;
     secondary_index := secondary_index p;
     current_led_rgb := current_led_rgb p;
     current_display_rgb := current_display_rgb p;
     is_saving := is_saving p; input_text := input_text p;
     editing_mode := editing_mode p; animation_mode := animation_mode p;
     overhead_mode := overhead_mode p; frame_counter := frame_counter p;
     colors_changed := colors_changed p;
     key_hold_timers := key_hold_timers p;
     key_repeat_timers := key_repeat_timers p; color_file := color_file p |}.

Definition set_saved_colors : list ColorEntry -> ColorPicker -> ColorPicker :=
  ltac:(field_setter eta saved_colors).
Definition set_primary_index : Z -> ColorPicker -> ColorPicker :=
  ltac:(field_setter eta primary_index).
Definition set_secondary_index : Z -> ColorPicker -> ColorPicker :=
  ltac:(field_setter eta secondary_index).
Definition set_current_led_rgb : list Z -> ColorPicker -> ColorPicker :=
  ltac:(field_setter eta current_led_rgb).
Definition set_current_display_rgb : list Z -> ColorPicker -> ColorPicker :=
  ltac:(field_setter eta current_display_rgb).
Definition set_is_saving : bool -> ColorPicker -> ColorPicker :=
  ltac:(field_setter eta is_saving).
Definition set_input_text : string -> ColorPicker -> ColorPicker :=
  ltac:(field_setter eta input_text).
Definition set_editing_mode : EditMode -> ColorPicker -> ColorPicker :=
  ltac:(field_setter eta editing_mode).
Definition set_animation_mode : Z -> ColorPicker -> ColorPicker :=
  ltac:(field_setter eta animation_mode).
Definition set_overhead_mode : Z -> ColorPicker -> ColorPicker :=
  ltac:(field_setter eta overhead_mode).
Definition set_frame_counter : Z -> ColorPicker -> ColorPicker :=
  ltac:(field_setter eta frame_counter).
Definition set_colors_changed : bool -> ColorPicker -> ColorPicker :=
  ltac:(field_setter eta colors_changed).
Definition set_key_hold_timers : (Key -> option Z) -> ColorPicker -> ColorPicker :=
  ltac:(field_setter eta key_hold_timers).
Definition set_key_repeat_timers : (Key -> option Z) -> ColorPicker -> ColorPicker :=
  ltac:(field_setter eta key_repeat_timers).
Definition set_color_file : option string -> ColorPicker -> ColorPicker :=
  ltac:(field_setter eta color_file).

(** [d[k] = v] and [del d[k]] on a dict keyed by key code. *)
Definition dict_set (d : Key -> option Z) (k : Key) (v : Z) : Key -> option Z :=
  fun k' => if decide (k' = k) then Some v else d k'.
Definition dict_del (d : Key -> option Z) (k : Key) : Key -> option Z :=
  fun k' => if decide (k' = k) then None else d k'.

(** [tuple(l)] for the three-element list of the colour being edited. *)
Definition tuple3 (l : list Z) : RGB := (nth 0 l 0, nth 1 l 0, nth 2 l 0).
(** [list(t)] *)
Definition list3 (t : RGB) : list Z := [t.1.1; t.1.2; t.2].

(** ** The colour file *)

(** One line of [save_colors]:
    [f"{name},{led[0]},{led[1]},{led[2]},{disp[0]},{disp[1]},{disp[2]}\n"]
    without the final newline. *)
Definition entry_text (e : ColorEntry) : string :=
  let '(name, (lr, lg, lb), (dr, dg, db)) := e in
  name +:+ "," +:+ Text.str lr +:+ "," +:+ Text.str lg +:+ ","
       +:+ Text.str lb +:+ "," +:+ Text.str dr +:+ "," +:+ Text.str dg
       +:+ "," +:+ Text.str db.

Definition entry_line (e : ColorEntry) : string :=
  entry_text e +:+ String Text.LF EmptyString.

Definition file_text (l : list ColorEntry) : string :=
  Text.concat (map entry_line l).

(** [save_colors]: the file is rewritten from [saved_colors] (opening the
    file for writing is taken to succeed). *)
Definition save_colors : M ColorPicker unit :=
  p <- get ;;
  modify (set_color_file (Some (file_text (saved_colors p)))).

(** [tuple(int(c) for c in parts)]; [None] when some [int(c)] raises. *)
Fixpoint ints (parts : list string) : option (list Z) :=
  match parts with
  | [] => Some []
  | c :: rest =>
      match Text.int c with
      | None => None
      | Some z => match ints rest with
                  | None => None
                  | Some zs => Some (z :: zs)
                  end
      end
  end.

(** The body of the [for line in f] loop of [load_colors], on the entries
    read so far and the [converted_from_old] flag; [None] when an [int()]
    raises [ValueError]. *)
Definition read_line (acc : list ColorEntry * bool) (line : string)
  : option (list ColorEntry * bool) :=
  let line := Text.strip line in
  if negb (nonempty line) then Some acc
  else
    let parts := Text.split Text.comma line in
    let name := hd EmptyString parts in
    if (length parts =? 4)%nat then
      match ints (drop 1 parts) with
      | None => None
      | Some rgb => Some (acc.1 ++ [(name, tuple3 rgb, tuple3 rgb)], true)
      end
    else if (length parts =? 7)%nat then
      match ints (take 3 (drop 1 parts)) with
      | None => None
      | Some led =>
          match ints (take 3 (drop 4 parts)) with
          | None => None
          | Some disp => Some (acc.1 ++ [(name, tuple3 led, tuple3 disp)], acc.2)
          end
      end
    else Some acc.

Fixpoint read_lines (acc : list ColorEntry * bool) (lines : list string)
  : option (list ColorEntry * bool) :=
  match lines with
  | [] => Some acc
  | line :: rest =>
      match read_line acc line with
      | None => None
      | Some acc' => read_lines acc' rest
      end
  end.

Definition black : ColorEntry := ("Black"%string, (0, 0, 0), (0, 0, 0)).

(** The built-in list written when the file is missing. *)
Definition default_colors : list ColorEntry :=
  [ ("Default Red"%string, (255, 0, 0), (200, 0, 0));
    black;
    ("Default White"%string, (255, 255, 255), (255, 255, 255)) ].

(** The built-in list of the [except] branch. *)
Definition fallback_colors : list ColorEntry :=
  [ ("Default Red"%string, (255, 0, 0), (200, 0, 0));
    black;
    ("White"%string, (255, 255, 255), (255, 255, 255)) ].

Definition load_colors : M ColorPicker unit :=
  p <- get ;;
  match color_file p with
  | None =>
      modify (set_saved_colors default_colors) ;;;
      save_colors
  | Some txt =>
      modify (set_saved_colors []) ;;;
      match read_lines ([], false) (Text.file_lines txt) with
      | None =>
          (* except Exception *)
          modify (set_saved_colors fallback_colors)
      | Some (colors, converted_from_old) =>
          modify (set_saved_colors colors) ;;;
          when converted_from_old save_colors ;;;
          p <- get ;;
          when (length (saved_colors p) <? 2)%nat
               (modify (set_saved_colors (saved_colors p ++ [black])))
      end
  end.

(** ** Selection and editing *)

Definition update_current_colors_from_selection : M ColorPicker unit :=
  p <- get ;;
  when (negb (bool_decide (saved_colors p = []))
        && (primary_index p <? Z.of_nat (length (saved_colors p))))
    (match index (saved_colors p) (primary_index p) with
     | None => raise IndexError
     | Some (_, led_rgb, display_rgb) =>
         modify (set_current_led_rgb (list3 led_rgb)) ;;;
         modify (set_current_display_rgb (list3 display_rgb))
     end).

(** [self.saved_colors[self.primary_index] = e] *)
Definition store_at_primary (e : ColorEntry) : M ColorPicker unit :=
  p <- get ;;
  match assign (saved_colors p) (primary_index p) e with
  | None => raise IndexError
  | Some l => modify (set_saved_colors l)
  end.

(** [rgb_key_map] of [handle_input]: channel index and step. *)
Definition rgb_key_map (k : Key) : option (Z * Z) :=
  match k with
  | K_r => Some (0, 1) | K_f => Some (0, -1)
  | K_t => Some (1, 1) | K_g => Some (1, -1)
  | K_y => Some (2, 1) | K_h => Some (2, -1)
  | _ => None
  end.

(** [rgb_key_map] of [process_key_holds], in insertion order. *)
Definition hold_key_map : list (Key * (Z * Z)) :=
  [ (K_r, (0, 2)); (K_f, (0, -2)); (K_t, (1, 2)); (K_g, (1, -2));
    (K_y, (2, 2)); (K_h, (2, -2)) ].

(** [rgb_to_edit[index] = max(0, min(255, rgb_to_edit[index] + direction))]
    where [rgb_to_edit] aliases the list selected by [editing_mode]. *)
Definition adjust_channel (idx direction : Z) : M ColorPicker unit :=
  p <- get ;;
  let rgb_to_edit :=
    match editing_mode p with
    | LED => current_led_rgb p
    | DISPLAY => current_display_rgb p
    end in
  match index rgb_to_edit idx with
  | None => raise IndexError
  | Some v =>
      match assign rgb_to_edit idx (Z.max 0 (Z.min 255 (v + direction))) with
      | None => raise IndexError
      | Some l =>
          match editing_mode p with
          | LED => modify (set_current_led_rgb l)
          | DISPLAY => modify (set_current_display_rgb l)
          end
      end
  end.

(** [s[:-1]] *)
Fixpoint drop_last (s : string) : string :=
  match s with
  | EmptyString => EmptyString
  | String c EmptyString => EmptyString
  | String c s' => String c (drop_last s')
  end.

(** One [KEYDOWN] event while the rename box is open. *)
Definition keydown_saving (key : Key) (unicode : string) : M ColorPicker unit :=
  p <- get ;;
  match key with
  | K_RETURN =>
      when (nonempty (input_text p))
        (store_at_primary (input_text p, tuple3 (current_led_rgb p),
                           tuple3 (current_display_rgb p)) ;;;
         save_colors ;;;
         modify (set_is_saving false) ;;;
         modify (set_input_text EmptyString))
  | K_BACKSPACE => modify (set_input_text (drop_last (input_text p)))
  | K_ESCAPE =>
      modify (set_is_saving false) ;;;
      modify (set_input_text EmptyString)
  | _ => modify (set_input_text (input_text p +:+ unicode))
  end.

(** One [KEYDOWN] event in the normal mode; the result is [false] when
    [handle_input] returns [False] at this event. *)
Definition keydown_normal (now : Z) (key : Key) : M ColorPicker bool :=
  p <- get ;;
  let has_colors := negb (bool_decide (saved_colors p = [])) in
  let len := Z.of_nat (length (saved_colors p)) in
  match key with
  | K_ESCAPE => ret false
  | K_UP =>
      when has_colors
        (modify (set_primary_index (Z.max 0 (primary_index p - 1))) ;;;
         update_current_colors_from_selection) ;;;
      ret true
  | K_DOWN =>
      when has_colors
        (modify (set_primary_index (Z.min (len - 1) (primary_index p + 1))) ;;;
         update_current_colors_from_selection) ;;;
      ret true
  | K_PAGEUP =>
      when has_colors
        (modify (set_secondary_index (Z.max 0 (secondary_index p - 1)))) ;;;
      ret true
  | K_PAGEDOWN =>
      when has_colors
        (modify (set_secondary_index
                   (Z.min (len - 1) (secondary_index p + 1)))) ;;;
      ret true
  | K_TAB =>
      modify (set_editing_mode
                match editing_mode p with LED => DISPLAY | DISPLAY => LED end) ;;;
      ret true
  | K_o => modify (set_overhead_mode ((overhead_mode p + 1) mod 5)) ;;; ret true
  | K_s =>
      when has_colors
        (match index (saved_colors p) (primary_index p) with
         | None => raise IndexError
         | Some e =>
             modify (set_input_text (entry_name e)) ;;;
             modify (set_is_saving true)
         end) ;;;
      ret true
  | K_a =>
      modify (set_saved_colors
                (saved_colors p ++ [("New Color"%string, (0, 0, 0), (0, 0, 0))])) ;;;
      modify (set_primary_index (len + 1 - 1)) ;;;
      update_current_colors_from_selection ;;;
      modify (set_colors_changed true) ;;;
      ret true
  | K_DELETE =>
      when (has_colors && (1 <? len))
        (match pop (saved_colors p) (primary_index p) with
         | None => raise IndexError
         | Some l =>
             modify (set_saved_colors l) ;;;
             let len' := Z.of_nat (length l) in
             modify (set_primary_index (Z.min (primary_index p) (len' - 1))) ;;;
             modify (set_secondary_index
                       (Z.min (secondary_index p) (len' - 1))) ;;;
             update_current_colors_from_selection ;;;
             save_colors
         end) ;;;
      ret true
  | K_SPACE =>
      modify (set_animation_mode ((animation_mode p + 1) mod 2)) ;;; ret true
  | _ =>
      match rgb_key_map key with
      | Some (idx, direction) =>
          adjust_channel idx direction ;;;
          modify (set_colors_changed true) ;;;
          modify (fun p => set_key_hold_timers
                             (dict_set (key_hold_timers p) key now) p) ;;;
          modify (fun p => set_key_repeat_timers
                             (dict_set (key_repeat_timers p) key now) p) ;;;
          ret true
      | None => ret true
      end
  end.

(** The body of the [for event in pygame.event.get()] loop of
    [handle_input]; [now] is [pygame.time.get_ticks()]. *)
Definition handle_event (now : Z) (ev : Event) : M ColorPicker bool :=
  match ev with
  | QUIT => ret false
  | KEYUP key =>
      modify (fun p => set_key_hold_timers (dict_del (key_hold_timers p) key) p) ;;;
      modify (fun p => set_key_repeat_timers
                         (dict_del (key_repeat_timers p) key) p) ;;;
      ret true
  | KEYDOWN key unicode =>
      p <- get ;;
      if is_saving p then keydown_saving key unicode ;;; ret true
      else keydown_normal now key
  | OTHER => ret true
  end.

Fixpoint handle_input (now : Z) (events : list Event) : M ColorPicker bool :=
  match events with
  | [] => ret true
  | ev :: rest =>
      continue <- handle_event now ev ;;
      if continue then handle_input now rest else ret false
  end.

(** [process_key_holds]; [pressed] is [pygame.key.get_pressed()]. *)
Definition hold_step (now : Z) (pressed : Key -> bool)
    (entry : Key * (Z * Z)) : M ColorPicker unit :=
  let '(key, (idx, direction)) := entry in
  p <- get ;;
  match key_hold_timers p key with
  | Some held =>
      when (pressed key && (400 <? now - held))
        (match key_repeat_timers p key with
         | None => raise KeyError
         | Some last =>
             when (30 <? now - last)
               (modify (set_key_repeat_timers
                          (dict_set (key_repeat_timers p) key now)) ;;;
                adjust_channel idx direction ;;;
                modify (set_colors_changed true))
         end)
  | None => ret tt
  end.

Definition process_key_holds (now : Z) (pressed : Key -> bool) : M ColorPicker unit :=
  p <- get ;;
  if is_saving p then ret tt
  else for_each (hold_step now pressed) hold_key_map.

(** The store-related part of one iteration of [run], after
    [handle_input] and [process_key_holds]: the edited colour is written
    back to the selected entry and the file is saved. *)
Definition flush_changes : M ColorPicker unit :=
  modify (fun p => set_frame_counter (frame_counter p + 1) p) ;;;
  p <- get ;;
  when (colors_changed p)
    (when (negb (bool_decide (saved_colors p = [])) && negb (is_saving p))
       (match index (saved_colors p) (primary_index p) with
        | None => raise IndexError
        | Some (name, _, _) =>
            store_at_primary (name, tuple3 (current_led_rgb p),
                              tuple3 (current_display_rgb p)) ;;;
            save_colors ;;;
            modify (set_colors_changed false)
        end)).

(** The object [__init__] builds, before [load_colors] runs, given the
    state of the colour file. *)
Definition new_picker (file : option string) : ColorPicker :=
  {| saved_colors := []; primary_index := 0; secondary_index := 1;
     current_led_rgb := [0; 0; 0]; current_display_rgb := [0; 0; 0];
     is_saving := false; input_text := EmptyString; editing_mode := LED;
     animation_mode := 0; overhead_mode := 0; frame_counter := 0;
     colors_changed := false;
     key_hold_timers := fun _ => None; key_repeat_timers := fun _ => None;
     color_file := file |}.

Definition init : M ColorPicker unit :=
  load_colors ;;;
  p <- get ;;
  when (negb (bool_decide (saved_colors p = [])))
       update_current_colors_from_selection.

(** One iteration of the [run] loop as far as the store is concerned:
    the queued events, the key repeats, the write-back.  (Rendering to the
    strip and to the screen reads the store and never writes it.) *)
Definition run_iteration (now : Z) (pressed : Key -> bool)
    (events : list Event) : M ColorPicker unit :=
  handle_input now events ;;;
  process_key_holds now pressed ;;;
  flush_changes.

(** ** Names that survive the file format *)







(** ** The round trip as a property of every store *)


(** A picker holding the entries [l], with no file yet. *)
Definition picker_with (l : list ColorEntry) : ColorPicker :=
  set_saved_colors l (new_picker None).

Definition red : ColorEntry := ("Red"%string, (255, 0, 0), (200, 0, 0)).
Definition indented : ColorEntry := (" Red"%string, (255, 0, 0), (200, 0, 0)).

(** The invariant: the store holds at least one entry. *)
Definition stocked (p : ColorPicker) : Prop := (0 < length (saved_colors p))%nat.

(** ** The main loop: what it relies on and what it keeps *)

(** ** What the main loop relies on *)

(** The selection is on the store, the colour being edited has its three
    channels, and a key that is being held has its repeat timer. *)
Definition sound (p : ColorPicker) : Prop :=
  0 <= primary_index p < Z.of_nat (length (saved_colors p))
  /\ length (current_led_rgb p) = 3%nat
  /\ length (current_display_rgb p) = 3%nat
  /\ (forall k, key_hold_timers p k <> None -> key_repeat_timers p k <> None).

(** The secondary selection is on the store. *)
Definition sec_ok (p : ColorPicker) : Prop :=
  0 <= secondary_index p < Z.of_nat (length (saved_colors p)).

Definition chan_ok (z : Z) : Prop := 0 <= z <= 255.

Definition rgb_ok (c : RGB) : Prop :=
  chan_ok c.1.1 /\ chan_ok c.1.2 /\ chan_ok c.2.

(** Every channel, of the colour being edited and of the store, is a byte. *)
Definition in_gamut (p : ColorPicker) : Prop :=
  Forall chan_ok (current_led_rgb p)
  /\ Forall chan_ok (current_display_rgb p)
  /\ Forall (fun e => rgb_ok (entry_led e) /\ rgb_ok (entry_display e))
            (saved_colors p).

(** The colour file holds the store, unless a change is still pending. *)
Definition synced (p : ColorPicker) : Prop :=
  colors_changed p = false ->
  color_file p = Some (file_text (saved_colors p)).

(** [sound], with [sec_ok] when [A] holds, [in_gamut] when [B] holds and
    [synced] when [C] holds. *)
Definition fit (A B C : Prop) (p : ColorPicker) : Prop :=
  sound p /\ (A -> sec_ok p) /\ (B -> in_gamut p) /\ (C -> synced p).

(** The attributes a statement leaves alone. *)
Definition same_store (p p' : ColorPicker) : Prop :=
  saved_colors p' = saved_colors p
  /\ primary_index p' = primary_index p
  /\ secondary_index p' = secondary_index p
  /\ is_saving p' = is_saving p
  /\ color_file p' = color_file p
  /\ colors_changed p' = colors_changed p.

(** Every string of [parts] is an integer literal for [int()]. *)
Definition numbers (parts : list string) : bool :=
  forallb (fun c => bool_decide (Text.int c <> None)) parts.

(** A line of the colour file that has four or seven fields, one of the
    fields after the name not being an integer literal. *)
Definition garbled (line : string) : bool :=
  let parts := Text.split Text.comma (Text.strip line) in
  nonempty (Text.strip line)
  && ((length parts =? 4)%nat || (length parts =? 7)%nat)
  && negb (numbers (drop 1 parts)).

(** A key that, in the rename box, adds its character to the text. *)
Definition types (k : Key) : bool :=
  match k with
  | K_RETURN | K_BACKSPACE | K_ESCAPE => false
  | _ => true
  end.

(** The key presses that type [keys], each with its character. *)
Definition typing (keys : list (Key * string)) : list Event :=
  map (fun k => KEYDOWN k.1 k.2) keys.

Definition typed_text (keys : list (Key * string)) : string :=
  Text.concat (map snd keys).

(** The picker as it starts when there is no colour file. *)
Definition picker_ready : ColorPicker := exec init (new_picker None).

(** A colour file with a malformed number in its second line. *)
Definition spoiled_file : string :=
  entry_line red +:+ "Teal,0,x80,128,0,100,100"
             +:+ String Text.LF (entry_line black).

(** A colour file without an entry: a line that is no entry and a blank one. *)
Definition blank_file : string :=
  "# colours" +:+ String Text.LF (String Text.LF EmptyString).

(** ** The LED strip

    [self.pixels] is [None] or a strip; the strip is its buffer of colours
    and the number of [show()] calls made on it.  How the driver encodes a
    colour is outside the model. *)

Definition BASE_LED_COUNT : Z := 201.
Definition BLANK_LED_COUNT : Z := 0.
Definition OVERHEAD_LED_COUNT : Z := 128.
Definition TOTAL_LED_COUNT : Z :=
  BASE_LED_COUNT + BLANK_LED_COUNT + OVERHEAD_LED_COUNT.
Definition OVERHEAD_START_INDEX : Z := BASE_LED_COUNT + BLANK_LED_COUNT.
Definition FPS : Z := 60.
Definition C_BLACK : RGB := (0, 0, 0).

Record Strip : Type := {
  leds : list RGB;
  shown : nat
}.

(** Truth value of [self.pixels]: a strip without LEDs is falsy. *)
Definition lit (pixels : option Strip) : bool :=
  match pixels with
  | Some px => negb (length (leds px) =? 0)%nat
  | None => false
  end.

(** [self.pixels[i] = c] *)
Definition write_led (c : RGB) (i : Z) : M (option Strip) unit :=
  pixels <- get ;;
  match pixels with
  | None => raise TypeError
  | Some px =>
      match assign (leds px) i c with
      | None => raise IndexError
      | Some l => put (Some {| leds := l; shown := shown px |})
      end
  end.

(** [range(a, b)] *)
Definition range (a b : Z) : list Z := seqZ a (b - a).

(** [for i in range(a, b): self.pixels[i] = f(i)] *)
Definition paint (f : Z -> RGB) (a b : Z) : M (option Strip) unit :=
  for_each (fun i => write_led (f i) i) (range a b).

(** [self.pixels.show()] *)
Definition show_leds : M (option Strip) unit :=
  pixels <- get ;;
  match pixels with
  | None => raise AttributeError
  | Some px => put (Some {| leds := leds px; shown := S (shown px) |})
  end.

Section Leds.

(** [dim c progress] stands for
    [int(c * math.sin((progress / pulse_duration) * math.pi))], the
    floating-point part of the breathing pattern. *)
Variable dim : Z -> Z -> Z.

(** The three parts of [update_leds], for the primary and the secondary
    LED colour. *)
Definition base_strip_animation (p : ColorPicker) (pri_led_color sec_led_color : RGB)
  : M (option Strip) unit :=
  if animation_mode p =? 0 then
    paint (fun _ => pri_led_color) 0 BASE_LED_COUNT
  else if animation_mode p =? 1 then
    let chase_offset := frame_counter p / 2 in
    paint (fun i => if (i + chase_offset) mod 10 <? 5 then pri_led_color
                    else sec_led_color) 0 BASE_LED_COUNT
  else ret tt.

Definition blank_strip_section : M (option Strip) unit :=
  paint (fun _ => C_BLACK) BASE_LED_COUNT OVERHEAD_START_INDEX.

Definition overhead_strip_animation (p : ColorPicker)
    (pri_led_color sec_led_color : RGB) : M (option Strip) unit :=
  if overhead_mode p =? 0 then
    paint (fun _ => C_BLACK) OVERHEAD_START_INDEX TOTAL_LED_COUNT
  else if overhead_mode p =? 1 then
    paint (fun _ => pri_led_color) OVERHEAD_START_INDEX TOTAL_LED_COUNT
  else if overhead_mode p =? 2 then
    paint (fun _ => sec_led_color) OVERHEAD_START_INDEX TOTAL_LED_COUNT
  else if overhead_mode p =? 3 then
    let cycle_time := FPS in
    let color_to_show :=
      if (frame_counter p / cycle_time) mod 2 =? 0 then pri_led_color
      else sec_led_color in
    paint (fun _ => color_to_show) OVERHEAD_START_INDEX TOTAL_LED_COUNT
  else if overhead_mode p =? 4 then
    let pulse_duration := 2 * FPS in
    let target_color :=
      if (frame_counter p / pulse_duration) mod 2 =? 0 then pri_led_color
      else sec_led_color in
    let progress := frame_counter p mod pulse_duration in
    let breathe_color :=
      (dim target_color.1.1 progress, dim target_color.1.2 progress,
       dim target_color.2 progress) in
    paint (fun _ => breathe_color) OVERHEAD_START_INDEX TOTAL_LED_COUNT
  else ret tt.

(** [self.saved_colors[self.secondary_index][1] if self.saved_colors
    else C_BLACK]; [None] stands for [IndexError]. *)
Definition secondary_led_color (p : ColorPicker) : option RGB :=
  if bool_decide (saved_colors p = []) then Some C_BLACK
  else option_map entry_led (index (saved_colors p) (secondary_index p)).

(** [update_leds]: reads the picker [p], writes the strip. *)
Definition update_leds (p : ColorPicker) : M (option Strip) unit :=
  pixels <- get ;;
  if negb (lit pixels) then ret tt
  else
    let pri_led_color := tuple3 (current_led_rgb p) in
    match secondary_led_color p with
    | None => raise IndexError
    | Some sec_led_color =>
        base_strip_animation p pri_led_color sec_led_color ;;;
        blank_strip_section ;;;
        overhead_strip_animation p pri_led_color sec_led_color ;;;
        show_leds
    end.

(** The picker and its strip. *)
Definition Rig : Type := ColorPicker * option Strip.

Definition on_picker {A} (m : M ColorPicker A) : M Rig A :=
  fun r => match m r.1 with
           | Returned a p => Returned a (p, r.2)
           | Raised e p => Raised e (p, r.2)
           end.

Definition on_strip {A} (m : ColorPicker -> M (option Strip) A) : M Rig A :=
  fun r => match m r.1 r.2 with
           | Returned a px => Returned a (r.1, px)
           | Raised e px => Raised e (r.1, px)
           end.

(** One iteration of the [while running] loop of [run], up to the strip;
    the result is the new value of [running].  ([draw] and the clock tick
    read the picker and write neither it nor the strip.) *)
Definition run_frame (now : Z) (pressed : Key -> bool) (events : list Event)
  : M Rig bool :=
  running <- on_picker (handle_input now events) ;;
  on_picker (process_key_holds now pressed) ;;;
  on_picker flush_changes ;;;
  on_strip update_leds ;;;
  ret running.

End Leds.

(** The strip [__init__] builds on the Pi. *)
Definition new_strip : Strip :=
  {| leds := replicate (Z.to_nat TOTAL_LED_COUNT) (0, 0, 0); shown := 0 |}.

(** No key goes down in the event. *)
Definition quiet (ev : Event) : bool :=
  match ev with
  | KEYDOWN _ _ => false
  | _ => true
  end.

(** The picker as [__init__] leaves it on a colour file without an entry:
    the store is ["Black"] alone, no change is pending and no key is held. *)
Definition bare (p : ColorPicker) : Prop :=
  saved_colors p = [black] /\ secondary_index p = 1
  /\ is_saving p = false /\ colors_changed p = false
  /\ forall k, key_hold_timers p k = None.

(** The strip has all the LEDs [update_leds] writes. *)
Definition full_strip (pixels : option Strip) : Prop :=
  match pixels with
  | Some px => TOTAL_LED_COUNT <= Z.of_nat (length (leds px))
  | None => True
  end.

End LED_color_picker.


(* ===================================================================== *)
(** * [scoreboard.py]: game state, handlers, timers and LED helpers *)
(* ===================================================================== *)

(** The file holds two variants of the program; the first one (with RFID
    profiles and per-team celebrations) is the one modelled here. *)

Module scoreboard.

Import Py.

Definition RGB : Type := Z * Z * Z.

(** ** Configuration constants *)

Definition BASE_COUNT : Z := 201.
Definition UNUSED_COUNT : Z := 0.
Definition OVERHEAD_COUNT : Z := 128.
Definition TOTAL_LED_COUNT : Z := BASE_COUNT + UNUSED_COUNT + OVERHEAD_COUNT.
Definition OVERHEAD_START_INDEX : Z := BASE_COUNT + UNUSED_COUNT.
(** [LED_BRIGHTNESS = 0.5]; the brightness of the strip only ever holds
    this constant or [1.0], and no arithmetic is done on it. *)
Definition LED_BRIGHTNESS : Q := Qmake 1 2.
Definition FULL_BRIGHTNESS : Q := Qmake 1 1.
Definition FPS : Z := 60.
(** [MOTOR_RUN_TIME * 1000], in milliseconds. *)
Definition MOTOR_RUN_MS : Z := 500.

Definition COLOR_BLACK : RGB := (0, 0, 0).
Definition COLOR_WHITE : RGB := (255, 255, 255).

Definition PLAYER_NAMES : list string :=
  [ "USSR"; "USA"; "Grandpa"; "Oma"; "Kristin"; "Allie"; "Mike"; "Joe";
    "Megan"; "Bobby"; "Lauren"; "Sammi"; "Maria"; "Becca"; "Patrick";
    "Josie"; "Andrew"; "Emma"; "Daniel"; "Lizzie"; "Twin A"; "Twin B";
    "Tom"; "Rachel"; "Matt"; "Ryan" ]%string.
Definition VISITOR_NAMES : list string :=
  List.filter (fun n => negb (String.eqb n "USA")) PLAYER_NAMES.
Definition HOME_NAMES : list string :=
  List.filter (fun n => negb (String.eqb n "USSR")) PLAYER_NAMES.

(** ** Data *)

(** An entry of [self.custom_colors]: [{'name': .., 'led': .., 'display': ..}]. *)
Record ColorDict : Type := {
  color_name : string;
  color_led : RGB;
  color_display : RGB
}.

(** A value of the player file: [{"name": .., "primary_color": ..,
    "secondary_color": ..}]. *)
Record PlayerData : Type := {
  profile_name : string;
  primary_color : string;
  secondary_color : string
}.

(** [self.game_state.game_mode] is ['SETUP'], ['GAME'] or ['VIDEO']. *)
Inductive Mode : Type := SETUP | GAME | VIDEO.

#[global] Instance Mode_eq_dec : EqDecision Mode.
Proof. solve_decision. Defined.

(** A firework particle; its position and velocity are floating-point and
    are left out, no handler modelled here reads them. *)
Record Particle : Type := {
  particle_color : RGB;
  lifetime : Z
}.

(** A [Dropdown] of the set-up screen. *)
Record Dropdown : Type := {
  options : list string;
  selected_index : Z
}.

Definition select (i : Z) (dd : Dropdown) : Dropdown :=
  {| options := options dd; selected_index := i |}.

(** The [NeoPixel] strip: global brightness, the pixel buffer, and the
    number of [show()] calls, that is, of transfers to the hardware. *)
Record NeoPixel : Type := {
  brightness : Q;
  buf : list RGB;
  shows : nat
}.

Inductive Sound : Type := GoalHorn | Shot | Faceoff | Buzzer | Rfid.

(** [GameState]; [volume] is kept in tenths (the code rounds it to one
    decimal), [time_multiplier] moves in whole steps between 1.0 and 20.0
    and the clock is counted in milliseconds, so [Z] is exact for them. *)
Record GameState : Type := {
  game_mode : Mode;
  player1_name : string;
  player2_name : string;
  player1_primary_color : option ColorDict;
  player1_secondary_color : option ColorDict;
  player2_primary_color : option ColorDict;
  player2_secondary_color : option ColorDict;
  player1_ready : bool;
  player2_ready : bool;
  show_rfid_popup_for_player : option Z;
  rfid_save_message : string;
  rfid_save_message_end_time : Z;
  rfid_save_message_player : option Z;
  rfid_load_message : string;
  rfid_load_message_end_time : Z;
  rfid_load_message_player : option Z;
  rfid_welcome_message : string;
  rfid_welcome_message_end_time : Z;
  rfid_welcome_message_player : option Z;
  rfid_welcome_message_color : RGB;
  rfid_away_cooldown_end_time : Z;
  rfid_home_cooldown_end_time : Z;
  rfid_scan_animation_active : bool;
  rfid_scan_animation_player : option Z;
  rfid_scan_animation_start_time : Z;
  rfid_scan_animation_end_time : Z;
  rfid_scan_animation_pri_color : RGB;
  rfid_scan_animation_sec_color : RGB;
  volume : Z;
  usa_score : Z;
  ussr_score : Z;
  usa_sog : Z;
  ussr_sog : Z;
  period : Z;
  game_clock : Z;
  game_active : bool;
  game_over : bool;
  time_multiplier : Z;
  goal_celebration_team : option string;
  intermission_active : bool;
  overtime_active : bool;
  intermission_timer : Z;
  goal_celebration_timer : Z;
  is_muted : bool;
  volume_before_mute : Z;
  recent_sog_timer : Z;
  goal_animation_active : bool;
  goal_animation_timer : Z;
  goal_animation_frame_counter : Z;
  goal_animation_color : RGB;
  goal_animation_color_sec : RGB;
  idle_animation_step : Z;
  particles : list Particle;
  game_end_celebration_active : bool;
  winner_name : string;
  motor_active : bool;
  motor_stop_time : Z;
  goal_expand_step : Z;
  goal_expand_direction : Z;
  goal_expand_center : Z;
  usa_special_celebration : bool;
  usa_special_colors : option (list RGB);
  ussr_special_celebration : bool;
  ussr_special_colors : option (list RGB);
  game_lights_set : bool
}.

Definition eta_GameState (g : GameState) : GameState :=
  {| game_mode := game_mode g; player1_name := player1_name g; player2_name
     := player2_name g; player1_primary_color := player1_primary_color g;
     player1_secondary_color := player1_secondary_color g;
     player2_primary_color := player2_primary_color g;
     player2_secondary_color := player2_secondary_color g; player1_ready :=
     player1_ready g; player2_ready := player2_ready g;
     show_rfid_popup_for_player := show_rfid_popup_for_player g;
     rfid_save_message := rfid_save_message g; rfid_save_message_end_time :=
     rfid_save_message_end_time g; rfid_save_message_player :=
     rfid_save_message_player g; rfid_load_message := rfid_load_message g;
     rfid_load_message_end_time := rfid_load_message_end_time g;
     rfid_load_message_player := rfid_load_message_player g;
     rfid_welcome_message := rfid_welcome_message g;
     rfid_welcome_message_end_time := rfid_welcome_message_end_time g;
     rfid_welcome_message_player := rfid_welcome_message_player g;
     rfid_welcome_message_color := rfid_welcome_message_color g;
     rfid_away_cooldown_end_time := rfid_away_cooldown_end_time g;
     rfid_home_cooldown_end_time := rfid_home_cooldown_end_time g;
     rfid_scan_animation_active := rfid_scan_animation_active g;
     rfid_scan_animation_player := rfid_scan_animation_player g;
     rfid_scan_animation_start_time := rfid_scan_animation_start_time g;
     rfid_scan_animation_end_time := rfid_scan_animation_end_time g;
     rfid_scan_animation_pri_color := rfid_scan_animation_pri_color g;
     rfid_scan_animation_sec_color := rfid_scan_animation_sec_color g; volume
     := volume g; usa_score := usa_score g; ussr_score := ussr_score g;
     usa_sog := usa_sog g; ussr_sog := ussr_sog g; period := period g;
     game_clock := game_clock g; game_active := game_active g; game_over :=
     game_over g; time_multiplier := time_multiplier g; goal_celebration_team
     := goal_celebration_team g; intermission_active := intermission_active
     g; overtime_active := overtime_active g; intermission_timer :=
     intermission_timer g; goal_celebration_timer := goal_celebration_timer
     g; is_muted := is_muted g; volume_before_mute := volume_before_mute g;
     recent_sog_timer := recent_sog_timer g; goal_animation_active :=
     goal_animation_active g; goal_animation_timer := goal_animation_timer g;
     goal_animation_frame_counter := goal_animation_frame_counter g;
     goal_animation_color := goal_animation_color g; goal_animation_color_sec
     := goal_animation_color_sec g; idle_animation_step :=
     idle_animation_step g; particles := particles g;
     game_end_celebration_active := game_end_celebration_active g;
     winner_name := winner_name g; motor_active := motor_active g;
     motor_stop_time := motor_stop_time g; goal_expand_step :=
     goal_expand_step g; goal_expand_direction := goal_expand_direction g;
     goal_expand_center := goal_expand_center g; usa_special_celebration :=
     usa_special_celebration g; usa_special_colors := usa_special_colors g;
     ussr_special_celebration := ussr_special_celebration g;
     ussr_special_colors := ussr_special_colors g; game_lights_set :=
     game_lights_set g |}.

Definition set_game_mode : Mode -> GameState -> GameState :=
  ltac:(field_setter eta_GameState game_mode).
Definition set_player1_name : string -> GameState -> GameState :=
  ltac:(field_setter eta_GameState player1_name).
Definition set_player2_name : string -> GameState -> GameState :=
  ltac:(field_setter eta_GameState player2_name).
Definition set_player1_primary_color : (option ColorDict) -> GameState -> GameState :=
  ltac:(field_setter eta_GameState player1_primary_color).
Definition set_player1_secondary_color : (option ColorDict) -> GameState -> GameState :=
  ltac:(field_setter eta_GameState player1_secondary_color).
Definition set_player2_primary_color : (option ColorDict) -> GameState -> GameState :=
  ltac:(field_setter eta_GameState player2_primary_color).
Definition set_player2_secondary_color : (option ColorDict) -> GameState -> GameState :=
  ltac:(field_setter eta_GameState player2_secondary_color).
Definition set_player1_ready : bool -> GameState -> GameState :=
  ltac:(field_setter eta_GameState player1_ready).
Definition set_player2_ready : bool -> GameState -> GameState :=
  ltac:(field_setter eta_GameState player2_ready).
Definition set_rfid_save_message : string -> GameState -> GameState :=
  ltac:(field_setter eta_GameState rfid_save_message).
Definition set_rfid_load_message : string -> GameState -> GameState :=
  ltac:(field_setter eta_GameState rfid_load_message).
Definition set_rfid_load_message_end_time : Z -> GameState -> GameState :=
  ltac:(field_setter eta_GameState rfid_load_message_end_time).
Definition set_rfid_load_message_player : (option Z) -> GameState -> GameState :=
  ltac:(field_setter eta_GameState rfid_load_message_player).
Definition set_rfid_welcome_message : string -> GameState -> GameState :=
  ltac:(field_setter eta_GameState rfid_welcome_message).
Definition set_rfid_welcome_message_end_time : Z -> GameState -> GameState :=
  ltac:(field_setter eta_GameState rfid_welcome_message_end_time).
Definition set_rfid_welcome_message_player : (option Z) -> GameState -> GameState :=
  ltac:(field_setter eta_GameState rfid_welcome_message_player).
Definition set_rfid_welcome_message_color : RGB -> GameState -> GameState :=
  ltac:(field_setter eta_GameState rfid_welcome_message_color).
Definition set_rfid_scan_animation_active : bool -> GameState -> GameState :=
  ltac:(field_setter eta_GameState rfid_scan_animation_active).
Definition set_rfid_scan_animation_player : (option Z) -> GameState -> GameState :=
  ltac:(field_setter eta_GameState rfid_scan_animation_player).
Definition set_rfid_scan_animation_start_time : Z -> GameState -> GameState :=
  ltac:(field_setter eta_GameState rfid_scan_animation_start_time).
Definition set_rfid_scan_animation_end_time : Z -> GameState -> GameState :=
  ltac:(field_setter eta_GameState rfid_scan_animation_end_time).
Definition set_rfid_scan_animation_pri_color : RGB -> GameState -> GameState :=
  ltac:(field_setter eta_GameState rfid_scan_animation_pri_color).
Definition set_rfid_scan_animation_sec_color : RGB -> GameState -> GameState :=
  ltac:(field_setter eta_GameState rfid_scan_animation_sec_color).
Definition set_volume : Z -> GameState -> GameState :=
  ltac:(field_setter eta_GameState volume).
Definition set_usa_score : Z -> GameState -> GameState :=
  ltac:(field_setter eta_GameState usa_score).
Definition set_ussr_score : Z -> GameState -> GameState :=
  ltac:(field_setter eta_GameState ussr_score).
Definition set_usa_sog : Z -> GameState -> GameState :=
  ltac:(field_setter eta_GameState usa_sog).
Definition set_ussr_sog : Z -> GameState -> GameState :=
  ltac:(field_setter eta_GameState ussr_sog).
Definition set_period : Z -> GameState -> GameState :=
  ltac:(field_setter eta_GameState period).
Definition set_game_clock : Z -> GameState -> GameState :=
  ltac:(field_setter eta_GameState game_clock).
Definition set_game_active : bool -> GameState -> GameState :=
  ltac:(field_setter eta_GameState game_active).
Definition set_game_over : bool -> GameState -> GameState :=
  ltac:(field_setter eta_GameState game_over).
Definition set_time_multiplier : Z -> GameState -> GameState :=
  ltac:(field_setter eta_GameState time_multiplier).
Definition set_goal_celebration_team : (option string) -> GameState -> GameState :=
  ltac:(field_setter eta_GameState goal_celebration_team).
Definition set_intermission_active : bool -> GameState -> GameState :=
  ltac:(field_setter eta_GameState intermission_active).
Definition set_overtime_active : bool -> GameState -> GameState :=
  ltac:(field_setter eta_GameState overtime_active).
Definition set_intermission_timer : Z -> GameState -> GameState :=
  ltac:(field_setter eta_GameState intermission_timer).
Definition set_goal_celebration_timer : Z -> GameState -> GameState :=
  ltac:(field_setter eta_GameState goal_celebration_timer).
Definition set_is_muted : bool -> GameState -> GameState :=
  ltac:(field_setter eta_GameState is_muted).
Definition set_volume_before_mute : Z -> GameState -> GameState :=
  ltac:(field_setter eta_GameState volume_before_mute).
Definition set_recent_sog_timer : Z -> GameState -> GameState :=
  ltac:(field_setter eta_GameState recent_sog_timer).
Definition set_goal_animation_active : bool -> GameState -> GameState :=
  ltac:(field_setter eta_GameState goal_animation_active).
Definition set_goal_animation_timer : Z -> GameState -> GameState :=
  ltac:(field_setter eta_GameState goal_animation_timer).
Definition set_goal_animation_frame_counter : Z -> GameState -> GameState :=
  ltac:(field_setter eta_GameState goal_animation_frame_counter).
Definition set_goal_animation_color : RGB -> GameState -> GameState :=
  ltac:(field_setter eta_GameState goal_animation_color).
Definition set_goal_animation_color_sec : RGB -> GameState -> GameState :=
  ltac:(field_setter eta_GameState goal_animation_color_sec).
Definition set_idle_animation_step : Z -> GameState -> GameState :=
  ltac:(field_setter eta_GameState idle_animation_step).
Definition set_particles : (list Particle) -> GameState -> GameState :=
  ltac:(field_setter eta_GameState particles).
Definition set_game_end_celebration_active : bool -> GameState -> GameState :=
  ltac:(field_setter eta_GameState game_end_celebration_active).
Definition set_winner_name : string -> GameState -> GameState :=
  ltac:(field_setter eta_GameState winner_name).
Definition set_motor_active : bool -> GameState -> GameState :=
  ltac:(field_setter eta_GameState motor_active).
Definition set_motor_stop_time : Z -> GameState -> GameState :=
  ltac:(field_setter eta_GameState motor_stop_time).
Definition set_goal_expand_step : Z -> GameState -> GameState :=
  ltac:(field_setter eta_GameState goal_expand_step).
Definition set_goal_expand_direction : Z -> GameState -> GameState :=
  ltac:(field_setter eta_GameState goal_expand_direction).
Definition set_goal_expand_center : Z -> GameState -> GameState :=
  ltac:(field_setter eta_GameState goal_expand_center).
Definition set_usa_special_celebration : bool -> GameState -> GameState :=
  ltac:(field_setter eta_GameState usa_special_celebration).
Definition set_usa_special_colors : (option (list RGB)) -> GameState -> GameState :=
  ltac:(field_setter eta_GameState usa_special_colors).
Definition set_ussr_special_celebration : bool -> GameState -> GameState :=
  ltac:(field_setter eta_GameState ussr_special_celebration).
Definition set_ussr_special_colors : (option (list RGB)) -> GameState -> GameState :=
  ltac:(field_setter eta_GameState ussr_special_colors).
Definition set_game_lights_set : bool -> GameState -> GameState :=
  ltac:(field_setter eta_GameState game_lights_set).

(** ** [GameState.reset] and [GameState.__init__] *)

Definition reset (g : GameState) : GameState :=
  let g := set_usa_score 0 g in
  let g := set_ussr_score 0 g in
  let g := set_usa_sog 0 g in
  let g := set_ussr_sog 0 g in
  let g := set_period 1 g in
  let g := set_game_clock (20 * 60 * 1000) g in
  let g := set_game_active false g in
  let g := set_game_over false g in
  let g := set_time_multiplier 10 g in
  let g := set_goal_celebration_team None g in
  let g := set_intermission_active false g in
  let g := set_overtime_active false g in
  let g := set_intermission_timer 0 g in
  let g := set_goal_celebration_timer 0 g in
  let g := set_is_muted false g in
  let g := set_volume_before_mute (volume g) g in
  let g := set_recent_sog_timer 0 g in
  let g := set_goal_animation_active false g in
  let g := set_goal_animation_timer 0 g in
  let g := set_goal_animation_frame_counter 0 g in
  let g := set_goal_animation_color (0, 0, 0) g in
  let g := set_goal_animation_color_sec (0, 0, 0) g in
  let g := set_idle_animation_step 0 g in
  let g := set_particles [] g in
  let g := set_game_end_celebration_active false g in
  let g := set_winner_name EmptyString g in
  let g := set_motor_active false g in
  let g := set_motor_stop_time 0 g in
  let g := set_goal_expand_step 0 g in
  let g := set_goal_expand_direction 1 g in
  let g := set_goal_expand_center 0 g in
  let g := set_player1_ready false g in
  let g := set_player2_ready false g in
  let g := set_usa_special_celebration false g in
  let g := set_usa_special_colors None g in
  let g := set_ussr_special_celebration false g in
  let g := set_ussr_special_colors None g in
  set_game_lights_set false g.

(** [GameState()]: the attributes [__init__] assigns, then [reset()].  The
    attributes that only [reset] creates are listed with the value [reset]
    gives them. *)
Definition new_game_state : GameState :=
  reset
    {| volume := 5; game_mode := SETUP;
       player1_name := "USSR"; player2_name := "USA";
       player1_primary_color := None; player1_secondary_color := None;
       player2_primary_color := None; player2_secondary_color := None;
       player1_ready := false; player2_ready := false;
       show_rfid_popup_for_player := None;
       rfid_save_message := ""; rfid_save_message_end_time := 0;
       rfid_save_message_player := None;
       rfid_load_message := ""; rfid_load_message_end_time := 0;
       rfid_load_message_player := None;
       rfid_welcome_message := ""; rfid_welcome_message_end_time := 0;
       rfid_welcome_message_player := None;
       rfid_welcome_message_color := COLOR_WHITE;
       rfid_away_cooldown_end_time := 0; rfid_home_cooldown_end_time := 0;
       rfid_scan_animation_active := false;
       rfid_scan_animation_player := None;
       rfid_scan_animation_start_time := 0;
       rfid_scan_animation_end_time := 0;
       rfid_scan_animation_pri_color := (0, 0, 0);
       rfid_scan_animation_sec_color := (0, 0, 0);
       usa_score := 0; ussr_score := 0; usa_sog := 0; ussr_sog := 0;
       period := 1; game_clock := 20 * 60 * 1000;
       game_active := false; game_over := false; time_multiplier := 10;
       goal_celebration_team := None;
       intermission_active := false; overtime_active := false;
       intermission_timer := 0; goal_celebration_timer := 0;
       is_muted := false; volume_before_mute := 5; recent_sog_timer := 0;
       goal_animation_active := false; goal_animation_timer := 0;
       goal_animation_frame_counter := 0;
       goal_animation_color := (0, 0, 0);
       goal_animation_color_sec := (0, 0, 0);
       idle_animation_step := 0; particles := [];
       game_end_celebration_active := false; winner_name := "";
       motor_active := false; motor_stop_time := 0;
       goal_expand_step := 0; goal_expand_direction := 1;
       goal_expand_center := 0;
       usa_special_celebration := false; usa_special_colors := None;
       ussr_special_celebration := false; ussr_special_colors := None;
       game_lights_set := false |}.

(** [GameState.update_clock(dt)] *)
Definition update_clock (dt : Z) (g : GameState) : GameState :=
  if game_active g && (0 <? game_clock g) then
    let g := set_game_clock (game_clock g - dt * time_multiplier g) g in
    if game_clock g <? 0 then set_game_clock 0 g else g
  else g.

(** ** The [Scoreboard] object

    [pixels] and [motor] are [None] when the hardware is absent; a sound
    attribute is [true] when its file was loaded; [played] logs the sounds
    started, latest first. *)
Record Scoreboard : Type := {
  game_state : GameState;
  custom_colors : list ColorDict;
  players : gmap string PlayerData;
  pixels : option NeoPixel;
  motor : option bool;
  video_interrupt_requested : bool;
  volume_display_timer : Z;
  goal_horn_sound : bool;
  shot_sound : bool;
  faceoff_sound : bool;
  buzzer_sound : bool;
  rfid_sound : bool;
  played : list Sound
}.

Definition eta_Scoreboard (b : Scoreboard) : Scoreboard :=
  {| game_state := game_state b; custom_colors := custom_colors b; players :=
     players b; pixels := pixels b; motor := motor b;
     video_interrupt_requested := video_interrupt_requested b;
     volume_display_timer := volume_display_timer b; goal_horn_sound :=
     goal_horn_sound b; shot_sound := shot_sound b; faceoff_sound :=
     faceoff_sound b; buzzer_sound := buzzer_sound b; rfid_sound :=
     rfid_sound b; played := played b |}.

Definition set_game_state : GameState -> Scoreboard -> Scoreboard :=
  ltac:(field_setter eta_Scoreboard game_state).
Definition set_custom_colors : (list ColorDict) -> Scoreboard -> Scoreboard :=
  ltac:(field_setter eta_Scoreboard custom_colors).
Definition set_pixels : (option NeoPixel) -> Scoreboard -> Scoreboard :=
  ltac:(field_setter eta_Scoreboard pixels).
Definition set_motor : (option bool) -> Scoreboard -> Scoreboard :=
  ltac:(field_setter eta_Scoreboard motor).
Definition set_video_interrupt_requested : bool -> Scoreboard -> Scoreboard :=
  ltac:(field_setter eta_Scoreboard video_interrupt_requested).
Definition set_volume_display_timer : Z -> Scoreboard -> Scoreboard :=
  ltac:(field_setter eta_Scoreboard volume_display_timer).
Definition set_goal_horn_sound : bool -> Scoreboard -> Scoreboard :=
  ltac:(field_setter eta_Scoreboard goal_horn_sound).
Definition set_shot_sound : bool -> Scoreboard -> Scoreboard :=
  ltac:(field_setter eta_Scoreboard shot_sound).
Definition set_faceoff_sound : bool -> Scoreboard -> Scoreboard :=
  ltac:(field_setter eta_Scoreboard faceoff_sound).
Definition set_buzzer_sound : bool -> Scoreboard -> Scoreboard :=
  ltac:(field_setter eta_Scoreboard buzzer_sound).
Definition set_rfid_sound : bool -> Scoreboard -> Scoreboard :=
  ltac:(field_setter eta_Scoreboard rfid_sound).
Definition set_played : (list Sound) -> Scoreboard -> Scoreboard :=
  ltac:(field_setter eta_Scoreboard played).

Definition getg : M Scoreboard GameState := gets game_state.

(** [self.game_state.<attr> = v] *)
Definition setg {T} (setter : T -> GameState -> GameState) (v : T)
  : M Scoreboard unit :=
  modify (fun sb => set_game_state (setter v (game_state sb)) sb).

(** [if self.<snd>_sound: self.<snd>_sound.play()] *)
Definition play (loaded : Scoreboard -> bool) (snd : Sound) : M Scoreboard unit :=
  modify (fun sb => if loaded sb then set_played (snd :: played sb) sb else sb).

(** ** The strip *)

(** A method call or attribute write on [self.pixels]. *)
Definition on_pixels (f : NeoPixel -> NeoPixel) : M Scoreboard unit :=
  sb <- get ;;
  match pixels sb with
  | Some px => modify (set_pixels (Some (f px)))
  | None => raise AttributeError
  end.

(** [self.pixels.brightness = b] *)
Definition set_brightness (b : Q) : M Scoreboard unit :=
  on_pixels (fun px => {| brightness := b; buf := buf px; shows := shows px |}).

(** [self.pixels.fill(c)] *)
Definition fill (c : RGB) : M Scoreboard unit :=
  on_pixels (fun px => {| brightness := brightness px;
                          buf := replicate (length (buf px)) c;
                          shows := shows px |}).

(** [self.pixels.show()] *)
Definition show : M Scoreboard unit :=
  on_pixels (fun px => {| brightness := brightness px; buf := buf px;
                          shows := S (shows px) |}).

(** [self.pixels[i] = c] *)
Definition set_pixel (c : RGB) (i : Z) : M Scoreboard unit :=
  sb <- get ;;
  match pixels sb with
  | None => raise TypeError
  | Some px =>
      match assign (buf px) i c with
      | None => raise IndexError
      | Some l =>
          modify (set_pixels (Some {| brightness := brightness px; buf := l;
                                      shows := shows px |}))
      end
  end.

(** [range(a, b)] *)
Definition range (a b : Z) : list Z := seqZ a (b - a).

Definition clear_leds : M Scoreboard unit :=
  sb <- get ;;
  when (present (pixels sb))
    (set_brightness LED_BRIGHTNESS ;;;
     fill (0, 0, 0) ;;;
     show ;;;
     setg set_goal_animation_active false).

Definition game_active_effect : M Scoreboard unit :=
  sb <- get ;;
  if negb (present (pixels sb)) || game_lights_set (game_state sb) then ret tt
  else
    for_each (set_pixel (5, 5, 5)) (range 0 BASE_COUNT) ;;;
    for_each (set_pixel (0, 0, 0)) (range BASE_COUNT OVERHEAD_START_INDEX) ;;;
    for_each (set_pixel (191, 191, 191))
             (range OVERHEAD_START_INDEX TOTAL_LED_COUNT) ;;;
    show ;;;
    setg set_game_lights_set true.

(** The LED part of a frame in ['GAME'] mode.  The two animated renderers
    compute their colours with floating-point sines and products; they are
    taken as parameters. *)
Definition update_leds (update_goal_animation idle_effect : M Scoreboard unit)
  : M Scoreboard unit :=
  g <- getg ;;
  if goal_animation_active g then update_goal_animation
  else if game_over g then clear_leds
  else if game_active g || overtime_active g then game_active_effect
  else idle_effect.

(** ** Goals *)

(** [next((c['led'] for c in self.custom_colors if c['name'] == n), d)] *)
Definition led_named (n : string) (d : RGB) : M Scoreboard RGB :=
  sb <- get ;;
  ret (match first (fun c => String.eqb (color_name c) n) (custom_colors sb) with
       | Some c => color_led c
       | None => d
       end).

Inductive Winner : Type := player1 | player2.

Definition trigger_game_end (winner_id : Winner) : M Scoreboard unit :=
  setg set_game_over true ;;;
  setg set_game_end_celebration_active true ;;;
  setg set_goal_celebration_timer (5 * FPS) ;;;
  g <- getg ;;
  let winner_color_info :=
    match winner_id with
    | player1 => player1_primary_color g
    | player2 => player2_primary_color g
    end in
  setg set_winner_name
       (match winner_id with
        | player1 => player1_name g
        | player2 => player2_name g
        end) ;;;
  play goal_horn_sound GoalHorn ;;;
  play faceoff_sound Faceoff ;;;
  sb <- get ;;
  when (present (pixels sb))
    (set_brightness FULL_BRIGHTNESS ;;;
     setg set_goal_animation_active true ;;;
     setg set_goal_animation_timer (5 * FPS) ;;;
     c <- subscript winner_color_info ;;
     setg set_goal_animation_color (color_led c)).

(** [d['led'] if d else COLOR_BLACK] *)
Definition led_or_black (d : option ColorDict) : RGB :=
  match d with
  | Some c => color_led c
  | None => COLOR_BLACK
  end.

(** [n == team and pri and pri.get('name') == colour and sec is None] *)
Definition default_look (n team : string) (pri sec : option ColorDict)
    (colour : string) : bool :=
  String.eqb n team
  && match pri with
     | Some c => String.eqb (color_name c) colour
     | None => false
     end
  && negb (present sec).

Definition handle_usa_goal : M Scoreboard unit :=
  g <- getg ;;
  when (negb (game_over g) && negb (truthy_str (goal_celebration_team g)))
    (setg set_usa_score (usa_score g + 1) ;;;
     when (recent_sog_timer g <=? 0) (setg set_usa_sog (usa_sog g + 1)) ;;;
     setg set_goal_expand_center 46 ;;;
     setg set_goal_expand_step 0 ;;;
     setg set_goal_expand_direction 1 ;;;
     setg set_goal_animation_frame_counter 0 ;;;
     setg set_ussr_special_celebration false ;;;
     setg set_ussr_special_colors None ;;;
     (if default_look (player2_name g) "USA" (player2_primary_color g)
                      (player2_secondary_color g) "Blue"
      then
        setg set_usa_special_celebration true ;;;
        red <- led_named "Default Red" (200, 0, 0) ;;
        white <- led_named "Default White" (255, 255, 255) ;;
        blue <- led_named "Blue" (0, 0, 200) ;;
        setg set_usa_special_colors (Some [red; white; blue])
      else
        setg set_usa_special_celebration false ;;;
        setg set_usa_special_colors None) ;;;
     if overtime_active g then trigger_game_end player2
     else
       sb <- get ;;
       when (present (pixels sb)) (set_brightness FULL_BRIGHTNESS) ;;;
       setg set_goal_animation_active true ;;;
       setg set_goal_animation_timer (5 * FPS) ;;;
       c <- subscript (player2_primary_color g) ;;
       setg set_goal_animation_color (color_led c) ;;;
       setg set_goal_animation_color_sec
            (led_or_black (player2_secondary_color g)) ;;;
       play goal_horn_sound GoalHorn ;;;
       setg set_game_active false ;;;
       setg set_goal_celebration_team (Some (player2_name g))).

Definition handle_ussr_goal : M Scoreboard unit :=
  g <- getg ;;
  when (negb (game_over g) && negb (truthy_str (goal_celebration_team g)))
    (setg set_ussr_score (ussr_score g + 1) ;;;
     when (recent_sog_timer g <=? 0) (setg set_ussr_sog (ussr_sog g + 1)) ;;;
     setg set_goal_expand_center 146 ;;;
     setg set_goal_expand_step 0 ;;;
     setg set_goal_expand_direction 1 ;;;
     setg set_goal_animation_frame_counter 0 ;;;
     if overtime_active g then trigger_game_end player1
     else
       sb <- get ;;
       when (present (pixels sb)) (set_brightness FULL_BRIGHTNESS) ;;;
       setg set_goal_animation_active true ;;;
       setg set_goal_animation_timer (5 * FPS) ;;;
       setg set_usa_special_celebration false ;;;
       setg set_usa_special_colors None ;;;
       (if default_look (player1_name g) "USSR" (player1_primary_color g)
                        (player1_secondary_color g) "Default Red"
        then
          setg set_ussr_special_celebration true ;;;
          red <- led_named "Default Red" (200, 0, 0) ;;
          white <- led_named "Default White" (255, 255, 255) ;;
          setg set_ussr_special_colors (Some [red; white])
        else
          setg set_ussr_special_celebration false ;;;
          setg set_ussr_special_colors None ;;;
          c <- subscript (player1_primary_color g) ;;
          setg set_goal_animation_color (color_led c) ;;;
          setg set_goal_animation_color_sec
               (led_or_black (player1_secondary_color g))) ;;;
       play goal_horn_sound GoalHorn ;;;
       setg set_game_active false ;;;
       setg set_goal_celebration_team (Some (player1_name g))).

Definition handle_usa_sog : M Scoreboard unit :=
  g <- getg ;;
  when (negb (game_over g) && negb (truthy_str (goal_celebration_team g)))
    (play shot_sound Shot ;;;
     setg set_usa_sog (usa_sog g + 1) ;;;
     setg set_recent_sog_timer 60).

Definition handle_ussr_sog : M Scoreboard unit :=
  g <- getg ;;
  when (negb (game_over g) && negb (truthy_str (goal_celebration_team g)))
    (play shot_sound Shot ;;;
     setg set_ussr_sog (ussr_sog g + 1) ;;;
     setg set_recent_sog_timer 60).

(** ** Face-off and motor; [now] is [pygame.time.get_ticks()] *)

Definition _start_faceoff_sequence (now : Z) : M Scoreboard unit :=
  g <- getg ;;
  when (negb (game_over g) && negb (motor_active g))
    (clear_leds ;;;
     play faceoff_sound Faceoff ;;;
     sb <- get ;;
     when (present (motor sb))
       (modify (set_motor (Some true)) ;;;
        setg set_motor_active true ;;;
        setg set_motor_stop_time (now + MOTOR_RUN_MS)) ;;;
     g <- getg ;;
     when (negb (game_active g)) (setg set_game_active true) ;;;
     setg set_goal_celebration_team None ;;;
     setg set_game_lights_set false).

Definition handle_player1_faceoff (now : Z) : M Scoreboard unit :=
  g <- getg ;;
  match game_mode g with
  | SETUP => setg set_player1_ready (negb (player1_ready g))
  | VIDEO => modify (set_video_interrupt_requested true)
  | GAME => _start_faceoff_sequence now
  end.

Definition handle_player2_faceoff (now : Z) : M Scoreboard unit :=
  g <- getg ;;
  match game_mode g with
  | SETUP => setg set_player2_ready (negb (player2_ready g))
  | VIDEO => modify (set_video_interrupt_requested true)
  | GAME => _start_faceoff_sequence now
  end.

Definition update_motor (now : Z) : M Scoreboard unit :=
  sb <- get ;;
  let g := game_state sb in
  when (motor_active g && present (motor sb) && (motor_stop_time g <=? now))
    (modify (set_motor (Some false)) ;;;
     setg set_motor_active false ;;;
     setg set_motor_stop_time 0).

(** ** Period end, intermission, celebration and shot timers *)

Definition check_period_end : M Scoreboard unit :=
  g <- getg ;;
  if (0 <? game_clock g) || game_over g || intermission_active g
     || overtime_active g
  then ret tt
  else
    play buzzer_sound Buzzer ;;;
    setg set_game_active false ;;;
    if period g <? 3 then
      setg set_intermission_active true ;;;
      setg set_intermission_timer (3 * FPS)
    else if period g =? 3 then
      if ussr_score g =? usa_score g then
        setg set_overtime_active true ;;;
        setg set_intermission_active true ;;;
        setg set_intermission_timer (3 * FPS)
      else
        trigger_game_end (if usa_score g <? ussr_score g then player1
                          else player2)
    else ret tt.

Definition update_intermission : M Scoreboard unit :=
  g <- getg ;;
  if negb (intermission_active g) then ret tt
  else
    setg set_intermission_timer (intermission_timer g - 1) ;;;
    when (intermission_timer g - 1 <=? 0)
      (setg set_intermission_active false ;;;
       clear_leds ;;;
       setg set_game_lights_set false ;;;
       if overtime_active g then ret tt
       else
         setg set_period (period g + 1) ;;;
         setg set_game_clock (20 * 60 * 1000) ;;;
         setg set_game_active true).

Definition update_goal_celebration_timer : M Scoreboard unit :=
  g <- getg ;;
  when (0 <? goal_celebration_timer g)
    (setg set_goal_celebration_timer (goal_celebration_timer g - 1) ;;;
     when (goal_celebration_timer g - 1 <=? 0)
       (setg set_goal_celebration_team None ;;;
        setg set_particles [] ;;;
        if game_end_celebration_active g then
          setg set_game_end_celebration_active false ;;;
          setg set_overtime_active false
        else setg set_game_over false)).

Definition update_sog_timer : M Scoreboard unit :=
  g <- getg ;;
  when (0 <? recent_sog_timer g)
    (setg set_recent_sog_timer (recent_sog_timer g - 1)).

(** ** Volume button, mute and the reset key *)

(** [set_master_volume], with volumes in tenths; the mixer and the system
    volume are outside the model. *)
Definition set_master_volume (new_volume : Z) : M Scoreboard unit :=
  setg set_volume (Z.max 0 (Z.min 10 new_volume)) ;;;
  when (0 <? new_volume) (setg set_is_muted false) ;;;
  modify (set_volume_display_timer (3 * FPS)).

Definition toggle_mute : M Scoreboard unit :=
  g <- getg ;;
  setg set_is_muted (negb (is_muted g)) ;;;
  modify (set_volume_display_timer (3 * FPS)).

Definition handle_volume_button_press : M Scoreboard unit :=
  g <- getg ;;
  if game_over g then
    setg set_game_mode SETUP ;;;
    modify (fun sb => set_game_state (reset (game_state sb)) sb) ;;;
    g <- getg ;;
    set_master_volume (volume g)
  else toggle_mute.

(** The keys of ['GAME'] mode that act on the game. *)
Inductive GameKey : Type :=
| K_u | K_i | K_j | K_k | K_PERIOD | K_COMMA | K_r.

Definition keydown_game (key : GameKey) : M Scoreboard unit :=
  g <- getg ;;
  when (bool_decide (game_mode g = GAME))
    (match key with
     | K_u => when (negb (game_over g)) handle_usa_goal
     | K_i => when (negb (game_over g)) handle_ussr_goal
     | K_j => when (negb (game_over g)) handle_usa_sog
     | K_k => when (negb (game_over g)) handle_ussr_sog
     | K_PERIOD =>
         setg set_time_multiplier (Z.min 20 (time_multiplier g + 1))
     | K_COMMA =>
         setg set_time_multiplier (Z.max 1 (time_multiplier g - 1))
     | K_r =>
         setg set_game_mode SETUP ;;;
         modify (fun sb => set_game_state (reset (game_state sb)) sb)
     end).

(** The timer part of a frame in ['GAME'] mode, in the order of [run];
    [dt] is the frame time in milliseconds. *)
Definition update_timers (dt now : Z) : M Scoreboard unit :=
  modify (fun sb => set_game_state (update_clock dt (game_state sb)) sb) ;;;
  update_motor now ;;;
  check_period_end ;;;
  update_intermission ;;;
  update_goal_celebration_timer ;;;
  update_sog_timer.

(** ** Set-up screen: RFID profiles and the start of a game *)

Definition trigger_scan_animation (player_num : Z)
    (pri_color_dict sec_color_dict : option ColorDict) (now : Z)
  : M Scoreboard unit :=
  match pri_color_dict with
  | None => ret tt
  | Some pri =>
      setg set_rfid_scan_animation_active true ;;;
      setg set_rfid_scan_animation_player (Some player_num) ;;;
      setg set_rfid_scan_animation_start_time now ;;;
      setg set_rfid_scan_animation_end_time (now + 3000) ;;;
      setg set_rfid_scan_animation_pri_color (color_led pri) ;;;
      match sec_color_dict with
      | Some sec => setg set_rfid_scan_animation_sec_color (color_led sec)
      | None =>
          let '(r, g, b) := color_led pri in
          setg set_rfid_scan_animation_sec_color (r / 2, g / 2, b / 2)
      end
  end.

(** [try: dd.selected_index = names.index(x)  except ValueError: print(..)] *)
Definition try_select (x : string) (names : list string) (dd : Dropdown)
  : Dropdown :=
  match index_of x names with
  | Some i => select i dd
  | None => dd
  end.

(** [load_player_profile]; the three dropdowns are mutable arguments and
    are returned as the call leaves them. *)
Definition load_player_profile (card_id player_num : Z)
    (name_dd pri_color_dd sec_color_dd : Dropdown)
    (player_names_list color_names_list sec_color_names_list : list string)
    (now : Z) : M Scoreboard (Dropdown * Dropdown * Dropdown) :=
  sb <- get ;;
  let card_id_str := Text.str card_id in
  match players sb !! card_id_str with
  | Some player_data =>
      let name_dd := try_select (profile_name player_data) player_names_list
                                name_dd in
      let pri_color_dd := try_select (primary_color player_data)
                                     color_names_list pri_color_dd in
      let sec_color_dd := try_select (secondary_color player_data)
                                     sec_color_names_list sec_color_dd in
      let pri_color_dict :=
        first (fun c => String.eqb (color_name c) (primary_color player_data))
              (custom_colors sb) in
      let sec_color_dict :=
        first (fun c => String.eqb (color_name c) (secondary_color player_data))
              (custom_colors sb) in
      trigger_scan_animation player_num pri_color_dict sec_color_dict now ;;;
      setg set_rfid_welcome_message ("Welcome " +:+ profile_name player_data) ;;;
      setg set_rfid_welcome_message_end_time (now + 2000) ;;;
      setg set_rfid_welcome_message_player (Some player_num) ;;;
      setg set_rfid_welcome_message_color
           (match pri_color_dict with
            | Some c => color_display c
            | None => COLOR_WHITE
            end) ;;;
      ret (name_dd, pri_color_dd, sec_color_dd)
  | None =>
      setg set_rfid_load_message "No data on card" ;;;
      setg set_rfid_load_message_end_time (now + 2000) ;;;
      setg set_rfid_load_message_player (Some player_num) ;;;
      ret (name_dd, pri_color_dd, sec_color_dd)
  end.

(** The message expiry at the top of every iteration of [run];
    [current_time] is the tick count read at the start of the frame. *)
Definition expire_messages (current_time : Z) : M Scoreboard unit :=
  g <- getg ;;
  when (nonempty (rfid_save_message g)
        && (rfid_save_message_end_time g <? current_time))
    (setg set_rfid_save_message EmptyString) ;;;
  when (nonempty (rfid_load_message g)
        && (rfid_load_message_end_time g <? current_time))
    (setg set_rfid_load_message EmptyString) ;;;
  when (nonempty (rfid_welcome_message g)
        && (rfid_welcome_message_end_time g <? current_time))
    (setg set_rfid_welcome_message EmptyString).

(** [dd.get_selected()] *)
Definition get_selected (dd : Dropdown) : M Scoreboard string :=
  match index (options dd) (selected_index dd) with
  | Some s => ret s
  | None => raise IndexError
  end.

(** [self.custom_colors[i]] *)
Definition custom_color (i : Z) : M Scoreboard ColorDict :=
  sb <- get ;;
  match index (custom_colors sb) i with
  | Some c => ret c
  | None => raise IndexError
  end.

(** [None if dd.get_selected() == "None" else self.custom_colors[i - 1]] *)
Definition secondary_choice (dd : Dropdown) : M Scoreboard (option ColorDict) :=
  s <- get_selected dd ;;
  if String.eqb s "None" then ret None
  else c <- custom_color (selected_index dd - 1) ;; ret (Some c).

(** [stop_video], as far as the game state goes. *)
Definition stop_video : M Scoreboard unit := setg set_game_mode GAME.

(** [play_video_hardware]; [on_pi] is [IS_RASPBERRY_PI] and launching the
    player is taken to succeed. *)
Definition play_video_hardware (on_pi : bool) : M Scoreboard unit :=
  if on_pi then setg set_game_mode VIDEO else stop_video.

(** The step of [run] in ['SETUP'] mode once both players are ready: the
    selections are committed and the intro video starts. *)
Definition start_game (on_pi : bool)
    (p1_name_dd p1_pri_color_dd p1_sec_color_dd
     p2_name_dd p2_pri_color_dd p2_sec_color_dd : Dropdown)
  : M Scoreboard unit :=
  g <- getg ;;
  when (player1_ready g && player2_ready g)
    (n1 <- get_selected p1_name_dd ;;
     n2 <- get_selected p2_name_dd ;;
     setg set_player1_name n1 ;;;
     setg set_player2_name n2 ;;;
     c1 <- custom_color (selected_index p1_pri_color_dd) ;;
     c2 <- custom_color (selected_index p2_pri_color_dd) ;;
     setg set_player1_primary_color (Some c1) ;;;
     setg set_player2_primary_color (Some c2) ;;;
     s1 <- secondary_choice p1_sec_color_dd ;;
     setg set_player1_secondary_color s1 ;;;
     s2 <- secondary_choice p2_sec_color_dd ;;
     setg set_player2_secondary_color s2 ;;;
     play_video_hardware on_pi).

(** [Scoreboard()], given what the start-up found: the colours and
    profiles read from the files and the hardware that answered.  The last
    statement of [__init__] is [clear_leds()]. *)
Definition new_scoreboard (colors : list ColorDict)
    (profiles : gmap string PlayerData) (strip motor_present sounds : bool)
  : Scoreboard :=
  exec clear_leds
    {| game_state := new_game_state;
       custom_colors := colors;
       players := profiles;
       pixels := if strip
                 then Some {| brightness := LED_BRIGHTNESS;
                              buf := replicate (Z.to_nat TOTAL_LED_COUNT) (0, 0, 0);
                              shows := 0 |}
                 else None;
       motor := if motor_present then Some false else None;
       video_interrupt_requested := false;
       volume_display_timer := 3 * FPS;
       goal_horn_sound := sounds; shot_sound := sounds;
       faceoff_sound := sounds; buzzer_sound := sounds; rfid_sound := sounds;
       played := [] |}.

(** The dropdowns [run] builds, with their initial selections. *)
Definition color_names (sb : Scoreboard) : list string :=
  map color_name (custom_colors sb).
Definition secondary_color_names (sb : Scoreboard) : list string :=
  "None"%string :: color_names sb.

Definition index_or_0 (x : string) (l : list string) : Z :=
  match index_of x l with
  | Some i => i
  | None => 0
  end.

Definition p1_name_dd0 : Dropdown :=
  {| options := VISITOR_NAMES; selected_index := index_or_0 "USSR" VISITOR_NAMES |}.
Definition p2_name_dd0 : Dropdown :=
  {| options := HOME_NAMES; selected_index := index_or_0 "USA" HOME_NAMES |}.
Definition p1_pri_color_dd0 (sb : Scoreboard) : Dropdown :=
  {| options := color_names sb;
     selected_index := index_or_0 "Default Red" (color_names sb) |}.
Definition p2_pri_color_dd0 (sb : Scoreboard) : Dropdown :=
  {| options := color_names sb;
     selected_index := index_or_0 "Blue" (color_names sb) |}.
Definition sec_color_dd0 (sb : Scoreboard) : Dropdown :=
  {| options := secondary_color_names sb; selected_index := 0 |}.

(** ** Goal edges *)

Inductive Side : Type := USA | USSR.

Definition other (side : Side) : Side :=
  match side with USA => USSR | USSR => USA end.

(** The handler a goal sensor of [side] is wired to. *)
Definition handle_goal (side : Side) : M Scoreboard unit :=
  match side with
  | USA => handle_usa_goal
  | USSR => handle_ussr_goal
  end.

Definition score (side : Side) (sb : Scoreboard) : Z :=
  match side with
  | USA => usa_score (game_state sb)
  | USSR => ussr_score (game_state sb)
  end.

Definition shots (side : Side) (sb : Scoreboard) : Z :=
  match side with
  | USA => usa_sog (game_state sb)
  | USSR => ussr_sog (game_state sb)
  end.

(** A goal celebration is showing, for either side. *)
Definition celebrating (sb : Scoreboard) : bool :=
  truthy_str (goal_celebration_team (game_state sb)).

(** Each edge is a call-back of its own: the next one runs on the state
    the previous one left, whether it returned or raised. *)
Definition deliver (edges : list Side) (sb : Scoreboard) : Scoreboard :=
  fold_left (fun s side => exec (handle_goal side) s) edges sb.

(** ** A game in progress, from start-up *)

Definition demo_colors : list ColorDict :=
  [ {| color_name := "Default Red"; color_led := (255, 0, 0);
       color_display := (200, 0, 0) |};
    {| color_name := "Black"; color_led := (0, 0, 0);
       color_display := (0, 0, 0) |};
    {| color_name := "Default White"; color_led := (255, 255, 255);
       color_display := (255, 255, 255) |};
    {| color_name := "Blue"; color_led := (0, 0, 255);
       color_display := (0, 0, 200) |} ].

Definition demo_profiles : gmap string PlayerData :=
  {[ "777"%string := {| profile_name := "Oma"; primary_color := "Blue";
                        secondary_color := "Gold" |} ]}.

(** The cabinet after start-up, all hardware present. *)
Definition board_start : Scoreboard :=
  new_scoreboard demo_colors demo_profiles true true true.

(** Both players press ready, the intro video plays and ends. *)
Definition board_game : Scoreboard :=
  let sb := exec (handle_player1_faceoff 100) board_start in
  let sb := exec (handle_player2_faceoff 200) sb in
  let sb := exec (start_game true p1_name_dd0 (p1_pri_color_dd0 sb)
                             (sec_color_dd0 sb) p2_name_dd0
                             (p2_pri_color_dd0 sb) (sec_color_dd0 sb)) sb in
  exec stop_video sb.

(** The puck is dropped and a few frames pass (the motor pulse ends). *)
Definition board_play : Scoreboard :=
  let sb := exec (handle_player1_faceoff 1000) board_game in
  Nat.iter 40 (exec (update_timers 16 2000)) sb.

(** The home side scores. *)
Definition board_goal : Scoreboard := exec handle_usa_goal board_play.


(** ** The properties the specification words more strongly than the code *)




(** Pixel [i] of the strip, if there is a strip and [i] is on it. *)
Definition pixel (sb : Scoreboard) (i : Z) : option RGB :=
  match pixels sb with
  | Some px => index (buf px) i
  | None => None
  end.

(** The game-active effect leaves every LED outside the base segment off. *)
Definition off_outside_base (sb : Scoreboard) : Prop :=
  forall i : Z, BASE_COUNT <= i < TOTAL_LED_COUNT ->
                pixel (exec game_active_effect sb) i = Some (0, 0, 0).

(** The first frame of play on [board_play] has lit the strip. *)
Definition board_lit : Scoreboard := exec game_active_effect board_play.

(** The first period of [board_lit] runs out and the intermission reaches
    its last frame. *)
Definition board_break : Scoreboard :=
  Nat.iter 179 (exec (update_timers 16 3000))
    (set_game_state (set_game_clock 1 (game_state board_lit)) board_lit).

(** The number of LEDs of the strip, if there is one. *)
Definition strip_length (sb : Scoreboard) : option nat :=
  option_map (fun px => length (buf px)) (pixels sb).

(** A tied third period runs out and the intermission passes: sudden
    death. *)
Definition board_overtime : Scoreboard :=
  Nat.iter 200 (exec (update_timers 16 3000))
    (set_game_state (set_period 3 (set_game_clock 1 (game_state board_play)))
                    board_play).


(** ** Properties carried along a handler *)

(** The two scores are [a] and [b]. *)
Definition same_scores (a b : Z) (sb : Scoreboard) : Prop :=
  usa_score (game_state sb) = a /\ ussr_score (game_state sb) = b.

(** What [trigger_game_end] has done when control leaves it, by return or
    by exception. *)
Definition game_ended (team : option string) (sb : Scoreboard) : Prop :=
  game_over (game_state sb) = true
  /\ game_end_celebration_active (game_state sb) = true
  /\ goal_celebration_timer (game_state sb) = 5 * FPS
  /\ goal_celebration_team (game_state sb) = team.

(** The celebrating side is [team]. *)
Definition team_is (team : option string) (sb : Scoreboard) : Prop :=
  goal_celebration_team (game_state sb) = team.

(** ** Shots, keys, volume, cards and the colour file *)

(** The handler a shot sensor of [side] is wired to. *)
Definition handle_sog (side : Side) : M Scoreboard unit :=
  match side with
  | USA => handle_usa_sog
  | USSR => handle_ussr_sog
  end.

(** The two shots-on-goal counts are [a] and [b]. *)
Definition same_shots (a b : Z) (sb : Scoreboard) : Prop :=
  usa_sog (game_state sb) = a /\ ussr_sog (game_state sb) = b.

(** [n] frames of the shot timer. *)
Definition sog_frames (n : nat) (sb : Scoreboard) : Scoreboard :=
  Nat.iter n (exec update_sog_timer) sb.

(** The game has ended with [name] as the winner. *)
Definition won_by (name : string) (sb : Scoreboard) : Prop :=
  game_over (game_state sb) = true
  /\ winner_name (game_state sb) = name
  /\ game_end_celebration_active (game_state sb) = true
  /\ goal_celebration_timer (game_state sb) = 5 * FPS.

(** [n] frames of the intermission timer. *)
Definition intermission_frames (n : nat) (sb : Scoreboard) : Scoreboard :=
  Nat.iter n (exec update_intermission) sb.

(** [increase_volume] and [decrease_volume]: one tenth up or down. *)
Definition increase_volume : M Scoreboard unit :=
  g <- getg ;; set_master_volume (volume g + 1).
Definition decrease_volume : M Scoreboard unit :=
  g <- getg ;; set_master_volume (volume g - 1).

(** The volume inputs: the rotary encoder, the M key, the encoder's
    push button. *)
Inductive VolumeInput : Type := Turn_up | Turn_down | Key_m | Push.

Definition volume_input (i : VolumeInput) : M Scoreboard unit :=
  match i with
  | Turn_up => increase_volume
  | Turn_down => decrease_volume
  | Key_m => toggle_mute
  | Push => handle_volume_button_press
  end.

(** The keys of ['GAME'] mode, one after the other. *)
Definition press_keys (keys : list GameKey) (sb : Scoreboard) : Scoreboard :=
  fold_left (fun s k => exec (keydown_game k) s) keys sb.

(** The clock speed is within the limits of the speed keys. *)
Definition speed_ok (sb : Scoreboard) : Prop :=
  1 <= time_multiplier (game_state sb) <= 20.

(** The option a dropdown shows as selected, if its index is on the list. *)
Definition chosen (dd : Dropdown) : option string :=
  index (options dd) (selected_index dd).

(** The index of a dropdown is a position of its list. *)
Definition on_list (dd : Dropdown) : Prop :=
  0 <= selected_index dd < Z.of_nat (length (options dd)).

(** Both players have their primary colour, and the strip is there or
    not as [strip] says. *)
Definition kitted (strip : bool) (sb : Scoreboard) : Prop :=
  present (pixels sb) = strip
  /\ present (player1_primary_color (game_state sb)) = true
  /\ present (player2_primary_color (game_state sb)) = true.

(** What can happen to a running game besides a face-off: a goal or shot
    sensor fires, or a frame of the timers passes. *)
Inductive Happening : Type :=
| Goal_edge (side : Side)
| Shot_edge (side : Side)
| Frame (dt now : Z).

Definition happen (h : Happening) : M Scoreboard unit :=
  match h with
  | Goal_edge side => handle_goal side
  | Shot_edge side => handle_sog side
  | Frame dt now => update_timers dt now
  end.

Definition after (hs : list Happening) (sb : Scoreboard) : Scoreboard :=
  fold_left (fun s h => exec (happen h) s) hs sb.

(** Scores and shot counts. *)
Definition tally (a b c d : Z) (sb : Scoreboard) : Prop :=
  usa_score (game_state sb) = a /\ ussr_score (game_state sb) = b
  /\ usa_sog (game_state sb) = c /\ ussr_sog (game_state sb) = d.

(** The sensors are locked out: a goal celebration is showing and its
    timer is not running, or the game is over and the only timer that may
    run is the one of the win celebration. *)
Definition locked (sb : Scoreboard) : Prop :=
  (celebrating sb = true /\ goal_celebration_timer (game_state sb) <= 0)
  \/ (game_over (game_state sb) = true
      /\ (0 < goal_celebration_timer (game_state sb) ->
          game_end_celebration_active (game_state sb) = true)).


(** The colour of [self.custom_colors] a profile names, if any. *)
Definition named_color (n : string) (sb : Scoreboard) : option ColorDict :=
  first (fun c => String.eqb (color_name c) n) (custom_colors sb).

(** ** [load_custom_colors]

    The scoreboard reads the colour file the colour picker maintains.  When
    the file is missing it first writes three default entries, with the
    format string of the picker's [save_colors].  A line that is blank after
    [strip()] is skipped; the line itself is split unstripped, and only
    lines of seven fields are taken.  ([Text.file_lines] gives a line
    without its terminator; in a line of seven fields the terminator would
    be the tail of the last number, where [int()] ignores it.) *)

Definition default_colors : list LED_color_picker.ColorEntry :=
  [ ("Default Red"%string, (255, 0, 0), (200, 0, 0));
    ("Black"%string, (0, 0, 0), (0, 0, 0));
    ("Default White"%string, (255, 255, 255), (255, 255, 255)) ].

Definition as_dict (e : LED_color_picker.ColorEntry) : ColorDict :=
  {| color_name := e.1.1; color_led := e.1.2; color_display := e.2 |}.

(** The body of the [for line in f] loop; [None] when an [int()] raises
    [ValueError]. *)
Definition read_color_line (acc : list ColorDict) (line : string)
  : option (list ColorDict) :=
  if negb (nonempty (Text.strip line)) then Some acc
  else
    let parts := Text.split Text.comma line in
    if (length parts =? 7)%nat then
      match LED_color_picker.ints (take 3 (drop 1 parts)) with
      | None => None
      | Some led =>
          match LED_color_picker.ints (take 3 (drop 4 parts)) with
          | None => None
          | Some disp =>
              Some (acc ++ [{| color_name := hd EmptyString parts;
                               color_led := LED_color_picker.tuple3 led;
                               color_display := LED_color_picker.tuple3 disp |}])
          end
      end
    else Some acc.

(** The loop inside [try]: an exception ends it and keeps what was read. *)
Fixpoint read_color_lines (acc : list ColorDict) (lines : list string)
  : list ColorDict :=
  match lines with
  | [] => acc
  | line :: rest =>
      match read_color_line acc line with
      | None => acc
      | Some acc' => read_color_lines acc' rest
      end
  end.

Definition Default_color : ColorDict :=
  {| color_name := "Default"; color_led := (255, 255, 255);
     color_display := (255, 255, 255) |}.

(** [load_custom_colors], given the colour file ([None]: missing): the
    value of [self.custom_colors] and the file as the call leaves it. *)
Definition load_custom_colors (file : option string)
  : list ColorDict * option string :=
  let file :=
    match file with
    | None => Some (LED_color_picker.file_text default_colors)
    | Some _ => file
    end in
  let custom_colors :=
    match file with
    | Some txt => read_color_lines [] (Text.file_lines txt)
    | None => []
    end in
  (if bool_decide (custom_colors = []) then [Default_color] else custom_colors,
   file).

(** A name a line of the colour file can carry to the scoreboard: no comma
    and no line terminator. *)
Definition carried (n : string) : bool :=
  Text.none_of (fun c => Ascii.eqb c Text.comma) n
  && Text.none_of Text.is_break n.

(** A line of seven fields one of whose six numbers is not an integer
    literal. *)
Definition garbled7 (line : string) : bool :=
  let parts := Text.split Text.comma line in
  nonempty (Text.strip line) && (length parts =? 7)%nat
  && negb (LED_color_picker.numbers (drop 1 parts)).

(** ** Boards and dropdowns of the examples *)

(** Both players have pressed ready on [board_start]. *)
Definition board_ready : Scoreboard :=
  exec (handle_player2_faceoff 200)
       (exec (handle_player1_faceoff 100) board_start).

(** The third period of [board_goal], one goal to nil, has run out. *)
Definition board_whistle : Scoreboard :=
  set_game_state (set_period 3 (set_game_clock 0 (game_state board_goal)))
                 board_goal.

(** The first period of [board_lit] has just run out: the intermission
    begins. *)
Definition board_horn : Scoreboard :=
  exec (update_timers 16 3000)
    (set_game_state (set_game_clock 1 (game_state board_lit)) board_lit).

(** A dropdown over [opts] that shows entry [i]. *)
Definition card_dd (opts : list string) (i : Z) : Dropdown :=
  {| options := opts; selected_index := i |}.

End scoreboard.


(* ===================================================================== *)
(** * Facts about the text primitives *)
(* ===================================================================== *)

Module TextFacts.

Import Text.

(** [String.append] does not unfold under [simpl]; these two equations
    are used instead. *)
Lemma append_nil (t : string) : EmptyString +:+ t = t.
Proof. reflexivity. Qed.

Lemma append_cons (c : ascii) (s t : string) :
  String c s +:+ t = String c (s +:+ t).
Proof. reflexivity. Qed.

Ltac unfold_append := rewrite ?append_cons, ?append_nil.

Lemma append_empty_r (s : string) : s +:+ EmptyString = s.
Proof.
  induction s as [|c s IH]; unfold_append; [reflexivity | now rewrite IH].
Qed.

Lemma append_assoc (a b c : string) : (a +:+ b) +:+ c = a +:+ (b +:+ c).
Proof.
  induction a as [|x a IH]; unfold_append; [reflexivity | now rewrite IH].
Qed.

Lemma none_of_app p (a b : string) :
  none_of p (a +:+ b) = none_of p a && none_of p b.
Proof.
  induction a as [|c a IH]; unfold_append; simpl; [reflexivity |].
  rewrite IH. now rewrite andb_assoc.
Qed.

Lemma none_of_weaken (p q : ascii -> bool) (s : string) :
  (forall c, q c = true -> p c = true) ->
  none_of p s = true -> none_of q s = true.
Proof.
  intros Hpq. induction s as [|c s IH]; simpl; [reflexivity |].
  intros [Hc Hs]%andb_true_iff. rewrite IH by assumption.
  destruct (q c) eqn:Hq; [| reflexivity].
  apply Hpq in Hq. now rewrite Hq in Hc.
Qed.

(** ** Line breaks *)

Lemma file_lines_cons (body rest : string) :
  none_of is_break body = true ->
  file_lines (body +:+ String LF rest) = body :: file_lines rest.
Proof.
  induction body as [|c body IH]; unfold_append; simpl; [reflexivity |].
  unfold is_break at 1. intros [Hc Hb]%andb_true_iff.
  apply negb_true_iff, orb_false_iff in Hc as [H1 H2].
  rewrite H1, H2, (IH Hb). reflexivity.
Qed.

Lemma file_lines_nonempty (s : string) : file_lines s <> [].
Proof.
  induction s as [|c s IH]; simpl; [discriminate |].
  destruct (Ascii.eqb c LF); [discriminate |].
  destruct (Ascii.eqb c CR).
  - destruct s as [|c' s']; [discriminate |].
    destruct (Ascii.eqb c' LF); discriminate.
  - destruct (file_lines s); discriminate.
Qed.


(** ** [split] *)


Lemma split_plain sep (a : string) :
  none_of (fun c => Ascii.eqb c sep) a = true -> split sep a = [a].
Proof.
  induction a as [|c a IH]; simpl; [reflexivity |].
  intros [Hc Ha]%andb_true_iff. apply negb_true_iff in Hc.
  now rewrite Hc, (IH Ha).
Qed.

Lemma split_cons sep (a b : string) :
  none_of (fun c => Ascii.eqb c sep) a = true ->
  split sep (a +:+ String sep b) = a :: split sep b.
Proof.
  induction a as [|c a IH]; unfold_append; simpl.
  - now rewrite Ascii.eqb_refl.
  - intros [Hc Ha]%andb_true_iff. apply negb_true_iff in Hc.
    now rewrite Hc, (IH Ha).
Qed.




(** ** [strip] *)

Lemma rstrip_solid (s : string) :
  none_of is_space s = true -> rstrip s = s.
Proof.
  induction s as [|c s IH]; simpl; [reflexivity |].
  intros [Hc Hs]%andb_true_iff. apply negb_true_iff in Hc.
  rewrite (IH Hs), Hc. now destruct s.
Qed.

Lemma rstrip_app_solid (a s : string) :
  none_of is_space s = true -> s <> EmptyString ->
  rstrip (a +:+ s) = a +:+ s.
Proof.
  intros Hs Hne. induction a as [|c a IH]; unfold_append; simpl.
  - now apply rstrip_solid.
  - rewrite IH. destruct (a +:+ s) eqn:E; [| reflexivity].
    destruct a; [now rewrite append_nil in E | now rewrite append_cons in E].
Qed.






(** ** [str] and [int] *)

Lemma string_of_uint_digits (d : uint) :
  none_of (fun c => negb (is_digit c)) (NilEmpty.string_of_uint d) = true.
Proof. induction d; simpl; auto. Qed.

Lemma digits_step (c : ascii) (s : string) :
  match s with
  | EmptyString => False
  | String c' _ => Ascii.eqb c' "_" = false
  end ->
  digits (String c s) = uint_of_char c (digits s).
Proof. destruct s as [|c' s']; [contradiction |]. simpl. now intros ->. Qed.

Lemma string_of_uint_head (d : uint) :
  d <> Nil ->
  match NilEmpty.string_of_uint d with
  | EmptyString => False
  | String c' _ => Ascii.eqb c' "_" = false
  end.
Proof. destruct d; [contradiction | ..]; reflexivity. Qed.

Lemma digits_string_of_uint (d : uint) :
  d <> Nil -> digits (NilEmpty.string_of_uint d) = Some d.
Proof.
  induction d as [|d IH|d IH|d IH|d IH|d IH|d IH|d IH|d IH|d IH|d IH];
    intros Hd; [contradiction | ..];
    (destruct (Decimal.uint_eq_dec d Nil) as [-> | Hn];
     [ reflexivity
     | cbn [NilEmpty.string_of_uint];
       rewrite digits_step by (now apply string_of_uint_head);
       rewrite (IH Hn); reflexivity ]).
Qed.

Lemma str_unfold (z : Z) :
  exists d, d <> Nil /\
    ((str z = NilEmpty.string_of_uint d /\ Z.to_int z = Pos d) \/
     (str z = String "-" (NilEmpty.string_of_uint d) /\ Z.to_int z = Neg d)).
Proof.
  unfold str. destruct z as [|p|p]; simpl.
  - exists (D0 Nil). split; [discriminate |]. now left.
  - exists (Pos.to_uint p). split; [apply Unsigned.to_uint_nonnil |].
    left. split; [| reflexivity].
    unfold NilZero.string_of_uint.
    pose proof (Unsigned.to_uint_nonnil p).
    now destruct (Pos.to_uint p).
  - exists (Pos.to_uint p). split; [apply Unsigned.to_uint_nonnil |].
    right. split; [| reflexivity].
    unfold NilZero.string_of_uint.
    pose proof (Unsigned.to_uint_nonnil p).
    now destruct (Pos.to_uint p).
Qed.

Lemma str_literal (z : Z) :
  none_of (fun c => negb (literal_char c)) (str z) = true.
Proof.
  destruct (str_unfold z) as (d & _ & [[-> _] | [-> _]]).
  - apply (none_of_weaken (fun c => negb (is_digit c)));
      [| apply string_of_uint_digits].
    intros c. unfold literal_char. now destruct (is_digit c).
  - simpl. apply (none_of_weaken (fun c => negb (is_digit c)));
      [| apply string_of_uint_digits].
    intros c. unfold literal_char. now destruct (is_digit c).
Qed.

Lemma str_nonempty (z : Z) : str z <> EmptyString.
Proof.
  destruct (str_unfold z) as (d & Hd & [[-> _] | [-> _]]); [| discriminate].
  now destruct d.
Qed.

(** No character of a printed number satisfies [p], as soon as [p] holds
    of no digit and not of the minus sign. *)
Lemma str_none_of p (z : Z) :
  (forall c, literal_char c = true -> p c = false) ->
  none_of p (str z) = true.
Proof.
  intros Hp. apply (none_of_weaken (fun c => negb (literal_char c)));
    [| apply str_literal].
  intros c Hc. destruct (literal_char c) eqn:E; [| reflexivity].
  now rewrite (Hp c E) in Hc.
Qed.

Lemma literal_char_cases (c : ascii) :
  literal_char c = true ->
  is_space c = false /\ is_c_space c = false /\ is_break c = false
  /\ Ascii.eqb c comma = false /\ (N_of_ascii c <? 128)%N = true
  /\ Ascii.eqb c "_" = false.
Proof.
  destruct c as [[|] [|] [|] [|] [|] [|] [|] [|]]; vm_compute;
    intros H; try discriminate H; repeat split.
Qed.

Lemma c_rstrip_solid (s : string) :
  none_of is_c_space s = true -> c_rstrip s = s.
Proof.
  induction s as [|c s IH]; simpl; [reflexivity |].
  intros [Hc Hs]%andb_true_iff. apply negb_true_iff in Hc.
  rewrite (IH Hs), Hc. now destruct s.
Qed.

Lemma is_ascii_str_spec (s : string) :
  none_of (fun c => negb (N_of_ascii c <? 128)%N) s = true ->
  is_ascii_str s = true.
Proof.
  induction s as [|c s IH]; simpl; [reflexivity |].
  intros [Hc Hs]%andb_true_iff. rewrite negb_involutive in Hc.
  now rewrite Hc, IH.
Qed.

(** [int(str(z)) == z] *)
Lemma int_str (z : Z) : int (str z) = Some z.
Proof.
  unfold int.
  assert (Ha : to_ascii_literal (str z) = str z).
  { unfold to_ascii_literal. rewrite is_ascii_str_spec; [reflexivity |].
    apply str_none_of. intros c Hc.
    apply literal_char_cases in Hc as (_ & _ & _ & _ & -> & _). reflexivity. }
  rewrite Ha.
  assert (Hl : c_lstrip (str z) = str z).
  { pose proof (str_literal z) as Hlit. pose proof (str_nonempty z) as Hne.
    destruct (str z) as [|c s]; [contradiction |].
    simpl in Hlit. apply andb_true_iff in Hlit as [Hc _].
    rewrite negb_involutive in Hc.
    apply literal_char_cases in Hc as (_ & Hc & _). simpl. now rewrite Hc. }
  rewrite Hl.
  rewrite c_rstrip_solid.
  2:{ apply str_none_of. intros c Hc.
      now apply literal_char_cases in Hc as (_ & Hc & _). }
  rewrite <- (DecimalZ.of_to z) at 2.
  destruct (str_unfold z) as (d & Hd & [[-> ->] | [-> ->]]).
  - pose proof (digits_string_of_uint d Hd) as Hdig.
    pose proof (string_of_uint_digits d) as Hall.
    destruct (NilEmpty.string_of_uint d) as [|c s] eqn:E;
      [now destruct d |].
    simpl in Hall. apply andb_true_iff in Hall as [Hc _].
    rewrite negb_involutive in Hc.
    assert (Hm : Ascii.eqb c "-" = false /\ Ascii.eqb c "+" = false).
    { clear -Hc. destruct c as [[|] [|] [|] [|] [|] [|] [|] [|]];
        vm_compute in Hc; try discriminate Hc; split; reflexivity. }
    destruct Hm as [-> ->]. rewrite Hdig. reflexivity.
  - rewrite Ascii.eqb_refl, (digits_string_of_uint d Hd). reflexivity.
Qed.

End TextFacts.

(* ===================================================================== *)
(** * Reasoning about runs *)
(* ===================================================================== *)

Module Runs.

Import Py.

(** Unfolds the monadic plumbing of a run on a given state. *)
Ltac run_monad :=
  cbv beta iota delta [exec final bind ret raise get put modify gets when
                       subscript].

(** ** Invariants along a run *)

Lemma final_bind {S A B} (m : M S A) (k : A -> M S B) (s : S) :
  final (bind m k s) =
  match m s with
  | Returned a s' => final (k a s')
  | Raised _ s' => s'
  end.
Proof. unfold bind. now destruct (m s). Qed.

Lemma invariant_bind {S A B} (I : S -> Prop) (m : M S A) (k : A -> M S B) :
  (forall s, I s -> I (final (m s))) ->
  (forall a s, I s -> I (final (k a s))) ->
  forall s, I s -> I (final (bind m k s)).
Proof.
  intros Hm Hk s Hs. rewrite final_bind. specialize (Hm s Hs).
  destruct (m s) as [a s' | e s']; simpl in Hm; auto.
Qed.

Lemma invariant_for_each {S A} (I : S -> Prop) (body : A -> M S unit)
    (l : list A) :
  (forall a s, I s -> I (final (body a s))) ->
  forall s, I s -> I (final (for_each body l s)).
Proof.
  intros Hb. induction l as [|a l IH]; intros s Hs; simpl; [exact Hs |].
  apply invariant_bind; auto.
Qed.

Lemma invariant_when {S} (I : S -> Prop) (c : bool) (m : M S unit) :
  (forall s, I s -> I (final (m s))) ->
  forall s, I s -> I (final (when c m s)).
Proof. intros Hm s Hs. destruct c; simpl; auto. Qed.

Lemma invariant_modify {S} (I : S -> Prop) (f : S -> S) :
  (forall s, I s -> I (f s)) -> forall s, I s -> I (final (modify f s)).
Proof. intros Hf s Hs. simpl. auto. Qed.

Lemma returning_ret {S A} (I : S -> Prop) (a : A) : returning I (ret a).
Proof. intros s Hs. exists a, s. now split. Qed.

Lemma returning_bind {S A B} (I : S -> Prop) (m : M S A) (k : A -> M S B) :
  returning I m -> (forall a, returning I (k a)) -> returning I (bind m k).
Proof.
  intros Hm Hk s Hs. destruct (Hm s Hs) as (a & s' & E & Hs').
  destruct (Hk a s' Hs') as (b & s'' & E' & Hs'').
  exists b, s''. unfold bind. rewrite E. now split.
Qed.

Lemma returning_when {S} (I : S -> Prop) (c : bool) (m : M S unit) :
  returning I m -> returning I (when c m).
Proof. intros Hm. destruct c; [exact Hm | apply returning_ret]. Qed.

Lemma returning_modify {S} (I : S -> Prop) (f : S -> S) :
  (forall s, I s -> I (f s)) -> returning I (modify f).
Proof. intros Hf s Hs. exists tt, (f s). split; [reflexivity | auto]. Qed.

Lemma returning_gets {S A} (I : S -> Prop) (f : S -> A) : returning I (gets f).
Proof. intros s Hs. exists (f s), s. now split. Qed.

Lemma returning_get {S} (I : S -> Prop) : returning I (@get S).
Proof. intros s Hs. exists s, s. now split. Qed.

(** After a prefix that returns and keeps [I], the rest decides. *)
Lemma final_seq {S A B} (I Q : S -> Prop) (m : M S A) (k : A -> M S B) :
  returning I m ->
  (forall a s, I s -> Q (final (k a s))) ->
  forall s, I s -> Q (final (bind m k s)).
Proof.
  intros Hm Hk s Hs. destruct (Hm s Hs) as (a & s' & E & Hs').
  rewrite final_bind, E. auto.
Qed.

End Runs.

(* ===================================================================== *)
(** * The colour store: file round trip and non-emptiness *)
(* ===================================================================== *)

Module ColorStore.

Import Py Text TextFacts Runs LED_color_picker.

(** ** The file format *)




Lemma str_no_comma (z : Z) : none_of (fun c => Ascii.eqb c ",") (str z) = true.
Proof.
  apply str_none_of. intros c Hc.
  now apply literal_char_cases in Hc as (_ & _ & _ & Hc & _).
Qed.

Lemma str_no_break (z : Z) : none_of is_break (str z) = true.
Proof.
  apply str_none_of. intros c Hc.
  now apply literal_char_cases in Hc as (_ & _ & Hc & _).
Qed.

Lemma str_no_space (z : Z) : none_of is_space (str z) = true.
Proof.
  apply str_none_of. intros c Hc.
  now apply literal_char_cases in Hc as (Hc & _).
Qed.

Lemma entry_text_split (name : string) (lr lg lb dr dg db : Z) :
  none_of (fun c => Ascii.eqb c ",") name = true ->
  split "," (entry_text (name, (lr, lg, lb), (dr, dg, db)))
  = [name; str lr; str lg; str lb; str dr; str dg; str db].
Proof.
  intros Hn. unfold entry_text. unfold_append.
  rewrite (split_cons _ _ _ Hn).
  rewrite !(split_cons _ _ _ (str_no_comma _)).
  now rewrite (split_plain _ _ (str_no_comma _)).
Qed.

Lemma entry_text_no_break (name : string) (lr lg lb dr dg db : Z) :
  none_of is_break name = true ->
  none_of is_break (entry_text (name, (lr, lg, lb), (dr, dg, db))) = true.
Proof.
  intros Hn. unfold entry_text.
  rewrite !none_of_app, Hn, !str_no_break. reflexivity.
Qed.





(** *** The older four-field lines *)







(** *** Every name read from a file is one the file can carry *)



(** ** What a load leaves behind *)

Lemma load_colors_run (p : ColorPicker) :
  exec load_colors p =
  match color_file p with
  | None =>
      set_color_file (Some (file_text default_colors))
                     (set_saved_colors default_colors p)
  | Some txt =>
      match read_lines ([], false) (file_lines txt) with
      | None => set_saved_colors fallback_colors (set_saved_colors [] p)
      | Some (colors, converted) =>
          let p1 := set_saved_colors colors (set_saved_colors [] p) in
          let p2 := if converted
                    then set_color_file (Some (file_text colors)) p1
                    else p1 in
          if (length colors <? 2)%nat
          then set_saved_colors (colors ++ [black]) p2
          else p2
      end
  end.
Proof.
  unfold load_colors, save_colors. run_monad.
  destruct (color_file p) as [txt |]; [| reflexivity].
  destruct (read_lines ([], false) (file_lines txt)) as [[colors [|]] |];
    simpl; try reflexivity;
    destruct (length colors <? 2)%nat; reflexivity.
Qed.

Ltac picker_fields :=
  cbn [color_file saved_colors set_color_file set_saved_colors].


(** ** The round trip *)

Lemma save_colors_run (p : ColorPicker) :
  exec save_colors p = set_color_file (Some (file_text (saved_colors p))) p.
Proof. reflexivity. Qed.




(** ** The store never becomes empty *)

Lemma assign_length {A} (l l' : list A) (i : Z) (x : A) :
  assign l i x = Some l' -> length l' = length l.
Proof.
  unfold assign.
  destruct ((0 <=? i) && (i <? Z.of_nat (length l)));
    [intros [= <-]; apply length_insert |].
  destruct ((- Z.of_nat (length l) <=? i) && (i <? 0));
    [intros [= <-]; apply length_insert | discriminate].
Qed.

Lemma pop_length {A} (l l' : list A) (i : Z) :
  pop l i = Some l' -> length l = S (length l').
Proof.
  unfold pop.
  destruct ((0 <=? i) && (i <? Z.of_nat (length l))) eqn:E1.
  - intros [= <-]. apply andb_true_iff in E1 as [H1 H2].
    apply Z.leb_le in H1. apply Z.ltb_lt in H2.
    rewrite length_delete; [lia |].
    apply lookup_lt_is_Some. lia.
  - destruct ((- Z.of_nat (length l) <=? i) && (i <? 0)) eqn:E2;
      [| discriminate].
    intros [= <-]. apply andb_true_iff in E2 as [H1 H2].
    apply Z.leb_le in H1. apply Z.ltb_lt in H2.
    rewrite length_delete; [lia |].
    apply lookup_lt_is_Some. lia.
Qed.

Ltac break_match :=
  match goal with
  | |- context [match ?x with _ => _ end] =>
      lazymatch x with
      | context [match _ with _ => _ end] => fail
      | _ => destruct x eqn:?
      end
  end.

Ltac stocked_leaf :=
  unfold stocked in *; run_monad;
  repeat (break_match; cbn [saved_colors] in *);
  cbn in *;
  repeat match goal with
    | H : assign _ _ _ = Some _ |- _ => apply assign_length in H
    | H : pop _ _ = Some _ |- _ => apply pop_length in H
    | H : (_ <? _) = true |- _ => apply Z.ltb_lt in H
    end;
  rewrite ?length_app; simpl; try lia.

Lemma stocked_update_current (p : ColorPicker) :
  stocked p -> stocked (final (update_current_colors_from_selection p)).
Proof. intros H. unfold update_current_colors_from_selection. stocked_leaf. Qed.

Lemma stocked_save_colors (p : ColorPicker) :
  stocked p -> stocked (final (save_colors p)).
Proof. intros H. unfold save_colors. stocked_leaf. Qed.

Lemma stocked_store_at_primary (e : ColorEntry) (p : ColorPicker) :
  stocked p -> stocked (final (store_at_primary e p)).
Proof. intros H. unfold store_at_primary. stocked_leaf. Qed.

Lemma stocked_adjust_channel (idx direction : Z) (p : ColorPicker) :
  stocked p -> stocked (final (adjust_channel idx direction p)).
Proof. intros H. unfold adjust_channel. stocked_leaf. Qed.

Lemma stocked_modify (f : ColorPicker -> ColorPicker) (p : ColorPicker) :
  saved_colors (f p) = saved_colors p ->
  stocked p -> stocked (final (modify f p)).
Proof. unfold stocked. simpl. now intros ->. Qed.

Lemma stocked_ret {A} (a : A) (p : ColorPicker) :
  stocked p -> stocked (final (ret a p)).
Proof. trivial. Qed.

Lemma stocked_when (c : bool) (m : M ColorPicker unit) :
  (forall p, stocked p -> stocked (final (m p))) ->
  forall p, stocked p -> stocked (final (when c m p)).
Proof. intros Hm p Hp. destruct c; simpl; auto. Qed.

(** Breaks a sequence into its statements. *)
Ltac stocked_step :=
  lazymatch goal with
  | |- stocked (final (ret _ _)) => apply stocked_ret
  | |- stocked (final (bind _ _ _)) =>
      apply (invariant_bind stocked); [intros ? ? | intros ? ? ? |]
  | |- stocked (final (when _ _ _)) => apply stocked_when; [intros ? ? |]
  | |- stocked (final (modify _ _)) => apply stocked_modify; [reflexivity |]
  | |- stocked (final (update_current_colors_from_selection _)) =>
      apply stocked_update_current
  | |- stocked (final (save_colors _)) => apply stocked_save_colors
  | |- stocked (final (store_at_primary _ _)) => apply stocked_store_at_primary
  | |- stocked (final (adjust_channel _ _ _)) => apply stocked_adjust_channel
  | |- stocked (final (raise _ _)) => simpl
  | |- stocked _ => assumption
  end.

Ltac stocked_seq := repeat stocked_step.

Lemma stocked_keydown_saving (key : Key) (unicode : string) (p : ColorPicker) :
  stocked p -> stocked (final (keydown_saving key unicode p)).
Proof.
  intros H. unfold keydown_saving. rewrite final_bind. simpl.
  destruct key; stocked_seq.
Qed.

Lemma stocked_set_saved_colors (l : list ColorEntry) (s : ColorPicker) :
  (0 < length l)%nat -> stocked (final (modify (set_saved_colors l) s)).
Proof. intros H. exact H. Qed.

Lemma stocked_keydown_normal (now : Z) (key : Key) (p : ColorPicker) :
  stocked p -> stocked (final (keydown_normal now key p)).
Proof.
  intros H. unfold keydown_normal. rewrite final_bind. simpl.
  destruct key; cbn [rgb_key_map]; cbv iota;
    try (stocked_seq; fail).
  - (* K_s *)
    stocked_seq.
    destruct (index (saved_colors p) (primary_index p)) as [?|]; stocked_seq.
  - (* K_a *)
    stocked_seq. apply stocked_set_saved_colors.
    rewrite length_app. simpl. lia.
  - (* K_DELETE *)
    apply (invariant_bind stocked); [intros s Hs | intros; stocked_seq | exact H].
    destruct (negb (bool_decide (saved_colors p = []))
              && (1 <? Z.of_nat (length (saved_colors p)))) eqn:Hc;
      [| exact Hs].
    apply andb_true_iff in Hc as [_ Hc]. apply Z.ltb_lt in Hc.
    unfold when.
    destruct (pop (saved_colors p) (primary_index p)) as [l |] eqn:E;
      [| exact Hs].
    apply pop_length in E.
    stocked_seq. apply stocked_set_saved_colors. lia.
Qed.

Lemma stocked_handle_event (now : Z) (ev : Event) (p : ColorPicker) :
  stocked p -> stocked (final (handle_event now ev p)).
Proof.
  intros H. destruct ev as [| key | key unicode |]; unfold handle_event;
    try (stocked_seq; fail).
  rewrite final_bind. simpl. destruct (is_saving p).
  - stocked_seq. now apply stocked_keydown_saving.
  - now apply stocked_keydown_normal.
Qed.

Lemma stocked_handle_input (now : Z) (events : list Event) (p : ColorPicker) :
  stocked p -> stocked (final (handle_input now events p)).
Proof.
  revert p. induction events as [|ev rest IH]; intros p H; simpl; [exact H |].
  apply (invariant_bind stocked); [| | exact H].
  - intros s Hs. now apply stocked_handle_event.
  - intros [|] s Hs; [now apply IH | exact Hs].
Qed.

Lemma stocked_hold_step (now : Z) (pressed : Key -> bool)
    (entry : Key * (Z * Z)) (p : ColorPicker) :
  stocked p -> stocked (final (hold_step now pressed entry p)).
Proof.
  intros H. destruct entry as [key [idx direction]]. unfold hold_step.
  rewrite final_bind. simpl.
  destruct (key_hold_timers p key); [| exact H].
  stocked_seq.
  destruct (key_repeat_timers p key); stocked_seq.
Qed.

Lemma stocked_process_key_holds (now : Z) (pressed : Key -> bool)
    (p : ColorPicker) :
  stocked p -> stocked (final (process_key_holds now pressed p)).
Proof.
  intros H. unfold process_key_holds, bind, get. cbv beta iota.
  destruct (is_saving p); [exact H |].
  apply (invariant_for_each stocked); [| exact H].
  intros a s Hs. now apply stocked_hold_step.
Qed.

Lemma stocked_flush_changes (p : ColorPicker) :
  stocked p -> stocked (final (flush_changes p)).
Proof.
  intros H. unfold flush_changes. stocked_seq.
  match goal with
  | |- context [index ?l ?i] => destruct (index l i) as [[[? ?] ?] |]
  end; stocked_seq.
Qed.

Lemma stocked_run_iteration (now : Z) (pressed : Key -> bool)
    (events : list Event) (p : ColorPicker) :
  stocked p -> stocked (final (run_iteration now pressed events p)).
Proof.
  intros H. unfold run_iteration.
  apply (invariant_bind stocked); [| | exact H].
  - intros s Hs. now apply stocked_handle_input.
  - intros _ s Hs. apply (invariant_bind stocked); [| | exact Hs].
    + intros s' Hs'. now apply stocked_process_key_holds.
    + intros _ s' Hs'. now apply stocked_flush_changes.
Qed.

Lemma stocked_load_colors (p : ColorPicker) : stocked (exec load_colors p).
Proof.
  rewrite load_colors_run. unfold stocked.
  destruct (color_file p) as [txt |]; [| simpl; lia].
  destruct (read_lines ([], false) (file_lines txt)) as [[colors converted] |];
    [| simpl; lia].
  cbv zeta. destruct (length colors <? 2)%nat eqn:E.
  - picker_fields. rewrite length_app. simpl. lia.
  - apply Nat.ltb_ge in E. destruct converted; picker_fields; lia.
Qed.

Lemma stocked_iff (p : ColorPicker) : stocked p <-> saved_colors p <> [].
Proof.
  unfold stocked. destruct (saved_colors p); simpl; split;
    intros H; try lia; try congruence; try discriminate.
Qed.

Lemma delete_refused (p : ColorPicker) (now : Z) (unicode : string) :
  length (saved_colors p) = 1%nat -> is_saving p = false ->
  handle_event now (KEYDOWN K_DELETE unicode) p = Returned true p.
Proof.
  intros Hlen Hs. unfold handle_event, keydown_normal, bind, get.
  rewrite Hs, Hlen. cbv beta iota.
  rewrite andb_false_r. reflexivity.
Qed.

Lemma delete_removes_one (p : ColorPicker) (now : Z) (unicode : string) :
  is_saving p = false ->
  (1 < length (saved_colors p))%nat ->
  0 <= primary_index p < Z.of_nat (length (saved_colors p)) ->
  S (length (saved_colors
       (exec (handle_event now (KEYDOWN K_DELETE unicode)) p)))
  = length (saved_colors p).
Proof.
  intros Hs Hlen Hidx. unfold exec, handle_event.
  rewrite final_bind. unfold get at 1. cbv beta iota. rewrite Hs.
  unfold keydown_normal. rewrite final_bind. unfold get at 1. cbv beta iota.
  assert (Hc : negb (bool_decide (saved_colors p = []))
               && (1 <? Z.of_nat (length (saved_colors p))) = true).
  { apply andb_true_iff. split.
    - apply negb_true_iff, bool_decide_eq_false.
      destruct (saved_colors p); [simpl in Hlen; lia | discriminate].
    - apply Z.ltb_lt. lia. }
  rewrite Hc.
  destruct (pop (saved_colors p) (primary_index p)) as [l |] eqn:E.
  2:{ unfold pop in E.
      destruct (Z.leb_spec 0 (primary_index p)); [| lia].
      destruct (Z.ltb_spec (primary_index p) (Z.of_nat (length (saved_colors p))));
        [discriminate | lia]. }
  pose proof (pop_length _ _ _ E) as Hl. rewrite Hl. f_equal.
  unfold update_current_colors_from_selection, save_colors. run_monad.
  cbn [saved_colors set_saved_colors set_primary_index set_secondary_index
       primary_index].
  repeat break_match; reflexivity.
Qed.

(** C6: the store always keeps at least one entry.  (1) DELETE pressed
    while the store holds exactly one entry is refused: the picker is left
    exactly as it was.  (2) Whatever the colour file holds, or when it is
    missing, the store is not empty after a load.  (3) One iteration of the
    main loop, whatever events it receives (add, rename, the colour keys and
    their repeats with the write-back, delete, anything else), leaves a
    non-empty store non-empty, also when it stops on an exception.
    (4) DELETE on a store of several entries removes exactly one. *)
Theorem C6_store_keeps_an_entry :
  (forall (p : ColorPicker) (now : Z) (unicode : string),
      length (saved_colors p) = 1%nat -> is_saving p = false ->
      handle_event now (KEYDOWN K_DELETE unicode) p = Returned true p)
  /\ (forall p : ColorPicker, saved_colors (exec load_colors p) <> [])
  /\ (forall (p : ColorPicker) (now : Z) (pressed : Key -> bool)
             (events : list Event),
      saved_colors p <> [] ->
      saved_colors (exec (run_iteration now pressed events) p) <> [])
  /\ (forall (p : ColorPicker) (now : Z) (unicode : string),
      is_saving p = false ->
      (1 < length (saved_colors p))%nat ->
      0 <= primary_index p < Z.of_nat (length (saved_colors p)) ->
      S (length (saved_colors
           (exec (handle_event now (KEYDOWN K_DELETE unicode)) p)))
      = length (saved_colors p)).
Proof.
  split; [| split; [| split]].
  - apply delete_refused.
  - intros p. apply stocked_iff, stocked_load_colors.
  - intros p now pressed events H. apply stocked_iff.
    apply stocked_run_iteration. now apply stocked_iff.
  - apply delete_removes_one.
Qed.

(** C6 on a store of one entry and on a store of two. *)
Lemma C6_store_keeps_an_entry_witness :
  handle_event 0 (KEYDOWN K_DELETE EmptyString) (picker_with [black])
    = Returned true (picker_with [black])
  /\ saved_colors
       (exec (run_iteration 0 (fun _ => false)
                [KEYDOWN K_DELETE EmptyString; KEYDOWN K_DELETE EmptyString])
             (picker_with [red; black])) <> []
  /\ S (length (saved_colors
         (exec (handle_event 0 (KEYDOWN K_DELETE EmptyString))
               (picker_with [red; black]))))
     = length (saved_colors (picker_with [red; black])).
Proof.
  destruct C6_store_keeps_an_entry as (H1 & _ & H3 & H4).
  split; [| split].
  - apply H1; reflexivity.
  - apply H3. discriminate.
  - apply H4; [reflexivity | simpl; lia | simpl; lia].
Defined.

End ColorStore.

(* ===================================================================== *)
(** * The scoreboard: goals, clock, celebration, profiles and LEDs *)
(* ===================================================================== *)

Module GameRules.

Import Py scoreboard.

Example board_play_running :
  game_mode (game_state board_play) = GAME
  /\ game_active (game_state board_play) = true
  /\ motor_active (game_state board_play) = false
  /\ game_clock (game_state board_play) = 20 * 60 * 1000 - 40 * 160
  /\ player2_name (game_state board_play) = "USA"%string
  /\ option_map brightness (pixels board_play) = Some LED_BRIGHTNESS.
Proof. vm_compute. repeat split; reflexivity. Qed.

Import Runs.

(** ** Statements that leave a property of the board alone *)

Lemma invariant_setg {T} (I : Scoreboard -> Prop)
    (setter : T -> GameState -> GameState) (v : T) :
  (forall s, I s -> I (set_game_state (setter v (game_state s)) s)) ->
  forall s, I s -> I (final (setg setter v s)).
Proof. intros H s Hs. simpl. auto. Qed.

Lemma invariant_play (I : Scoreboard -> Prop) (loaded : Scoreboard -> bool)
    (snd : Sound) :
  (forall s, I s -> I (set_played (snd :: played s) s)) ->
  forall s, I s -> I (final (play loaded snd s)).
Proof. intros H s Hs. unfold play, modify. simpl. destruct (loaded s); auto. Qed.

Lemma invariant_on_pixels (I : Scoreboard -> Prop) (f : NeoPixel -> NeoPixel) :
  (forall s px, I s -> pixels s = Some px -> I (set_pixels (Some (f px)) s)) ->
  forall s, I s -> I (final (on_pixels f s)).
Proof.
  intros H s Hs. unfold on_pixels, bind, get.
  destruct (pixels s) as [px |] eqn:E; simpl; auto.
Qed.

(** One step through a handler's text, for a property [I] that the
    remaining statements do not disturb.  Leaves are closed by computing
    the record update. *)
Ltac keep_leaf := intros; cbn in *; intuition (auto; congruence).

Ltac keep_step :=
  lazymatch goal with
  | |- ?I (final (bind _ _ _)) =>
      apply (invariant_bind I); [intros ? ? | intros ? ? ? |]
  | |- ?I (final (when _ _ _)) => apply (invariant_when I); [intros ? ? |]
  | |- ?I (final (ret _ _)) => assumption
  | |- ?I (final (raise _ _)) => assumption
  | |- ?I (final (getg _)) => assumption
  | |- ?I (final (get _)) => assumption
  | |- ?I (final (subscript ?o _)) => destruct o; assumption
  | |- ?I (final (setg _ _ _)) => apply (invariant_setg I); [keep_leaf |]
  | |- ?I (final (play _ _ _)) => apply (invariant_play I); [keep_leaf |]
  | |- ?I (final (modify _ _)) => apply (invariant_modify I); [keep_leaf |]
  | |- ?I (final (on_pixels _ _)) => apply (invariant_on_pixels I); [keep_leaf |]
  | |- ?I (final (set_brightness _ _)) => unfold set_brightness
  | |- ?I (final (fill _ _)) => unfold fill
  | |- ?I (final (show _)) => unfold show
  | |- ?I (final (led_named _ _ _)) => unfold led_named
  | |- ?I (final (clear_leds _)) => unfold clear_leds
  | |- ?I (final (trigger_game_end _ _)) => unfold trigger_game_end
  | |- ?I (final ((if ?c then _ else _) _)) => destruct c
  | |- ?I (final (match ?o with _ => _ end _)) => destruct o
  | |- _ => assumption
  end.

Ltac keeps := repeat keep_step.

(** ** Goal edges (C1) *)

Lemma goal_ignored (side : Side) (sb : Scoreboard) :
  negb (game_over (game_state sb)) && negb (celebrating sb) = false ->
  handle_goal side sb = Returned tt sb.
Proof.
  intros H. destruct side; unfold handle_goal, handle_usa_goal,
    handle_ussr_goal, bind, getg, gets; unfold celebrating in H;
    rewrite H; reflexivity.
Qed.

Lemma usa_goal_scored (sb : Scoreboard) :
  game_over (game_state sb) = false -> celebrating sb = false ->
  same_scores (usa_score (game_state sb) + 1) (ussr_score (game_state sb))
              (exec handle_usa_goal sb).
Proof.
  intros Hover Hcel. unfold celebrating in Hcel.
  unfold exec, handle_usa_goal. rewrite final_bind. unfold getg, gets.
  cbv beta iota. rewrite Hover, Hcel. unfold when at 1. cbn [negb andb].
  rewrite final_bind. cbn [setg modify]. cbv beta iota.
  keeps. split; reflexivity.
Qed.

Lemma ussr_goal_scored (sb : Scoreboard) :
  game_over (game_state sb) = false -> celebrating sb = false ->
  same_scores (usa_score (game_state sb)) (ussr_score (game_state sb) + 1)
              (exec handle_ussr_goal sb).
Proof.
  intros Hover Hcel. unfold celebrating in Hcel.
  unfold exec, handle_ussr_goal. rewrite final_bind. unfold getg, gets.
  cbv beta iota. rewrite Hover, Hcel. unfold when at 1. cbn [negb andb].
  rewrite final_bind. cbn [setg modify]. cbv beta iota.
  keeps. split; reflexivity.
Qed.

Lemma goal_scored (side : Side) (sb : Scoreboard) :
  game_over (game_state sb) = false -> celebrating sb = false ->
  score side (exec (handle_goal side) sb) = score side sb + 1
  /\ score (other side) (exec (handle_goal side) sb) = score (other side) sb.
Proof.
  intros Hover Hcel. destruct side; unfold handle_goal, score, other.
  - destruct (usa_goal_scored sb Hover Hcel) as [H1 H2]. now split.
  - destruct (ussr_goal_scored sb Hover Hcel) as [H1 H2]. now split.
Qed.

(** C1: whatever goal edges came before, an edge that arrives while the
    game is not over and no celebration is showing adds exactly one to the
    score of its side and leaves the other score alone; an edge that
    arrives while a celebration is showing, for either side, changes
    neither score nor either shots-on-goal count. *)
Theorem C1_goal_edges (edges : list Side) (sb0 : Scoreboard) (side : Side) :
  let sb := deliver edges sb0 in
  let sb' := exec (handle_goal side) sb in
  (game_over (game_state sb) = false -> celebrating sb = false ->
   score side sb' = score side sb + 1
   /\ score (other side) sb' = score (other side) sb)
  /\ (celebrating sb = true ->
      score USA sb' = score USA sb /\ score USSR sb' = score USSR sb
      /\ shots USA sb' = shots USA sb /\ shots USSR sb' = shots USSR sb).
Proof.
  cbv zeta. split.
  - apply goal_scored.
  - intros Hcel. unfold exec. rewrite goal_ignored.
    + repeat split.
    + rewrite Hcel. apply andb_false_r.
Qed.


(** C1 in a running game: the first edge counts, the edge that follows it
    during the celebration does not. *)
Lemma C1_goal_edges_witness :
  (let sb := deliver [] board_play in
   let sb' := exec (handle_goal USA) sb in
   score USA sb' = score USA sb + 1
   /\ score (other USA) sb' = score (other USA) sb)
  /\ (let sb := deliver [USA] board_play in
      let sb' := exec (handle_goal USSR) sb in
      score USA sb' = score USA sb /\ score USSR sb' = score USSR sb
      /\ shots USA sb' = shots USA sb /\ shots USSR sb' = shots USSR sb).
Proof.
  split.
  - apply (proj1 (C1_goal_edges [] board_play USA)); vm_compute; reflexivity.
  - apply (proj2 (C1_goal_edges [USA] board_play USSR)). vm_compute. reflexivity.
Defined.

(** ** The clock and the end of a period (C2) *)

(** C2: a clock that is not negative is not negative after an update,
    whatever the frame time, and a decrement that would pass zero stops at
    zero; once the clock is at zero with the period below three, the game
    not over and neither intermission nor overtime on, the period-end check
    stops play and starts the three-second intermission, and leaves
    [game_over] false. *)
Theorem C2_clock_and_period_end (sb : Scoreboard) (dt : Z) :
  0 <= game_clock (game_state sb) ->
  let g1 := update_clock dt (game_state sb) in
  0 <= game_clock g1
  /\ (game_active (game_state sb) = true -> 0 < game_clock (game_state sb) ->
      game_clock (game_state sb) - dt * time_multiplier (game_state sb) < 0 ->
      game_clock g1 = 0)
  /\ (game_clock g1 = 0 -> period g1 < 3 -> game_over g1 = false ->
      intermission_active g1 = false -> overtime_active g1 = false ->
      let g2 := game_state (exec check_period_end (set_game_state g1 sb)) in
      game_active g2 = false /\ intermission_active g2 = true
      /\ intermission_timer g2 = 3 * FPS /\ game_over g2 = false
      /\ overtime_active g2 = false /\ game_end_celebration_active g2
                                       = game_end_celebration_active g1).
Proof.
  intros Hpos. cbv zeta. split; [| split].
  - unfold update_clock.
    destruct (game_active (game_state sb) && (0 <? game_clock (game_state sb)));
      [| exact Hpos].
    cbn. destruct (Z.ltb_spec (game_clock (game_state sb)
                               - dt * time_multiplier (game_state sb)) 0);
      cbn; lia.
  - intros Ha Hc Hneg. unfold update_clock. rewrite Ha.
    apply Z.ltb_lt in Hc. rewrite Hc. cbn.
    apply Z.ltb_lt in Hneg. rewrite Hneg. reflexivity.
  - set (g1 := update_clock dt (game_state sb)).
    intros Hz Hp Hover Hint Hot.
    unfold exec, check_period_end. rewrite final_bind.
    unfold getg, gets. cbv beta iota. cbn [game_state set_game_state].
    rewrite Hz, Hover, Hint, Hot. cbn [Z.ltb Z.compare orb].
    apply Z.ltb_lt in Hp. rewrite Hp.
    unfold play, setg, modify, bind.
    destruct (buzzer_sound (set_game_state g1 sb)); cbn; repeat split; auto.
Qed.

(** C2 with one millisecond left in the first period and a 16 ms frame at
    speed 10. *)
Lemma C2_clock_and_period_end_witness :
  let sb := set_game_state (set_game_clock 1 (game_state board_play)) board_play in
  let g1 := update_clock 16 (game_state sb) in
  0 <= game_clock g1
  /\ game_clock g1 = 0
  /\ (let g2 := game_state (exec check_period_end (set_game_state g1 sb)) in
      game_active g2 = false /\ intermission_active g2 = true
      /\ intermission_timer g2 = 3 * FPS /\ game_over g2 = false
      /\ overtime_active g2 = false /\ game_end_celebration_active g2
                                       = game_end_celebration_active g1).
Proof.
  pose proof (C2_clock_and_period_end
                (set_game_state (set_game_clock 1 (game_state board_play))
                                board_play) 16) as H.
  cbv zeta in *.
  destruct H as (H1 & H2 & H3); [vm_compute; discriminate |].
  split; [exact H1 | split].
  - apply H2; vm_compute; reflexivity.
  - apply H3; vm_compute; reflexivity.
Defined.

(** ** Sudden death (C4) *)

Lemma returning_setg {T} (I : Scoreboard -> Prop)
    (setter : T -> GameState -> GameState) (v : T) :
  (forall s, I s -> I (set_game_state (setter v (game_state s)) s)) ->
  returning I (setg setter v).
Proof. intros H. apply returning_modify. exact H. Qed.

Lemma returning_play (I : Scoreboard -> Prop) (loaded : Scoreboard -> bool)
    (snd : Sound) :
  (forall s, I s -> I (set_played (snd :: played s) s)) ->
  returning I (play loaded snd).
Proof.
  intros H. apply returning_modify. intros s Hs. destruct (loaded s); auto.
Qed.

Lemma returning_led_named (I : Scoreboard -> Prop) (n : string) (d : RGB) :
  returning I (led_named n d).
Proof.
  unfold led_named. apply returning_bind; [apply returning_get |].
  intros sb. apply returning_ret.
Qed.

(** One step through statements that cannot raise. *)
Ltac returning_step :=
  lazymatch goal with
  | |- returning _ (bind _ _) => apply returning_bind; [| intros ?]
  | |- returning _ (when _ _) => apply returning_when
  | |- returning _ (ret _) => apply returning_ret
  | |- returning _ (setg _ _) => apply returning_setg; keep_leaf
  | |- returning _ (play _ _) => apply returning_play; keep_leaf
  | |- returning _ (modify _) => apply returning_modify; keep_leaf
  | |- returning _ (led_named _ _) => apply returning_led_named
  | |- returning _ (if ?c then _ else _) => destruct c
  end.

(** Peels the statements of a sequence that cannot raise, keeping [I]. *)
Ltac peel I :=
  repeat (apply (final_seq I); [repeat returning_step | intros ? ? ? |]).

Lemma trigger_game_end_run (winner_id : Winner) (sb : Scoreboard) :
  game_ended (goal_celebration_team (game_state sb))
             (final (trigger_game_end winner_id sb)).
Proof.
  unfold trigger_game_end.
  rewrite final_bind. cbn [setg modify]. cbv beta iota.
  rewrite final_bind. cbn [setg modify]. cbv beta iota.
  rewrite final_bind. cbn [setg modify]. cbv beta iota.
  keeps. unfold game_ended. cbn. auto.
Qed.

Lemma overtime_goal (side : Side) (sb : Scoreboard) :
  overtime_active (game_state sb) = true ->
  game_over (game_state sb) = false ->
  celebrating sb = false ->
  game_ended (goal_celebration_team (game_state sb))
             (exec (handle_goal side) sb).
Proof.
  intros Hot Hover Hcel. unfold celebrating in Hcel.
  set (team := goal_celebration_team (game_state sb)).
  assert (Hteam : team_is team sb) by reflexivity.
  destruct side; unfold exec, handle_goal.
  - unfold handle_usa_goal. rewrite final_bind. unfold getg, gets.
    cbv beta iota. rewrite Hover, Hot, Hcel.
    unfold when at 1. cbn [negb andb].
    peel (team_is team); try assumption.
    match goal with
    | H : team_is team ?s |- context [trigger_game_end _ ?s] => rewrite <- H
    end.
    apply trigger_game_end_run.
  - unfold handle_ussr_goal. rewrite final_bind. unfold getg, gets.
    cbv beta iota. rewrite Hover, Hot, Hcel.
    unfold when at 1. cbn [negb andb].
    peel (team_is team); try assumption.
    match goal with
    | H : team_is team ?s |- context [trigger_game_end _ ?s] => rewrite <- H
    end.
    apply trigger_game_end_run.
Qed.

(** C4: in sudden-death overtime, with the game not over and no goal
    celebration showing, a goal edge of either side ends the game at once:
    [game_over] and the win overlay [game_end_celebration_active] are set
    and its five-second timer started, the scoring side gets its point,
    and the goal-celebration side is left as it was, so no goal
    celebration is entered. *)
Theorem C4_sudden_death_goal (side : Side) (sb : Scoreboard) :
  overtime_active (game_state sb) = true ->
  game_over (game_state sb) = false ->
  celebrating sb = false ->
  let sb' := exec (handle_goal side) sb in
  game_over (game_state sb') = true
  /\ game_end_celebration_active (game_state sb') = true
  /\ goal_celebration_timer (game_state sb') = 5 * FPS
  /\ goal_celebration_team (game_state sb') = goal_celebration_team (game_state sb)
  /\ celebrating sb' = false
  /\ score side sb' = score side sb + 1.
Proof.
  intros Hot Hover Hcel. cbv zeta.
  destruct (overtime_goal side sb Hot Hover Hcel) as (H1 & H2 & H3 & H4).
  repeat split; try assumption.
  - unfold celebrating. now rewrite H4.
  - apply goal_scored; assumption.
Qed.

(** C4 in overtime: a tied third period has run out, the intermission has
    passed, and the visiting side scores. *)
Lemma C4_sudden_death_goal_witness :
  let sb' := exec (handle_goal USSR) board_overtime in
  game_over (game_state sb') = true
  /\ game_end_celebration_active (game_state sb') = true
  /\ goal_celebration_timer (game_state sb') = 5 * FPS
  /\ goal_celebration_team (game_state sb')
     = goal_celebration_team (game_state board_overtime)
  /\ celebrating sb' = false
  /\ score USSR sb' = score USSR board_overtime + 1.
Proof.
  apply (C4_sudden_death_goal USSR board_overtime); vm_compute; reflexivity.
Defined.

(** ** The end of a goal celebration (C3) *)



(** Unfolds a handler and the monadic plumbing on a given state. *)
Ltac run_board :=
  cbv beta iota delta
    [exec final bind ret raise get put modify gets when subscript present
     getg setg play on_pixels set_brightness fill show clear_leds
     _start_faceoff_sequence update_intermission game_active_effect].

Lemma faceoff_resumes (now : Z) (sb : Scoreboard) :
  game_over (game_state sb) = false ->
  motor_active (game_state sb) = false ->
  let g' := game_state (exec (_start_faceoff_sequence now) sb) in
  game_active g' = true /\ goal_celebration_team g' = None
  /\ game_lights_set g' = false.
Proof.
  intros Hover Hmotor. cbv zeta.
  destruct sb as [g cc pl px mo vi vd s1 s2 s3 s4 s5 pd].
  cbn [game_state] in Hover, Hmotor.
  run_board. cbn [game_state pixels motor faceoff_sound set_game_state
                  set_pixels set_played set_motor].
  rewrite Hover, Hmotor. cbn [negb andb].
  destruct px as [px |], s3, mo as [mo |]; cbn;
    destruct (game_active g) eqn:E; cbn; auto.
Qed.







(** ** RFID profiles (C7, C10) *)

Lemma expire_load_message (sb : Scoreboard) (t : Z) :
  rfid_load_message (game_state (exec (expire_messages t) sb))
  = if nonempty (rfid_load_message (game_state sb))
       && (rfid_load_message_end_time (game_state sb) <? t)
    then EmptyString
    else rfid_load_message (game_state sb).
Proof.
  unfold exec, expire_messages, bind, getg, gets, setg, modify, when.
  destruct (nonempty (rfid_save_message (game_state sb))
            && (rfid_save_message_end_time (game_state sb) <? t));
    destruct (nonempty (rfid_load_message (game_state sb))
              && (rfid_load_message_end_time (game_state sb) <? t));
    destruct (nonempty (rfid_welcome_message (game_state sb))
              && (rfid_welcome_message_end_time (game_state sb) <? t));
    reflexivity.
Qed.

(** C7: a card whose identifier is not a key of the player store leaves
    the three dropdowns as they were, and sets the message "No data on
    card" for the scanning player with an end time 2000 ms after the scan;
    the frame loop keeps the message up to and including that time and
    clears it on the first frame after it. *)
Theorem C7_unknown_card (sb : Scoreboard) (card_id player_num : Z)
    (name_dd pri_color_dd sec_color_dd : Dropdown)
    (player_names_list color_names_list sec_color_names_list : list string)
    (now : Z) :
  players sb !! Text.str card_id = None ->
  exists sb',
    load_player_profile card_id player_num name_dd pri_color_dd sec_color_dd
      player_names_list color_names_list sec_color_names_list now sb
    = Returned (name_dd, pri_color_dd, sec_color_dd) sb'
    /\ rfid_load_message (game_state sb') = "No data on card"%string
    /\ rfid_load_message_player (game_state sb') = Some player_num
    /\ rfid_load_message_end_time (game_state sb') = now + 2000
    /\ (forall t, t <= now + 2000 ->
          rfid_load_message (game_state (exec (expire_messages t) sb'))
          = "No data on card"%string)
    /\ (forall t, now + 2000 < t ->
          rfid_load_message (game_state (exec (expire_messages t) sb'))
          = EmptyString).
Proof.
  intros Hcard. unfold load_player_profile, bind, get. cbv beta iota.
  rewrite Hcard. unfold setg, modify, ret. cbv beta iota.
  eexists. split; [reflexivity |].
  cbn [game_state set_game_state rfid_load_message rfid_load_message_player
       rfid_load_message_end_time set_rfid_load_message
       set_rfid_load_message_end_time set_rfid_load_message_player].
  repeat split.
  - intros t Ht. rewrite expire_load_message. cbn.
    destruct (Z.ltb_spec (now + 2000) t); [lia | reflexivity].
  - intros t Ht. rewrite expire_load_message. cbn.
    destruct (Z.ltb_spec (now + 2000) t); [reflexivity | lia].
Qed.

(** C7 for card 12345 scanned by the visiting side at tick 5000 on the
    set-up screen. *)
Lemma C7_unknown_card_witness :
  exists sb',
    load_player_profile 12345 1 p1_name_dd0 (p1_pri_color_dd0 board_start)
      (sec_color_dd0 board_start) VISITOR_NAMES (color_names board_start)
      (secondary_color_names board_start) 5000 board_start
    = Returned (p1_name_dd0, p1_pri_color_dd0 board_start,
                sec_color_dd0 board_start) sb'
    /\ rfid_load_message (game_state sb') = "No data on card"%string
    /\ rfid_load_message_player (game_state sb') = Some 1
    /\ rfid_load_message_end_time (game_state sb') = 5000 + 2000
    /\ (forall t, t <= 5000 + 2000 ->
          rfid_load_message (game_state (exec (expire_messages t) sb'))
          = "No data on card"%string)
    /\ (forall t, 5000 + 2000 < t ->
          rfid_load_message (game_state (exec (expire_messages t) sb'))
          = EmptyString).
Proof.
  apply (C7_unknown_card board_start 12345 1). vm_compute. reflexivity.
Defined.





(** ** The game-active lights (C8) *)

Lemma set_pixel_run (c : RGB) (i : Z) (sb : Scoreboard) (px : NeoPixel) :
  pixels sb = Some px ->
  0 <= i < Z.of_nat (length (buf px)) ->
  set_pixel c i sb
  = Returned tt (set_pixels (Some {| brightness := brightness px;
                                     buf := <[Z.to_nat i := c]> (buf px);
                                     shows := shows px |}) sb).
Proof.
  intros Hpx Hi. unfold set_pixel, bind, get. rewrite Hpx.
  unfold assign.
  destruct (Z.leb_spec 0 i); [| lia].
  destruct (Z.ltb_spec i (Z.of_nat (length (buf px)))); [| lia].
  reflexivity.
Qed.

(** A loop of pixel writes over indices that are on the strip returns, and
    changes the buffer at those indices only. *)
Lemma paint_run (c : RGB) (idxs : list Z) :
  forall (sb : Scoreboard) (px : NeoPixel),
    pixels sb = Some px ->
    Forall (fun i => 0 <= i < Z.of_nat (length (buf px))) idxs ->
    exists l,
      for_each (set_pixel c) idxs sb
      = Returned tt (set_pixels (Some {| brightness := brightness px;
                                         buf := l; shows := shows px |}) sb)
      /\ length l = length (buf px)
      /\ forall n : nat,
           (n < length (buf px))%nat ->
           l !! n = if bool_decide (Z.of_nat n ∈ idxs) then Some c
                    else buf px !! n.
Proof.
  induction idxs as [|i rest IH]; intros sb px Hpx Hall.
  - exists (buf px). split; [| split; [reflexivity |]].
    + destruct sb, px. simpl in *. now subst.
    + intros n Hn. rewrite bool_decide_eq_false_2; [reflexivity |].
      apply not_elem_of_nil.
  - inversion Hall as [|? ? Hi Hrest]; subst.
    set (px1 := {| brightness := brightness px;
                   buf := <[Z.to_nat i := c]> (buf px); shows := shows px |}).
    destruct (IH (set_pixels (Some px1) sb) px1) as (l & E & Hlen & Hl).
    + reflexivity.
    + simpl. rewrite length_insert. exact Hrest.
    + exists l. split; [| split].
      * simpl for_each. unfold bind at 1.
        rewrite (set_pixel_run c i sb px Hpx Hi). fold px1. rewrite E.
        reflexivity.
      * rewrite Hlen. simpl. apply length_insert.
      * intros n Hn. rewrite Hl by (simpl; now rewrite length_insert).
        simpl buf.
        destruct (decide (Z.of_nat n = i)) as [<- | Hne].
        -- rewrite Nat2Z.id, list_lookup_insert_eq by exact Hn.
           rewrite (bool_decide_eq_true_2 (Z.of_nat n ∈ Z.of_nat n :: rest))
             by (apply elem_of_cons; now left).
           now destruct (bool_decide (Z.of_nat n ∈ rest)).
        -- rewrite list_lookup_insert_ne by lia.
           destruct (bool_decide (Z.of_nat n ∈ rest)) eqn:Er.
           ++ apply bool_decide_eq_true_1 in Er.
              rewrite bool_decide_eq_true_2; [reflexivity |].
              apply elem_of_cons. now right.
           ++ apply bool_decide_eq_false_1 in Er.
              rewrite bool_decide_eq_false_2; [reflexivity |].
              intros [? | ?]%elem_of_cons; [congruence | contradiction].
Qed.

Lemma paint_range (c : RGB) (a b : Z) (sb : Scoreboard) (px : NeoPixel) :
  pixels sb = Some px ->
  0 <= a -> b <= Z.of_nat (length (buf px)) ->
  exists l,
    for_each (set_pixel c) (range a b) sb
    = Returned tt (set_pixels (Some {| brightness := brightness px;
                                       buf := l; shows := shows px |}) sb)
    /\ length l = length (buf px)
    /\ (forall n : nat, a <= Z.of_nat n < b -> l !! n = Some c)
    /\ (forall n : nat, ~ a <= Z.of_nat n < b -> l !! n = buf px !! n).
Proof.
  intros Hpx Ha Hb.
  destruct (paint_run c (range a b) sb px Hpx) as (l & E & Hlen & Hl).
  { apply Forall_forall. intros i Hi. unfold range in Hi.
    apply elem_of_seqZ in Hi. lia. }
  exists l. split; [exact E |]. split; [exact Hlen |]. split.
  - intros n Hn. rewrite Hl by lia.
    rewrite bool_decide_eq_true_2; [reflexivity |].
    unfold range. apply elem_of_seqZ. lia.
  - intros n Hn. destruct (Nat.lt_ge_cases n (length (buf px))) as [Hlt | Hge].
    + rewrite Hl by exact Hlt.
      rewrite bool_decide_eq_false_2; [reflexivity |].
      unfold range. rewrite elem_of_seqZ. lia.
    + rewrite !lookup_ge_None_2 by lia. reflexivity.
Qed.

Lemma pixel_lookup (sb : Scoreboard) (px : NeoPixel) (i : Z) :
  pixels sb = Some px -> 0 <= i < Z.of_nat (length (buf px)) ->
  pixel sb i = buf px !! Z.to_nat i.
Proof.
  intros Hpx Hi. unfold pixel, index. rewrite Hpx.
  destruct (Z.leb_spec 0 i); [| lia].
  destruct (Z.ltb_spec i (Z.of_nat (length (buf px)))); [| lia].
  reflexivity.
Qed.

(** What the first run of the effect leaves on the strip. *)
Lemma game_active_effect_run (sb : Scoreboard) (px : NeoPixel) :
  pixels sb = Some px ->
  length (buf px) = Z.to_nat TOTAL_LED_COUNT ->
  game_lights_set (game_state sb) = false ->
  exists l,
    game_active_effect sb
    = Returned tt
        (set_game_state (set_game_lights_set true (game_state sb))
           (set_pixels (Some {| brightness := brightness px; buf := l;
                                shows := S (shows px) |}) sb))
    /\ length l = Z.to_nat TOTAL_LED_COUNT
    /\ (forall n : nat, 0 <= Z.of_nat n < BASE_COUNT -> l !! n = Some (5, 5, 5))
    /\ (forall n : nat, OVERHEAD_START_INDEX <= Z.of_nat n < TOTAL_LED_COUNT ->
                        l !! n = Some (191, 191, 191)).
Proof.
  intros Hpx Hlen Hflag.
  assert (Htot : Z.of_nat (length (buf px)) = 329) by (rewrite Hlen; reflexivity).
  destruct (paint_range (5, 5, 5) 0 BASE_COUNT sb px Hpx)
    as (l1 & E1 & Hlen1 & Hin1 & Hout1);
    [lia | unfold BASE_COUNT; lia |].
  set (sb1 := set_pixels (Some {| brightness := brightness px; buf := l1;
                                  shows := shows px |}) sb) in *.
  destruct (paint_range (0, 0, 0) BASE_COUNT OVERHEAD_START_INDEX sb1
              {| brightness := brightness px; buf := l1; shows := shows px |}
              eq_refl)
    as (l2 & E2 & Hlen2 & Hin2 & Hout2);
    [unfold BASE_COUNT; lia
    | cbn [buf]; rewrite Hlen1; unfold OVERHEAD_START_INDEX, BASE_COUNT,
        UNUSED_COUNT; lia |].
  cbn [brightness buf shows] in *.
  set (sb2 := set_pixels (Some {| brightness := brightness px; buf := l2;
                                  shows := shows px |}) sb1) in *.
  destruct (paint_range (191, 191, 191) OVERHEAD_START_INDEX TOTAL_LED_COUNT
              sb2
              {| brightness := brightness px; buf := l2; shows := shows px |}
              eq_refl)
    as (l3 & E3 & Hlen3 & Hin3 & Hout3);
    [unfold OVERHEAD_START_INDEX, BASE_COUNT, UNUSED_COUNT; lia
    | cbn [buf]; rewrite Hlen2, Hlen1;
      unfold TOTAL_LED_COUNT, OVERHEAD_COUNT, BASE_COUNT, UNUSED_COUNT; lia |].
  cbn [brightness buf shows] in *.
  exists l3. split; [| split; [| split]].
  - unfold game_active_effect. unfold bind at 1, get. cbv beta iota.
    rewrite Hpx, Hflag. cbn [present negb orb].
    unfold bind at 1. rewrite E1. fold sb1.
    unfold bind at 1. rewrite E2. fold sb2.
    unfold bind at 1. rewrite E3.
    reflexivity.
  - rewrite Hlen3, Hlen2, Hlen1. exact Hlen.
  - intros n Hn.
    rewrite Hout3
      by (unfold OVERHEAD_START_INDEX, BASE_COUNT, UNUSED_COUNT in *; lia).
    rewrite Hout2
      by (unfold OVERHEAD_START_INDEX, BASE_COUNT, UNUSED_COUNT in *; lia).
    now apply Hin1.
  - intros n Hn. now apply Hin3.
Qed.

Lemma game_active_effect_guard (sb : Scoreboard) :
  game_lights_set (game_state sb) = true ->
  game_active_effect sb = Returned tt sb.
Proof.
  intros Hflag. unfold game_active_effect, bind, get. cbv beta iota.
  rewrite Hflag, orb_true_r. reflexivity.
Qed.

Lemma update_leds_guard (r1 r2 : M Scoreboard unit) (sb : Scoreboard) :
  game_lights_set (game_state sb) = true ->
  goal_animation_active (game_state sb) = false ->
  game_over (game_state sb) = false ->
  game_active (game_state sb) || overtime_active (game_state sb) = true ->
  update_leds r1 r2 sb = Returned tt sb.
Proof.
  intros Hflag Hanim Hover Hplay.
  unfold update_leds, bind, getg, gets. cbv beta iota.
  rewrite Hanim, Hover, Hplay. now apply game_active_effect_guard.
Qed.

Lemma intermission_end_clears_flag (sb : Scoreboard) :
  intermission_active (game_state sb) = true ->
  intermission_timer (game_state sb) <= 1 ->
  let g' := game_state (exec update_intermission sb) in
  intermission_active g' = false /\ game_lights_set g' = false.
Proof.
  intros Hin Htimer. cbv zeta.
  destruct sb as [g cc pl px mo vi vd s1 s2 s3 s4 s5 pd].
  cbn [game_state] in Hin, Htimer.
  run_board. cbn [game_state pixels set_game_state set_pixels].
  rewrite Hin. cbn [negb].
  destruct (Z.leb_spec (intermission_timer g - 1) 0); [| lia].
  destruct px as [px |], (overtime_active g); cbn; auto.
Qed.

Lemma lit_strip (sb : Scoreboard) :
  strip_length sb = Some (Z.to_nat TOTAL_LED_COUNT) ->
  game_lights_set (game_state sb) = false ->
  exists sb',
    game_active_effect sb = Returned tt sb'
    /\ (forall i : Z, 0 <= i < BASE_COUNT -> pixel sb' i = Some (5, 5, 5))
    /\ (forall i : Z, OVERHEAD_START_INDEX <= i < TOTAL_LED_COUNT ->
                      pixel sb' i = Some (191, 191, 191))
    /\ option_map shows (pixels sb') = option_map (fun px => S (shows px)) (pixels sb)
    /\ option_map brightness (pixels sb') = option_map brightness (pixels sb)
    /\ game_lights_set (game_state sb') = true
    /\ game_active_effect sb' = Returned tt sb'.
Proof.
  intros Hlen Hflag. unfold strip_length in Hlen.
  destruct (pixels sb) as [px |] eqn:Hpx; [| discriminate].
  cbn [option_map] in Hlen. injection Hlen as Hlen.
  destruct (game_active_effect_run sb px Hpx Hlen Hflag)
    as (l & E & Hl & Hbase & Hoverhead).
  eexists. split; [exact E |].
  assert (Htot : Z.of_nat (length l) = TOTAL_LED_COUNT)
    by (rewrite Hl; reflexivity).
  split; [| split; [| split; [| split; [| split]]]].
  - intros i Hi.
    rewrite (pixel_lookup _ {| brightness := brightness px; buf := l;
                               shows := S (shows px) |})
      by (try reflexivity; cbn [buf]; rewrite Htot;
          unfold TOTAL_LED_COUNT, OVERHEAD_COUNT, BASE_COUNT, UNUSED_COUNT in *;
          lia).
    cbn [buf]. apply Hbase. lia.
  - intros i Hi.
    rewrite (pixel_lookup _ {| brightness := brightness px; buf := l;
                               shows := S (shows px) |})
      by (try reflexivity; cbn [buf]; rewrite Htot;
          unfold OVERHEAD_START_INDEX, BASE_COUNT, UNUSED_COUNT in *; lia).
    cbn [buf]. apply Hoverhead.
    unfold OVERHEAD_START_INDEX, BASE_COUNT, UNUSED_COUNT in *. lia.
  - reflexivity.
  - reflexivity.
  - reflexivity.
  - now apply game_active_effect_guard.
Qed.

(** C8 as worded fails on [board_play]: the first overhead LED is left at
    (191, 191, 191), not off. *)
Lemma C8_lights_counterexample :
  pixel (exec game_active_effect board_play) OVERHEAD_START_INDEX
  = Some (191, 191, 191)
  /\ ~ off_outside_base board_play.
Proof.
  split; [vm_compute; reflexivity |].
  intros H.
  specialize (H OVERHEAD_START_INDEX).
  assert (Hi : BASE_COUNT <= OVERHEAD_START_INDEX < TOTAL_LED_COUNT)
    by (vm_compute; split; [discriminate | reflexivity]).
  specialize (H Hi). vm_compute in H. discriminate H.
Qed.

(** C8, amended.  With the whole strip present and the lights flag clear,
    [game_active_effect] returns, leaving (5, 5, 5) on every LED of the base
    segment and (191, 191, 191) on every LED of the overhead segment (the
    two segments are the whole strip), having shown the strip once, kept its
    brightness and set the flag; running it again changes nothing.  With the
    flag set the effect returns the board unchanged, and so does the LED
    part of a frame of play without a goal animation.  The flag is cleared
    by the face-off sequence (game not over, motor idle) and when the
    intermission runs out. *)
Theorem C8_game_active_lights (sb : Scoreboard) (now : Z)
    (update_goal_animation idle_effect : M Scoreboard unit) :
  (strip_length sb = Some (Z.to_nat TOTAL_LED_COUNT) ->
   game_lights_set (game_state sb) = false ->
   exists sb',
     game_active_effect sb = Returned tt sb'
     /\ (forall i : Z, 0 <= i < BASE_COUNT -> pixel sb' i = Some (5, 5, 5))
     /\ (forall i : Z, OVERHEAD_START_INDEX <= i < TOTAL_LED_COUNT ->
                       pixel sb' i = Some (191, 191, 191))
     /\ option_map shows (pixels sb')
        = option_map (fun px => S (shows px)) (pixels sb)
     /\ option_map brightness (pixels sb') = option_map brightness (pixels sb)
     /\ game_lights_set (game_state sb') = true
     /\ game_active_effect sb' = Returned tt sb')
  /\ (game_lights_set (game_state sb) = true ->
      game_active_effect sb = Returned tt sb)
  /\ (game_lights_set (game_state sb) = true ->
      goal_animation_active (game_state sb) = false ->
      game_over (game_state sb) = false ->
      game_active (game_state sb) || overtime_active (game_state sb) = true ->
      update_leds update_goal_animation idle_effect sb = Returned tt sb)
  /\ (game_over (game_state sb) = false ->
      motor_active (game_state sb) = false ->
      game_lights_set (game_state (exec (_start_faceoff_sequence now) sb))
      = false)
  /\ (intermission_active (game_state sb) = true ->
      intermission_timer (game_state sb) <= 1 ->
      game_lights_set (game_state (exec update_intermission sb)) = false).
Proof.
  split; [| split; [| split; [| split]]].
  - apply lit_strip.
  - apply game_active_effect_guard.
  - apply update_leds_guard.
  - intros Hover Hmotor. now apply (faceoff_resumes now sb Hover Hmotor).
  - intros Hin Htimer. now apply (intermission_end_clears_flag sb Hin Htimer).
Qed.

(** C8 on [board_play] (first frame of play), on [board_lit] (the frames
    after it, and the next face-off) and on [board_break] (the end of the
    intermission). *)
Lemma C8_game_active_lights_witness :
  (exists sb',
     game_active_effect board_play = Returned tt sb'
     /\ (forall i : Z, 0 <= i < BASE_COUNT -> pixel sb' i = Some (5, 5, 5))
     /\ (forall i : Z, OVERHEAD_START_INDEX <= i < TOTAL_LED_COUNT ->
                       pixel sb' i = Some (191, 191, 191))
     /\ option_map shows (pixels sb')
        = option_map (fun px => S (shows px)) (pixels board_play)
     /\ option_map brightness (pixels sb')
        = option_map brightness (pixels board_play)
     /\ game_lights_set (game_state sb') = true
     /\ game_active_effect sb' = Returned tt sb')
  /\ game_active_effect board_lit = Returned tt board_lit
  /\ update_leds (ret tt) (ret tt) board_lit = Returned tt board_lit
  /\ game_lights_set (game_state (exec (_start_faceoff_sequence 9000) board_lit))
     = false
  /\ game_lights_set (game_state (exec update_intermission board_break))
     = false.
Proof.
  split; [| split; [| split; [| split]]].
  - apply (proj1 (C8_game_active_lights board_play 0 (ret tt) (ret tt)));
      vm_compute; reflexivity.
  - apply (proj1 (proj2 (C8_game_active_lights board_lit 0 (ret tt) (ret tt)))).
    vm_compute; reflexivity.
  - apply (proj1 (proj2 (proj2
             (C8_game_active_lights board_lit 0 (ret tt) (ret tt)))));
      vm_compute; reflexivity.
  - apply (proj1 (proj2 (proj2 (proj2
             (C8_game_active_lights board_lit 9000 (ret tt) (ret tt))))));
      vm_compute; reflexivity.
  - apply (proj2 (proj2 (proj2 (proj2
             (C8_game_active_lights board_break 0 (ret tt) (ret tt))))));
      vm_compute; [reflexivity | discriminate].
Defined.

(** ** The strip brightness (C9) *)

(** C9: the strip brightness stays at its maximum after an animation is
    ended by [reset].  On [board_play] the brightness is the default; the
    goal of [board_goal] raises it to the maximum and starts the goal
    animation; key R then returns to the set-up screen through [reset],
    which ends the animation and every celebration and leaves the
    brightness at the maximum, where [clear_leds] on the same board restores
    the default.  The same happens after a sudden-death goal on
    [board_overtime] when the volume button restarts the finished game. *)
Theorem C9_brightness_left_at_maximum :
  let sb := exec (keydown_game K_r) board_goal in
  let won := exec handle_usa_goal board_overtime in
  let sb2 := exec handle_volume_button_press won in
  option_map brightness (pixels board_play) = Some LED_BRIGHTNESS
  /\ (option_map brightness (pixels board_goal) = Some FULL_BRIGHTNESS
      /\ goal_animation_active (game_state board_goal) = true)
  /\ (keydown_game K_r board_goal = Returned tt sb
      /\ option_map brightness (pixels sb) = Some FULL_BRIGHTNESS
      /\ goal_animation_active (game_state sb) = false
      /\ game_end_celebration_active (game_state sb) = false
      /\ goal_celebration_team (game_state sb) = None
      /\ game_mode (game_state sb) = SETUP)
  /\ (option_map brightness (pixels (exec clear_leds board_goal))
      = Some LED_BRIGHTNESS
      /\ goal_animation_active (game_state (exec clear_leds board_goal))
         = false)
  /\ (game_over (game_state won) = true
      /\ option_map brightness (pixels won) = Some FULL_BRIGHTNESS
      /\ goal_animation_active (game_state won) = true)
  /\ (handle_volume_button_press won = Returned tt sb2
      /\ option_map brightness (pixels sb2) = Some FULL_BRIGHTNESS
      /\ goal_animation_active (game_state sb2) = false
      /\ game_end_celebration_active (game_state sb2) = false
      /\ game_mode (game_state sb2) = SETUP).
Proof.
  cbv zeta. repeat apply conj; vm_compute; reflexivity.
Qed.

End GameRules.
(* ===================================================================== *)
(** * Facts about the run-time conventions *)
(* ===================================================================== *)

Module PyFacts.

Import Py Runs.

(** ** Indexing inside the list *)

Lemma index_on_list {A} (l : list A) (i : Z) :
  0 <= i < Z.of_nat (length l) -> index l i = l !! Z.to_nat i.
Proof.
  intros Hi. unfold index.
  destruct (Z.leb_spec 0 i); [| lia].
  destruct (Z.ltb_spec i (Z.of_nat (length l))); [| lia]. reflexivity.
Qed.

Lemma index_is_some {A} (l : list A) (i : Z) :
  0 <= i < Z.of_nat (length l) -> exists x, index l i = Some x.
Proof.
  intros Hi. rewrite index_on_list by exact Hi.
  apply lookup_lt_is_Some. lia.
Qed.

Lemma assign_on_list {A} (l : list A) (i : Z) (x : A) :
  0 <= i < Z.of_nat (length l) -> assign l i x = Some (<[Z.to_nat i := x]> l).
Proof.
  intros Hi. unfold assign.
  destruct (Z.leb_spec 0 i); [| lia].
  destruct (Z.ltb_spec i (Z.of_nat (length l))); [| lia]. reflexivity.
Qed.

Lemma pop_on_list {A} (l : list A) (i : Z) :
  0 <= i < Z.of_nat (length l) -> pop l i = Some (delete (Z.to_nat i) l).
Proof.
  intros Hi. unfold pop.
  destruct (Z.leb_spec 0 i); [| lia].
  destruct (Z.ltb_spec i (Z.of_nat (length l))); [| lia]. reflexivity.
Qed.

Lemma Forall_index {A} (P : A -> Prop) (l : list A) (i : Z) (x : A) :
  Forall P l -> index l i = Some x -> P x.
Proof.
  intros Hl. unfold index.
  destruct (_ && _); [intros H; exact (Forall_lookup_1 _ _ _ _ Hl H) |].
  destruct (_ && _); [intros H; exact (Forall_lookup_1 _ _ _ _ Hl H) |].
  discriminate.
Qed.

Lemma lookup_map {A B} (f : A -> B) (l : list A) (n : nat) :
  map f l !! n = option_map f (l !! n).
Proof.
  revert n. induction l as [| a l IH]; intros [| n]; cbn; auto.
Qed.

(** ** Sequences that return *)

(** A statement that returns a value with property [P] lets the rest of
    the sequence rely on [P]. *)
Lemma returning_with {S A B} (I : S -> Prop) (P : A -> Prop)
    (m : M S A) (k : A -> M S B) :
  (forall s, I s -> exists a s', m s = Returned a s' /\ I s' /\ P a) ->
  (forall a, P a -> returning I (k a)) ->
  returning I (bind m k).
Proof.
  intros Hm Hk s Hs. destruct (Hm s Hs) as (a & s' & E & Hs' & Ha).
  destruct (Hk a Ha s' Hs') as (b & s'' & E' & Hs'').
  exists b, s''. unfold bind. rewrite E. now split.
Qed.

Lemma returning_for_each {S A} (I : S -> Prop) (body : A -> M S unit)
    (l : list A) :
  Forall (fun a => returning I (body a)) l -> returning I (for_each body l).
Proof.
  induction 1 as [| a l Ha Hl IH]; cbn [for_each]; [apply returning_ret |].
  apply returning_bind; [exact Ha | intros _; exact IH].
Qed.

End PyFacts.

(* ===================================================================== *)
(** * The course of a game: clock, shots, periods, keys and cards *)
(* ===================================================================== *)

Module GameFlow.
Import Py scoreboard Runs GameRules PyFacts.

(** ** The clock *)

Lemma update_clock_eq (dt : Z) (g : GameState) :
  update_clock dt g
  = if game_active g && (0 <? game_clock g)
    then set_game_clock (Z.max 0 (game_clock g - dt * time_multiplier g)) g
    else g.
Proof.
  unfold update_clock. destruct (game_active g && (0 <? game_clock g)); [| easy].
  cbv zeta. cbn [game_clock set_game_clock].
  destruct (Z.ltb_spec (game_clock g - dt * time_multiplier g) 0).
  - rewrite Z.max_l by lia. reflexivity.
  - rewrite Z.max_r by lia. reflexivity.
Qed.

(** X1: two frames in a row move the clock as one frame of their joint
    length does: with frame times and a clock speed that are not negative,
    [update_clock dt2] after [update_clock dt1] is [update_clock (dt1 + dt2)],
    the stop at zero included. *)
Theorem update_clock_split (dt1 dt2 : Z) (g : GameState) :
  0 <= dt1 -> 0 <= dt2 -> 0 <= time_multiplier g ->
  update_clock dt2 (update_clock dt1 g) = update_clock (dt1 + dt2) g.
Proof.
  intros H1 H2 Hm. rewrite (update_clock_eq dt1 g), (update_clock_eq (dt1 + dt2) g).
  destruct (game_active g) eqn:Ha; cbn [andb].
  2:{ rewrite update_clock_eq, Ha. reflexivity. }
  destruct (Z.ltb_spec 0 (game_clock g)) as [Hc | Hc].
  2:{ rewrite update_clock_eq, Ha.
      destruct (Z.ltb_spec 0 (game_clock g)); [lia | reflexivity]. }
  rewrite update_clock_eq. cbn [game_active game_clock time_multiplier set_game_clock].
  rewrite Ha. cbn [andb].
  destruct (Z.ltb_spec 0 (Z.max 0 (game_clock g - dt1 * time_multiplier g))).
  - unfold set_game_clock; cbn. f_equal. nia.
  - unfold set_game_clock; cbn. f_equal. nia.
Qed.

Lemma update_clock_split_witness :
  update_clock 17 (update_clock 16 (game_state board_play))
  = update_clock (16 + 17) (game_state board_play).
Proof.
  apply (update_clock_split 16 17 (game_state board_play));
    vm_compute; discriminate.
Defined.


(** ** Shots on goal *)

Lemma sog_ignored (side : Side) (sb : Scoreboard) :
  negb (game_over (game_state sb)) && negb (celebrating sb) = false ->
  handle_sog side sb = Returned tt sb.
Proof.
  intros H. destruct side; unfold handle_sog, handle_usa_sog,
    handle_ussr_sog, bind, getg, gets; unfold celebrating in H;
    rewrite H; reflexivity.
Qed.

Lemma sog_counted (side : Side) (sb : Scoreboard) :
  game_over (game_state sb) = false -> celebrating sb = false ->
  exists sb',
    handle_sog side sb = Returned tt sb'
    /\ shots side sb' = shots side sb + 1
    /\ shots (other side) sb' = shots (other side) sb
    /\ score USA sb' = score USA sb /\ score USSR sb' = score USSR sb
    /\ recent_sog_timer (game_state sb') = 60
    /\ game_over (game_state sb') = false /\ celebrating sb' = false.
Proof.
  intros Hover Hcel. unfold celebrating in *.
  destruct side; eexists;
    (split;
     [unfold handle_sog, handle_usa_sog, handle_ussr_sog, bind, getg, gets,
        when, play, setg, modify; rewrite Hover, Hcel; cbn [negb andb];
      reflexivity |]);
    destruct (shot_sound sb); cbn; repeat split; auto.
Qed.

Lemma sog_timer_tick (sb : Scoreboard) :
  0 <= recent_sog_timer (game_state sb) ->
  exec update_sog_timer sb
  = set_game_state
      (set_recent_sog_timer (Z.max 0 (recent_sog_timer (game_state sb) - 1))
                            (game_state sb)) sb.
Proof.
  intros H. unfold exec, update_sog_timer, bind, getg, gets, when, setg, modify, ret.
  destruct (Z.ltb_spec 0 (recent_sog_timer (game_state sb))); cbn [final].
  - rewrite Z.max_r by lia. reflexivity.
  - rewrite Z.max_l by lia. destruct sb as [g]. destruct g. cbn in *.
    replace recent_sog_timer0 with 0 by lia. reflexivity.
Qed.

Lemma sog_frames_run (n : nat) (sb : Scoreboard) :
  0 <= recent_sog_timer (game_state sb) ->
  sog_frames n sb
  = set_game_state
      (set_recent_sog_timer
         (Z.max 0 (recent_sog_timer (game_state sb) - Z.of_nat n))
         (game_state sb)) sb.
Proof.
  intros H. induction n as [| n IH].
  - cbn [sog_frames Nat.iter]. change (Z.of_nat 0) with 0.
    rewrite Z.sub_0_r, Z.max_r by lia.
    destruct sb as [g]. destruct g. reflexivity.
  - unfold sog_frames in *. rewrite Nat.iter_succ, IH.
    rewrite sog_timer_tick by (cbn; lia). cbn. unfold set_game_state. cbn.
    f_equal. unfold set_recent_sog_timer. cbn. f_equal. lia.
Qed.

Lemma goal_shots (side : Side) (sb : Scoreboard) :
  game_over (game_state sb) = false -> celebrating sb = false ->
  shots side (exec (handle_goal side) sb)
  = shots side sb + (if recent_sog_timer (game_state sb) <=? 0 then 1 else 0)
  /\ shots (other side) (exec (handle_goal side) sb) = shots (other side) sb.
Proof.
  intros Hover Hcel. unfold celebrating in Hcel.
  destruct side; unfold handle_goal, shots, other.
  - enough (same_shots
              (usa_sog (game_state sb)
               + (if recent_sog_timer (game_state sb) <=? 0 then 1 else 0))
              (ussr_sog (game_state sb)) (exec handle_usa_goal sb))
      as [H1 H2] by now split.
    unfold exec, handle_usa_goal. rewrite final_bind. unfold getg, gets.
    cbv beta iota. rewrite Hover, Hcel. unfold when at 1. cbn [negb andb].
    rewrite final_bind. cbn [setg modify]. cbv beta iota.
    rewrite final_bind.
    destruct (recent_sog_timer (game_state sb) <=? 0);
      cbn [when setg modify ret]; cbv beta iota;
      keeps; split; cbn; lia.
  - enough (same_shots (usa_sog (game_state sb))
              (ussr_sog (game_state sb)
               + (if recent_sog_timer (game_state sb) <=? 0 then 1 else 0))
              (exec handle_ussr_goal sb))
      as [H1 H2] by now split.
    unfold exec, handle_ussr_goal. rewrite final_bind. unfold getg, gets.
    cbv beta iota. rewrite Hover, Hcel. unfold when at 1. cbn [negb andb].
    rewrite final_bind. cbn [setg modify]. cbv beta iota.
    rewrite final_bind.
    destruct (recent_sog_timer (game_state sb) <=? 0);
      cbn [when setg modify ret]; cbv beta iota;
      keeps; split; cbn; lia.
Qed.

(** X2: a goal counts as a shot on goal of its side unless a shot of either
    side was registered less than 60 frames of the shot timer before it:
    after a counted shot of [shooter], [n] frames and a goal of [scorer],
    the scorer's shots have gone up by the goal only when [60 <= n]. *)
Theorem shot_window (shooter scorer : Side) (n : nat) (sb : Scoreboard) :
  game_over (game_state sb) = false -> celebrating sb = false ->
  let sb1 := exec (handle_sog shooter) sb in
  let sb2 := sog_frames n sb1 in
  let sb3 := exec (handle_goal scorer) sb2 in
  shots scorer sb3 = shots scorer sb1 + (if (n <? 60)%nat then 0 else 1)
  /\ shots (other scorer) sb3 = shots (other scorer) sb1
  /\ score scorer sb3 = score scorer sb + 1
  /\ score (other scorer) sb3 = score (other scorer) sb.
Proof.
  intros Hover Hcel. cbv zeta.
  destruct (sog_counted shooter sb Hover Hcel)
    as (sb1 & E & Hs & Ho & Hu & Hr & Ht & Hover1 & Hcel1).
  assert (E1 : exec (handle_sog shooter) sb = sb1)
    by (unfold exec; rewrite E; reflexivity).
  rewrite E1. clear E1 E.
  assert (Hrun := sog_frames_run n sb1 ltac:(lia)).
  set (sb2 := sog_frames n sb1) in *.
  assert (Hover2 : game_over (game_state sb2) = false)
    by (rewrite Hrun; exact Hover1).
  assert (Hcel2 : celebrating sb2 = false)
    by (rewrite Hrun; exact Hcel1).
  destruct (goal_shots scorer sb2 Hover2 Hcel2) as [G1 G2].
  destruct (goal_scored scorer sb2 Hover2 Hcel2) as [G3 G4].
  rewrite G1, G2, G3, G4.
  assert (Ht2 : recent_sog_timer (game_state sb2) = Z.max 0 (60 - Z.of_nat n))
    by (rewrite Hrun, Ht; reflexivity).
  assert (Hsh : forall s, shots s sb2 = shots s sb1)
    by (intros []; rewrite Hrun; reflexivity).
  assert (Hsc : forall s, score s sb2 = score s sb1)
    by (intros []; rewrite Hrun; reflexivity).
  rewrite Ht2, !Hsh, !Hsc.
  repeat split.
  - destruct (Nat.ltb_spec n 60), (Z.leb_spec (Z.max 0 (60 - Z.of_nat n)) 0);
      lia.
  - destruct scorer; cbn [score] in *; lia.
  - destruct scorer; cbn [score other] in *; lia.
Qed.

Lemma shot_window_witness :
  let sb1 := exec (handle_sog USSR) board_play in
  let sb2 := sog_frames 59 sb1 in
  let sb3 := exec (handle_goal USA) sb2 in
  shots USA sb3 = shots USA sb1 + (if (59 <? 60)%nat then 0 else 1)
  /\ shots (other USA) sb3 = shots (other USA) sb1
  /\ score USA sb3 = score USA board_play + 1
  /\ score (other USA) sb3 = score (other USA) board_play.
Proof.
  apply (shot_window USSR USA 59 board_play); vm_compute; reflexivity.
Defined.


(** ** The end of regulation time *)

Lemma trigger_game_end_winner (winner_id : Winner) (sb : Scoreboard) :
  won_by (match winner_id with
          | player1 => player1_name (game_state sb)
          | player2 => player2_name (game_state sb)
          end)
         (final (trigger_game_end winner_id sb)).
Proof.
  unfold trigger_game_end.
  rewrite final_bind. cbn [setg modify]. cbv beta iota.
  rewrite final_bind. cbn [setg modify]. cbv beta iota.
  rewrite final_bind. cbn [setg modify]. cbv beta iota.
  rewrite final_bind. unfold getg, gets. cbv beta iota zeta.
  rewrite final_bind. cbn [setg modify]. cbv beta iota.
  cbn [game_state set_game_state player1_name player2_name
       set_game_over set_game_end_celebration_active
       set_goal_celebration_timer ].
  keeps. unfold won_by. cbn. destruct winner_id; auto.
Qed.

(** X3: when the clock of the third period has run out: a tie starts sudden
    death behind a three-second intermission and the game is not over;
    otherwise the game ends and the winner is the name of the player with
    more goals (player 1 holds [ussr_score], player 2 [usa_score]).  Both
    scores are as they were. *)
Theorem regulation_end (sb : Scoreboard) :
  let g := game_state sb in
  game_clock g <= 0 -> period g = 3 -> game_over g = false ->
  intermission_active g = false -> overtime_active g = false ->
  let g' := game_state (exec check_period_end sb) in
  (ussr_score g = usa_score g ->
   overtime_active g' = true /\ intermission_active g' = true
   /\ intermission_timer g' = 3 * FPS /\ game_over g' = false
   /\ game_active g' = false)
  /\ (usa_score g < ussr_score g ->
      won_by (player1_name g) (exec check_period_end sb))
  /\ (ussr_score g < usa_score g ->
      won_by (player2_name g) (exec check_period_end sb))
  /\ usa_score g' = usa_score g /\ ussr_score g' = ussr_score g.
Proof.
  cbv zeta. intros Hclock Hperiod Hover Hint Hot.
  assert (Hrun : exec check_period_end sb
    = final ((if ussr_score (game_state sb) =? usa_score (game_state sb)
       then bind (setg set_overtime_active true) (fun _ =>
            bind (setg set_intermission_active true) (fun _ =>
                  setg set_intermission_timer (3 * FPS)))
       else trigger_game_end
              (if usa_score (game_state sb) <? ussr_score (game_state sb)
               then player1 else player2))
      (set_game_state (set_game_active false
         (game_state (if buzzer_sound sb
                      then set_played (Buzzer :: played sb) sb else sb)))
         (if buzzer_sound sb
          then set_played (Buzzer :: played sb) sb else sb)))).
  { unfold exec, check_period_end. rewrite final_bind.
    unfold getg, gets. cbv beta iota.
    destruct (Z.ltb_spec 0 (game_clock (game_state sb))); [lia |].
    rewrite Hover, Hint, Hot, Hperiod. cbn [orb].
    rewrite final_bind. unfold play at 1. cbn [modify]. cbv beta iota.
    rewrite final_bind. cbn [setg modify]. cbv beta iota.
    reflexivity. }
  rewrite Hrun. clear Hrun.
  set (sb1 := set_game_state _ _).
  assert (H1 : same_scores (usa_score (game_state sb))
                           (ussr_score (game_state sb)) sb1)
    by (subst sb1; destruct (buzzer_sound sb); split; reflexivity).
  assert (Hn1 : player1_name (game_state sb1) = player1_name (game_state sb))
    by (subst sb1; destruct (buzzer_sound sb); reflexivity).
  assert (Hn2 : player2_name (game_state sb1) = player2_name (game_state sb))
    by (subst sb1; destruct (buzzer_sound sb); reflexivity).
  assert (Hov1 : game_over (game_state sb1) = false)
    by (subst sb1; destruct (buzzer_sound sb); exact Hover).
  split; [| split; [| split]].
  - intros Htie. rewrite (proj2 (Z.eqb_eq _ _) Htie).
    subst sb1. destruct (buzzer_sound sb); cbn; rewrite Hover; auto.
  - intros Hlt.
    destruct (Z.eqb_spec (ussr_score (game_state sb))
                         (usa_score (game_state sb))); [lia |].
    destruct (Z.ltb_spec (usa_score (game_state sb))
                         (ussr_score (game_state sb))); [| lia].
    rewrite <- Hn1. apply trigger_game_end_winner.
  - intros Hlt.
    destruct (Z.eqb_spec (ussr_score (game_state sb))
                         (usa_score (game_state sb))); [lia |].
    destruct (Z.ltb_spec (usa_score (game_state sb))
                         (ussr_score (game_state sb))); [lia |].
    rewrite <- Hn2. apply trigger_game_end_winner.
  - enough (same_scores (usa_score (game_state sb))
                        (ussr_score (game_state sb))
              (final ((if ussr_score (game_state sb) =? usa_score (game_state sb)
       then bind (setg set_overtime_active true) (fun _ =>
            bind (setg set_intermission_active true) (fun _ =>
                  setg set_intermission_timer (3 * FPS)))
       else trigger_game_end
              (if usa_score (game_state sb) <? ussr_score (game_state sb)
               then player1 else player2)) sb1))) as [? ?] by now split.
    revert H1. generalize sb1. intros s Hs. keeps.
Qed.

Lemma regulation_end_witness :
  let g := game_state board_whistle in
  let g' := game_state (exec check_period_end board_whistle) in
  (ussr_score g = usa_score g ->
   overtime_active g' = true /\ intermission_active g' = true
   /\ intermission_timer g' = 3 * FPS /\ game_over g' = false
   /\ game_active g' = false)
  /\ (usa_score g < ussr_score g ->
      won_by (player1_name g) (exec check_period_end board_whistle))
  /\ (ussr_score g < usa_score g ->
      won_by (player2_name g) (exec check_period_end board_whistle))
  /\ usa_score g' = usa_score g /\ ussr_score g' = ussr_score g.
Proof.
  apply (regulation_end board_whistle);
    [vm_compute; discriminate | reflexivity | reflexivity | reflexivity
    | reflexivity].
Defined.


(** ** The intermission *)

Lemma intermission_tick (sb : Scoreboard) :
  intermission_active (game_state sb) = true ->
  1 < intermission_timer (game_state sb) ->
  exec update_intermission sb
  = set_game_state
      (set_intermission_timer (intermission_timer (game_state sb) - 1)
                              (game_state sb)) sb.
Proof.
  intros Hin Ht. unfold exec, update_intermission, bind, getg, gets.
  rewrite Hin. cbn [negb setg modify].
  destruct (Z.leb_spec (intermission_timer (game_state sb) - 1) 0); [lia |].
  reflexivity.
Qed.

Lemma intermission_running (n k : nat) (sb : Scoreboard) :
  intermission_active (game_state sb) = true ->
  intermission_timer (game_state sb) = Z.of_nat (S n) ->
  (k <= n)%nat ->
  intermission_frames k sb
  = set_game_state
      (set_intermission_timer (Z.of_nat (S n) - Z.of_nat k) (game_state sb)) sb.
Proof.
  intros Hin Ht. induction k as [| k IH]; intros Hk.
  - cbn [intermission_frames Nat.iter]. change (Z.of_nat 0) with 0.
    rewrite Z.sub_0_r, <- Ht. destruct sb as [g]. destruct g. reflexivity.
  - unfold intermission_frames in *. rewrite Nat.iter_succ, IH by lia.
    rewrite intermission_tick by (cbn; first [exact Hin | lia]).
    cbn. unfold set_game_state. cbn. f_equal.
    unfold set_intermission_timer. cbn. f_equal. lia.
Qed.

Lemma intermission_last_tick (sb : Scoreboard) :
  let g := game_state sb in
  intermission_active g = true -> intermission_timer g <= 1 ->
  let g' := game_state (exec update_intermission sb) in
  intermission_active g' = false /\ game_lights_set g' = false
  /\ overtime_active g' = overtime_active g
  /\ (overtime_active g = false ->
      period g' = period g + 1 /\ game_clock g' = 20 * 60 * 1000
      /\ game_active g' = true)
  /\ (overtime_active g = true ->
      period g' = period g /\ game_clock g' = game_clock g
      /\ game_active g' = game_active g).
Proof.
  cbv zeta. intros Hin Htimer.
  destruct sb as [g cc pl px mo vi vd s1 s2 s3 s4 s5 pd].
  cbn [game_state] in Hin, Htimer |- *.
  run_board. cbn [game_state pixels set_game_state set_pixels].
  rewrite Hin. cbn [negb].
  destruct (Z.leb_spec (intermission_timer g - 1) 0); [| lia].
  destruct px as [px |], (overtime_active g) eqn:E; cbn;
    repeat split; auto; discriminate.
Qed.

(** X4: an intermission whose timer stands at [n + 1] lasts exactly [n + 1]
    frames.  During the first [n] the period, the clock and [game_active]
    stay as they are.  The last frame ends the intermission and clears the
    lights flag; outside sudden death it starts the next period with a full
    clock and play running, in sudden death it leaves period, clock and
    [game_active] alone (the clock stays stopped until the face-off). *)
Theorem intermission_countdown (n : nat) (sb : Scoreboard) :
  let g := game_state sb in
  intermission_active g = true -> intermission_timer g = Z.of_nat (S n) ->
  (forall k : nat, (k <= n)%nat ->
     let gk := game_state (intermission_frames k sb) in
     intermission_active gk = true /\ period gk = period g
     /\ game_clock gk = game_clock g /\ game_active gk = game_active g)
  /\ (let g' := game_state (intermission_frames (S n) sb) in
      intermission_active g' = false /\ game_lights_set g' = false
      /\ (overtime_active g = false ->
          period g' = period g + 1 /\ game_clock g' = 20 * 60 * 1000
          /\ game_active g' = true)
      /\ (overtime_active g = true ->
          period g' = period g /\ game_clock g' = game_clock g
          /\ game_active g' = game_active g /\ overtime_active g' = true)).
Proof.
  cbv zeta. intros Hin Ht. split.
  - intros k Hk. rewrite (intermission_running n k sb Hin Ht Hk). cbn. auto.
  - unfold intermission_frames. rewrite Nat.iter_succ.
    fold (intermission_frames n sb).
    rewrite (intermission_running n n sb Hin Ht (le_n n)).
    set (sbn := set_game_state _ sb).
    pose proof (intermission_last_tick sbn) as Hlast. cbv zeta in Hlast.
    assert (Hin' : intermission_active (game_state sbn) = true) by exact Hin.
    assert (Ht' : intermission_timer (game_state sbn) <= 1)
      by (subst sbn; cbn; lia).
    destruct (Hlast Hin' Ht') as (H1 & H2 & H3 & H4 & H5).
    subst sbn. cbn in *. repeat split; auto; try (now apply H4);
      try (now apply H5). rewrite H3. assumption.
Qed.

Lemma intermission_countdown_witness :
  let g := game_state board_horn in
  (forall k : nat, (k <= 178)%nat ->
     let gk := game_state (intermission_frames k board_horn) in
     intermission_active gk = true /\ period gk = period g
     /\ game_clock gk = game_clock g /\ game_active gk = game_active g)
  /\ (let g' := game_state (intermission_frames 179 board_horn) in
      intermission_active g' = false /\ game_lights_set g' = false
      /\ (overtime_active g = false ->
          period g' = period g + 1 /\ game_clock g' = 20 * 60 * 1000
          /\ game_active g' = true)
      /\ (overtime_active g = true ->
          period g' = period g /\ game_clock g' = game_clock g
          /\ game_active g' = game_active g /\ overtime_active g' = true)).
Proof.
  apply (intermission_countdown 178 board_horn); reflexivity.
Defined.


(** ** The puck motor *)

(** X5: a face-off with the game not over, the motor idle and the motor
    hardware present switches the motor on for [MOTOR_RUN_MS] and resumes
    play.  While the motor runs a further face-off press is ignored
    altogether, and [update_motor] leaves the board alone before the stop
    time; from the stop time on it switches the motor off, and play goes
    on. *)
Theorem faceoff_motor_pulse (now t : Z) (sb : Scoreboard) :
  game_over (game_state sb) = false ->
  motor_active (game_state sb) = false ->
  present (motor sb) = true ->
  let sb1 := exec (_start_faceoff_sequence now) sb in
  (motor sb1 = Some true /\ motor_active (game_state sb1) = true
   /\ motor_stop_time (game_state sb1) = now + MOTOR_RUN_MS
   /\ game_active (game_state sb1) = true)
  /\ _start_faceoff_sequence t sb1 = Returned tt sb1
  /\ (t < now + MOTOR_RUN_MS -> update_motor t sb1 = Returned tt sb1)
  /\ (now + MOTOR_RUN_MS <= t ->
      let sb2 := exec (update_motor t) sb1 in
      motor sb2 = Some false /\ motor_active (game_state sb2) = false
      /\ motor_stop_time (game_state sb2) = 0
      /\ game_active (game_state sb2) = true).
Proof.
  intros Hover Hmotor Hhw. cbv zeta.
  assert (H1 : let sb1 := exec (_start_faceoff_sequence now) sb in
               motor sb1 = Some true /\ motor_active (game_state sb1) = true
               /\ motor_stop_time (game_state sb1) = now + MOTOR_RUN_MS
               /\ game_active (game_state sb1) = true
               /\ game_over (game_state sb1) = false).
  { cbv zeta.
    destruct sb as [g cc pl px mo vi vd s1 s2 s3 s4 s5 pd].
    cbn [game_state motor] in Hover, Hmotor, Hhw.
    run_board. cbn [game_state pixels motor faceoff_sound set_game_state
                    set_pixels set_played set_motor].
    rewrite Hover, Hmotor. cbn [negb andb].
    destruct mo as [mo |]; [| discriminate].
    destruct px as [px |], s3; cbn;
      destruct (game_active g) eqn:E; cbn; rewrite ?Hover; auto. }
  cbv zeta in H1.
  set (sb1 := exec (_start_faceoff_sequence now) sb) in *.
  destruct H1 as (Hm & Ha & Hs & Hg & Ho).
  split; [auto |]. split; [| split].
  - unfold _start_faceoff_sequence, bind, getg, gets.
    rewrite Ho, Ha. reflexivity.
  - intros Ht. unfold update_motor, bind, get. rewrite Ha, Hm, Hs.
    destruct (Z.leb_spec (now + MOTOR_RUN_MS) t); [lia | reflexivity].
  - intros Ht. unfold exec, update_motor, bind, get. rewrite Ha, Hm, Hs.
    destruct (Z.leb_spec (now + MOTOR_RUN_MS) t); [| lia].
    cbn. auto.
Qed.

Lemma faceoff_motor_pulse_witness :
  let sb1 := exec (_start_faceoff_sequence 9000) board_goal in
  (motor sb1 = Some true /\ motor_active (game_state sb1) = true
   /\ motor_stop_time (game_state sb1) = 9000 + MOTOR_RUN_MS
   /\ game_active (game_state sb1) = true)
  /\ _start_faceoff_sequence 9100 sb1 = Returned tt sb1
  /\ (9100 < 9000 + MOTOR_RUN_MS -> update_motor 9100 sb1 = Returned tt sb1)
  /\ (9000 + MOTOR_RUN_MS <= 9100 ->
      let sb2 := exec (update_motor 9100) sb1 in
      motor sb2 = Some false /\ motor_active (game_state sb2) = false
      /\ motor_stop_time (game_state sb2) = 0
      /\ game_active (game_state sb2) = true).
Proof.
  apply (faceoff_motor_pulse 9000 9100 board_goal); vm_compute; reflexivity.
Defined.


(** ** The keys of a running game *)

Lemma keydown_game_speed (k : GameKey) (sb : Scoreboard) :
  speed_ok sb -> speed_ok (exec (keydown_game k) sb).
Proof.
  revert sb. unfold exec.
  destruct k; unfold keydown_game, handle_usa_goal, handle_ussr_goal,
    handle_usa_sog, handle_ussr_sog; intros sb Hsb;
    try (keeps; fail).
  - rewrite final_bind. unfold getg, gets. cbv beta iota.
    destruct (bool_decide _); cbn; [| exact Hsb].
    unfold speed_ok in *. cbn. lia.
  - rewrite final_bind. unfold getg, gets. cbv beta iota.
    destruct (bool_decide _); cbn; [| exact Hsb].
    unfold speed_ok in *. cbn. lia.
  - rewrite final_bind. unfold getg, gets. cbv beta iota.
    destruct (bool_decide _); cbn; [| exact Hsb].
    unfold speed_ok. cbn. lia.
Qed.

(** X6: the keys of ['GAME'] mode do nothing in the other modes, the four
    sensor keys do nothing once the game is over, and whatever keys are
    pressed the clock speed stays between 1 and 20. *)
Theorem game_keys (keys : list GameKey) (k : GameKey) (sb : Scoreboard) :
  (game_mode (game_state sb) <> GAME -> keydown_game k sb = Returned tt sb)
  /\ (game_over (game_state sb) = true ->
      k = K_u \/ k = K_i \/ k = K_j \/ k = K_k ->
      keydown_game k sb = Returned tt sb)
  /\ (speed_ok sb -> speed_ok (press_keys keys sb)).
Proof.
  split; [| split].
  - intros Hmode. unfold keydown_game, bind, getg, gets.
    rewrite bool_decide_eq_false_2 by exact Hmode. reflexivity.
  - intros Hover Hk. unfold keydown_game, bind, getg, gets.
    rewrite Hover. destruct (bool_decide _); [| reflexivity].
    destruct Hk as [-> | [-> | [-> | ->]]]; reflexivity.
  - revert sb. induction keys as [| key keys IH]; intros sb Hsb;
      [exact Hsb |].
    cbn [press_keys fold_left]. apply IH. now apply keydown_game_speed.
Qed.

Lemma game_keys_witness :
  keydown_game K_u board_start = Returned tt board_start
  /\ keydown_game K_u (exec handle_usa_goal board_overtime)
     = Returned tt (exec handle_usa_goal board_overtime)
  /\ speed_ok (press_keys (repeat K_PERIOD 15 ++ [K_u; K_r]) board_play).
Proof.
  split; [| split].
  - apply (proj1 (game_keys [] K_u board_start)). vm_compute. discriminate.
  - apply (proj1 (proj2 (game_keys [] K_u (exec handle_usa_goal board_overtime)))).
    + vm_compute. reflexivity.
    + now left.
  - apply (proj2 (proj2 (game_keys (repeat K_PERIOD 15 ++ [K_u; K_r]) K_u
                                   board_play))).
    vm_compute. split; discriminate.
Defined.

(** ** Volume *)

Lemma set_master_volume_run (v : Z) (sb : Scoreboard) :
  set_master_volume v sb
  = Returned tt
      (set_volume_display_timer (3 * FPS)
         (set_game_state
            ((if 0 <? v then set_is_muted false else fun g => g)
               (set_volume (Z.max 0 (Z.min 10 v)) (game_state sb))) sb)).
Proof.
  unfold set_master_volume, bind, setg, modify, when, ret.
  destruct (0 <? v); reflexivity.
Qed.

(** X7: whatever volume input arrives, the stored volume ends within 0..10
    tenths and the volume display is shown for three seconds.  Turning the
    knob up from below the maximum adds one tenth and lifts the mute;
    turning it down takes one tenth off, not below zero, and lifts the mute
    only while the result is above zero; at the maximum turning up leaves
    the volume alone.  The M key flips the mute flag and leaves the volume
    alone. *)
Theorem volume_inputs (i : VolumeInput) (sb : Scoreboard) :
  let g := game_state sb in
  0 <= volume g <= 10 ->
  (let sb' := exec (volume_input i) sb in
   0 <= volume (game_state sb') <= 10
   /\ volume_display_timer sb' = 3 * FPS)
  /\ (let g' := game_state (exec increase_volume sb) in
      volume g' = Z.min 10 (volume g + 1) /\ is_muted g' = false)
  /\ (let g' := game_state (exec decrease_volume sb) in
      volume g' = Z.max 0 (volume g - 1)
      /\ is_muted g' = (if 1 <? volume g then false else is_muted g))
  /\ (let g' := game_state (exec toggle_mute sb) in
      volume g' = volume g /\ is_muted g' = negb (is_muted g)).
Proof.
  cbv zeta. intros Hv. split; [| split; [| split]].
  - destruct i; unfold volume_input, exec, increase_volume, decrease_volume,
      toggle_mute, handle_volume_button_press, bind, getg, gets.
    + rewrite set_master_volume_run. cbn.
      destruct (0 <? _); cbn; split; (lia || reflexivity).
    + rewrite set_master_volume_run. cbn.
      destruct (0 <? _); cbn; split; (lia || reflexivity).
    + cbn. split; [lia | reflexivity].
    + destruct (game_over (game_state sb)).
      * cbn [setg modify].
        rewrite set_master_volume_run. cbn.
        destruct (0 <? _); cbn; split; (lia || reflexivity).
      * cbn. split; [lia | reflexivity].
  - unfold exec, increase_volume, bind, getg, gets.
    rewrite set_master_volume_run. cbn.
    destruct (Z.ltb_spec 0 (volume (game_state sb) + 1)); cbn; [| lia].
    split; [lia | reflexivity].
  - unfold exec, decrease_volume, bind, getg, gets.
    rewrite set_master_volume_run. cbn.
    destruct (Z.ltb_spec 0 (volume (game_state sb) - 1)),
             (Z.ltb_spec 1 (volume (game_state sb))); cbn; try lia;
      split; (lia || reflexivity).
  - cbn. split; reflexivity.
Qed.

Lemma volume_inputs_witness :
  (let sb' := exec (volume_input Turn_up) board_play in
   0 <= volume (game_state sb') <= 10
   /\ volume_display_timer sb' = 3 * FPS)
  /\ (let g' := game_state (exec increase_volume board_play) in
      volume g' = Z.min 10 (volume (game_state board_play) + 1)
      /\ is_muted g' = false)
  /\ (let g' := game_state (exec decrease_volume board_play) in
      volume g' = Z.max 0 (volume (game_state board_play) - 1)
      /\ is_muted g' = (if 1 <? volume (game_state board_play) then false
                        else is_muted (game_state board_play)))
  /\ (let g' := game_state (exec toggle_mute board_play) in
      volume g' = volume (game_state board_play)
      /\ is_muted g' = negb (is_muted (game_state board_play))).
Proof.
  apply (volume_inputs Turn_up board_play). vm_compute. split; discriminate.
Defined.


(** ** Starting a game from the set-up screen *)

Lemma get_selected_run (dd : Dropdown) (s : string) (sb : Scoreboard) :
  chosen dd = Some s -> get_selected dd sb = Returned s sb.
Proof. unfold chosen, get_selected. now intros ->. Qed.


Lemma custom_color_run (i : Z) (c : ColorDict) (cc : list ColorDict)
    (sb : Scoreboard) :
  custom_colors sb = cc -> index cc i = Some c ->
  custom_color i sb = Returned c sb.
Proof. unfold custom_color, bind, get. intros -> ->. reflexivity. Qed.

(** The primary dropdown lists the colours in their order. *)
Lemma primary_aligned (dd : Dropdown) (cc : list ColorDict) :
  options dd = map color_name cc -> on_list dd ->
  exists c, index cc (selected_index dd) = Some c
            /\ chosen dd = Some (color_name c).
Proof.
  intros Hopt Hon. unfold on_list, chosen in *. rewrite Hopt in *.
  rewrite length_map in Hon.
  destruct (index_is_some cc (selected_index dd) Hon) as [c Hc].
  exists c. split; [exact Hc |].
  rewrite index_on_list in Hc by lia.
  rewrite index_on_list by (rewrite length_map; lia).
  rewrite lookup_map, Hc. reflexivity.
Qed.

(** The secondary dropdown lists ["None"] and then the colours: the
    colour committed is the one whose name is selected. *)
Lemma secondary_choice_run (dd : Dropdown) (cc : list ColorDict) :
  options dd = "None"%string :: map color_name cc -> on_list dd ->
  exists s r,
    chosen dd = Some s
    /\ (forall sb, custom_colors sb = cc ->
                   secondary_choice dd sb = Returned r sb)
    /\ (s = "None"%string -> r = None)
    /\ (s <> "None"%string ->
        exists c, r = Some c /\ color_name c = s
                  /\ index cc (selected_index dd - 1) = Some c).
Proof.
  intros Hopt Hon. unfold on_list in Hon.
  destruct (index_is_some _ _ Hon) as [s Hs].
  exists s. unfold secondary_choice, bind.
  destruct (String.eqb_spec s "None") as [-> | Hne].
  - exists None. split; [exact Hs |]. split; [| split; congruence].
    intros sb _. rewrite (get_selected_run dd _ sb Hs). reflexivity.
  - assert (Hs' := Hs).
    rewrite Hopt in Hs, Hon.
    cbn [length] in Hon. rewrite length_map in Hon.
    rewrite index_on_list in Hs by (cbn [length]; rewrite length_map; lia).
    destruct (Z.to_nat (selected_index dd)) as [| n] eqn:En.
    { cbn in Hs. congruence. }
    change (map color_name cc !! n = Some s) in Hs.
    rewrite lookup_map in Hs.
    destruct (cc !! n) as [c |] eqn:Ec; [| discriminate].
    cbn in Hs. injection Hs as <-.
    assert (Hc : index cc (selected_index dd - 1) = Some c).
    { rewrite index_on_list by lia.
      replace (Z.to_nat (selected_index dd - 1)) with n by lia. exact Ec. }
    exists (Some c). split; [exact Hs' |]. split; [| split; [congruence |]].
    + intros sb Hcc. rewrite (get_selected_run dd _ sb Hs').
      destruct (String.eqb_spec (color_name c) "None"); [congruence |].
      rewrite (custom_color_run _ c cc sb Hcc Hc). reflexivity.
    + intros _. exists c. auto.
Qed.

Lemma play_video_hardware_run (on_pi : bool) (sb : Scoreboard) :
  play_video_hardware on_pi sb
  = Returned tt (set_game_state
                   (set_game_mode (if on_pi then VIDEO else GAME)
                                  (game_state sb)) sb).
Proof. destruct on_pi; reflexivity. Qed.

(** X8: with both players ready and every dropdown of the set-up screen
    showing an entry of its list, [start_game] returns: the names are the
    names selected, each primary colour is the colour at the selected
    position and bears the selected name, each secondary colour is absent
    when ["None"] is selected and otherwise bears the selected name, and
    the board is in ['VIDEO'] mode on the Pi and in ['GAME'] mode off it.
    Unless both players are ready nothing changes. *)
Theorem start_game_commits (on_pi : bool)
    (n1 p1 s1 n2 p2 s2 : Dropdown) (sb : Scoreboard) :
  (player1_ready (game_state sb) && player2_ready (game_state sb) = false ->
   start_game on_pi n1 p1 s1 n2 p2 s2 sb = Returned tt sb)
  /\ (player1_ready (game_state sb) = true ->
      player2_ready (game_state sb) = true ->
      on_list n1 -> on_list n2 ->
      options p1 = color_names sb -> on_list p1 ->
      options p2 = color_names sb -> on_list p2 ->
      options s1 = secondary_color_names sb -> on_list s1 ->
      options s2 = secondary_color_names sb -> on_list s2 ->
      exists sb',
        start_game on_pi n1 p1 s1 n2 p2 s2 sb = Returned tt sb'
        /\ (let g' := game_state sb' in
            chosen n1 = Some (player1_name g')
            /\ chosen n2 = Some (player2_name g')
            /\ player1_primary_color g'
               = index (custom_colors sb) (selected_index p1)
            /\ player2_primary_color g'
               = index (custom_colors sb) (selected_index p2)
            /\ option_map color_name (player1_primary_color g') = chosen p1
            /\ option_map color_name (player2_primary_color g') = chosen p2
            /\ (chosen s1 = Some "None"%string ->
                player1_secondary_color g' = None)
            /\ (chosen s1 <> Some "None"%string ->
                option_map color_name (player1_secondary_color g') = chosen s1)
            /\ (chosen s2 = Some "None"%string ->
                player2_secondary_color g' = None)
            /\ (chosen s2 <> Some "None"%string ->
                option_map color_name (player2_secondary_color g') = chosen s2)
            /\ game_mode g' = (if on_pi then VIDEO else GAME))).
Proof.
  split.
  - intros H. unfold start_game, bind, getg, gets. rewrite H. reflexivity.
  - intros Hr1 Hr2 Hn1 Hn2 Hp1o Hp1 Hp2o Hp2 Hs1o Hs1 Hs2o Hs2.
    destruct (index_is_some _ _ Hn1) as [a1 Ha1].
    destruct (index_is_some _ _ Hn2) as [a2 Ha2].
    destruct (primary_aligned p1 (custom_colors sb) Hp1o Hp1) as (c1 & Hc1 & Hq1).
    destruct (primary_aligned p2 (custom_colors sb) Hp2o Hp2) as (c2 & Hc2 & Hq2).
    destruct (secondary_choice_run s1 (custom_colors sb) Hs1o Hs1)
      as (t1 & r1 & Ht1 & Hrun1 & Hnone1 & Hsome1).
    destruct (secondary_choice_run s2 (custom_colors sb) Hs2o Hs2)
      as (t2 & r2 & Ht2 & Hrun2 & Hnone2 & Hsome2).
    eexists. split.
    + unfold start_game. unfold bind at 1. unfold getg, gets.
      rewrite Hr1, Hr2. cbn [andb when].
      unfold bind at 1. rewrite (get_selected_run n1 a1 _ Ha1).
      unfold bind at 1. rewrite (get_selected_run n2 a2 _ Ha2).
      unfold bind at 1. cbn [setg modify].
      unfold bind at 1. cbn [setg modify].
      unfold bind at 1.
      erewrite custom_color_run; [| reflexivity | exact Hc1].
      unfold bind at 1.
      erewrite custom_color_run; [| reflexivity | exact Hc2].
      unfold bind at 1. cbn [setg modify].
      unfold bind at 1. cbn [setg modify].
      unfold bind at 1. rewrite Hrun1 by reflexivity.
      unfold bind at 1. cbn [setg modify].
      unfold bind at 1. rewrite Hrun2 by reflexivity.
      unfold bind at 1. cbn [setg modify].
      rewrite play_video_hardware_run. reflexivity.
    + cbv zeta. rewrite Hc1, Hc2, Hq1, Hq2, Ht1, Ht2.
      assert (G1 : (Some t1 = Some "None"%string -> r1 = None)
                   /\ (Some t1 <> Some "None"%string ->
                       option_map color_name r1 = Some t1)).
      { split.
        - intros Hx. injection Hx as Hx. auto.
        - intros Hx. destruct Hsome1 as (c & -> & <- & _); [congruence |].
          reflexivity. }
      assert (G2 : (Some t2 = Some "None"%string -> r2 = None)
                   /\ (Some t2 <> Some "None"%string ->
                       option_map color_name r2 = Some t2)).
      { split.
        - intros Hx. injection Hx as Hx. auto.
        - intros Hx. destruct Hsome2 as (c & -> & <- & _); [congruence |].
          reflexivity. }
      destruct G1 as [G1a G1b], G2 as [G2a G2b].
      cbn; repeat split; auto.
Qed.

Lemma start_game_commits_witness :
  exists sb',
    start_game true p1_name_dd0 (p1_pri_color_dd0 board_ready)
      (sec_color_dd0 board_ready) p2_name_dd0 (p2_pri_color_dd0 board_ready)
      (card_dd (secondary_color_names board_ready) 2) board_ready
    = Returned tt sb'
    /\ (let g' := game_state sb' in
        chosen p1_name_dd0 = Some (player1_name g')
        /\ chosen p2_name_dd0 = Some (player2_name g')
        /\ player1_primary_color g'
           = index (custom_colors board_ready)
                   (selected_index (p1_pri_color_dd0 board_ready))
        /\ player2_primary_color g'
           = index (custom_colors board_ready)
                   (selected_index (p2_pri_color_dd0 board_ready))
        /\ option_map color_name (player1_primary_color g')
           = chosen (p1_pri_color_dd0 board_ready)
        /\ option_map color_name (player2_primary_color g')
           = chosen (p2_pri_color_dd0 board_ready)
        /\ (chosen (sec_color_dd0 board_ready) = Some "None"%string ->
            player1_secondary_color g' = None)
        /\ (chosen (sec_color_dd0 board_ready) <> Some "None"%string ->
            option_map color_name (player1_secondary_color g')
            = chosen (sec_color_dd0 board_ready))
        /\ (chosen (card_dd (secondary_color_names board_ready) 2)
            = Some "None"%string ->
            player2_secondary_color g' = None)
        /\ (chosen (card_dd (secondary_color_names board_ready) 2)
            <> Some "None"%string ->
            option_map color_name (player2_secondary_color g')
            = chosen (card_dd (secondary_color_names board_ready) 2))
        /\ game_mode g' = (if true then VIDEO else GAME)).
Proof.
  apply (proj2 (start_game_commits true p1_name_dd0
                  (p1_pri_color_dd0 board_ready) (sec_color_dd0 board_ready)
                  p2_name_dd0 (p2_pri_color_dd0 board_ready)
                  (card_dd (secondary_color_names board_ready) 2)
                  board_ready));
    try reflexivity; vm_compute; split; (discriminate || reflexivity).
Defined.


(** ** Goal handlers on a board set up by [start_game] *)


Lemma kitted_on_pixels (f : NeoPixel -> NeoPixel) :
  returning (kitted true) (on_pixels f).
Proof.
  intros s (Hpx & H1 & H2). unfold on_pixels, bind, get.
  destruct (pixels s) as [px |] eqn:E; [| discriminate].
  eexists _, _. split; [reflexivity |]. repeat split; cbn; auto.
Qed.


Lemma kitted_trigger_game_end (strip : bool) (winner_id : Winner) :
  returning (kitted strip) (trigger_game_end winner_id).
Proof.
  unfold trigger_game_end.
  do 3 (apply returning_bind; [returning_step | intros _]).
  apply (returning_with _
           (fun g => present (player1_primary_color g) = true
                     /\ present (player2_primary_color g) = true)).
  { intros s Hs. eexists _, _. split; [reflexivity |].
    split; [exact Hs |]. destruct Hs as (_ & H1 & H2). now split. }
  intros g [H1 H2]. cbv zeta.
  do 3 (apply returning_bind; [returning_step | intros _]).
  apply (returning_with _ (fun sb => present (pixels sb) = strip)).
  { intros s Hs. eexists _, _. split; [reflexivity |].
    split; [exact Hs |]. now destruct Hs. }
  intros sb ->. destruct strip; [| apply returning_ret]. cbn [when].
  apply returning_bind; [apply kitted_on_pixels | intros _].
  do 2 (apply returning_bind; [returning_step | intros _]).
  destruct winner_id.
  - destruct (player1_primary_color g); [| discriminate].
    cbn [subscript]. repeat returning_step.
  - destruct (player2_primary_color g); [| discriminate].
    cbn [subscript]. repeat returning_step.
Qed.

Lemma kitted_handle_goal (strip : bool) (side : Side) :
  returning (kitted strip) (handle_goal side).
Proof.
  destruct side; unfold handle_goal.
  - unfold handle_usa_goal.
    apply (returning_with _
             (fun g => present (player1_primary_color g) = true
                       /\ present (player2_primary_color g) = true)).
    { intros s Hs. eexists _, _. split; [reflexivity |].
      split; [exact Hs |]. destruct Hs as (_ & H1 & H2). now split. }
    intros g [H1 H2]. apply returning_when.
    do 8 (apply returning_bind; [repeat returning_step | intros _]).
    apply returning_bind; [destruct (default_look _ _ _ _ _);
                           repeat returning_step | intros _].
    destruct (overtime_active g); [apply kitted_trigger_game_end |].
    apply (returning_with _ (fun sb => present (pixels sb) = strip)).
    { intros s Hs. eexists _, _. split; [reflexivity |].
      split; [exact Hs |]. now destruct Hs. }
    intros sb ->.
    apply returning_bind;
      [destruct strip; [apply kitted_on_pixels | apply returning_ret]
      | intros _].
    do 2 (apply returning_bind; [returning_step | intros _]).
    destruct (player2_primary_color g); [| discriminate].
    cbn [subscript]. repeat returning_step.
  - unfold handle_ussr_goal.
    apply (returning_with _
             (fun g => present (player1_primary_color g) = true
                       /\ present (player2_primary_color g) = true)).
    { intros s Hs. eexists _, _. split; [reflexivity |].
      split; [exact Hs |]. destruct Hs as (_ & H1 & H2). now split. }
    intros g [H1 H2]. apply returning_when.
    do 6 (apply returning_bind; [repeat returning_step | intros _]).
    destruct (overtime_active g); [apply kitted_trigger_game_end |].
    apply (returning_with _ (fun sb => present (pixels sb) = strip)).
    { intros s Hs. eexists _, _. split; [reflexivity |].
      split; [exact Hs |]. now destruct Hs. }
    intros sb ->.
    apply returning_bind;
      [destruct strip; [apply kitted_on_pixels | apply returning_ret]
      | intros _].
    do 4 (apply returning_bind; [returning_step | intros _]).
    apply returning_bind; [| intros _; repeat returning_step].
    destruct (default_look _ _ _ _ _); [repeat returning_step |].
    do 2 (apply returning_bind; [returning_step | intros _]).
    destruct (player1_primary_color g); [| discriminate].
    cbn [subscript]. repeat returning_step.
Qed.

(** X9: once both players have their primary colour, no goal edge makes a
    goal handler raise, whatever edges came before. *)
Theorem goal_handlers_return (strip : bool) (edges : list Side) (side : Side)
    (sb : Scoreboard) :
  kitted strip sb ->
  kitted strip (deliver edges sb)
  /\ exists sb', handle_goal side (deliver edges sb) = Returned tt sb'
                 /\ kitted strip sb'.
Proof.
  revert sb. induction edges as [| e edges IH]; intros sb Hk.
  - cbn [deliver fold_left]. split; [exact Hk |].
    destruct (kitted_handle_goal strip side sb Hk) as ([] & sb' & E & Hk').
    exists sb'. now split.
  - change (deliver (e :: edges) sb)
      with (deliver edges (exec (handle_goal e) sb)).
    apply IH.
    destruct (kitted_handle_goal strip e sb Hk) as ([] & sb' & E & Hk').
    unfold exec. rewrite E. exact Hk'.
Qed.

Lemma goal_handlers_return_witness :
  kitted true (deliver [USA; USSR; USA] board_play)
  /\ exists sb', handle_goal USSR (deliver [USA; USSR; USA] board_play)
                 = Returned tt sb'
                 /\ kitted true sb'.
Proof.
  apply (goal_handlers_return true [USA; USSR; USA] USSR board_play).
  vm_compute. repeat apply conj; reflexivity.
Defined.


(** ** Between a goal and the next face-off *)

Lemma tally_frame (a b c d dt now : Z) (sb : Scoreboard) :
  tally a b c d sb -> tally a b c d (exec (update_timers dt now) sb).
Proof.
  revert sb. unfold exec, update_timers, update_motor, check_period_end,
    update_intermission, update_goal_celebration_timer, update_sog_timer.
  intros sb Hsb.
  apply (invariant_bind (tally a b c d)); [| | exact Hsb].
  - intros s Hs. cbn [modify final]. rewrite update_clock_eq.
    destruct (_ && _); [| exact Hs]. exact Hs.
  - intros _ s Hs. keeps.
Qed.

Lemma locked_ignores (h : Happening) (sb : Scoreboard) :
  locked sb ->
  match h with
  | Frame _ _ => True
  | _ => happen h sb = Returned tt sb
  end.
Proof.
  intros [[Hc Ht] | [Ho _]]; destruct h as [side | side | dt now]; cbn [happen];
    try exact I.
  - apply goal_ignored. rewrite Hc. apply andb_false_r.
  - apply sog_ignored. rewrite Hc. apply andb_false_r.
  - apply goal_ignored. rewrite Ho. reflexivity.
  - apply sog_ignored. rewrite Ho. reflexivity.
Qed.

Lemma locked_trigger_game_end (winner_id : Winner) (sb : Scoreboard) :
  locked (final (trigger_game_end winner_id sb)).
Proof.
  destruct (trigger_game_end_run winner_id sb) as (H1 & H2 & H3 & H4).
  right. split; [exact H1 |]. intros _. exact H2.
Qed.

Lemma locked_celebration_timer (sb : Scoreboard) :
  locked sb -> locked (exec update_goal_celebration_timer sb).
Proof.
  intros Hl. unfold exec, update_goal_celebration_timer, bind, getg, gets,
    when, setg, modify, ret.
  destruct (Z.ltb_spec 0 (goal_celebration_timer (game_state sb))) as [Ht | Ht];
    [| exact Hl].
  destruct Hl as [[_ Hle] | [Ho Hg]]; [lia |].
  specialize (Hg Ht).
  destruct (Z.leb_spec (goal_celebration_timer (game_state sb) - 1) 0);
    rewrite ?Hg; cbn; right;
    (split; [exact Ho | intros Hx; cbn in Hx; (lia || exact Hg)]).
Qed.

Lemma locked_frame (dt now : Z) (sb : Scoreboard) :
  locked sb -> locked (exec (update_timers dt now) sb).
Proof.
  intros Hsb. unfold exec, update_timers.
  revert sb Hsb. apply (invariant_bind locked).
  { intros s Hs. cbn [modify final]. rewrite update_clock_eq.
    destruct (_ && _); exact Hs. }
  intros _. apply (invariant_bind locked).
  { intros s Hs. unfold update_motor. keeps. }
  intros _. apply (invariant_bind locked).
  { intros s Hs. unfold check_period_end.
    rewrite final_bind. unfold getg, gets. cbv beta iota.
    destruct (_ || _); [exact Hs |].
    apply (invariant_bind locked); [intros s' Hs'; keeps | | exact Hs].
    intros _ s1 Hs1.
    apply (invariant_bind locked); [intros s' Hs'; keeps | | exact Hs1].
    intros _ s2 Hs2.
    destruct (period (game_state s) <? 3); [keeps |].
    destruct (period (game_state s) =? 3); [| exact Hs2].
    destruct (ussr_score (game_state s) =? usa_score (game_state s));
      [keeps |].
    apply locked_trigger_game_end. }
  intros _. apply (invariant_bind locked).
  { intros s Hs. unfold update_intermission. keeps. }
  intros _. apply (invariant_bind locked).
  { intros s Hs. now apply locked_celebration_timer. }
  intros _ s Hs. unfold update_sog_timer. keeps.
Qed.

(** X10: from a goal to the next face-off nothing is counted.  On a board that
    shows a goal celebration whose timer is not running (the state a goal
    in regular play leaves), or whose game is over, no sequence of goal
    edges, shot edges and timer frames changes a score or a shot count,
    and every sensor edge of the sequence returns without effect. *)
Theorem counts_frozen (hs : list Happening) (sb : Scoreboard) :
  locked sb ->
  locked (after hs sb)
  /\ usa_score (game_state (after hs sb)) = usa_score (game_state sb)
  /\ ussr_score (game_state (after hs sb)) = ussr_score (game_state sb)
  /\ usa_sog (game_state (after hs sb)) = usa_sog (game_state sb)
  /\ ussr_sog (game_state (after hs sb)) = ussr_sog (game_state sb)
  /\ (forall side, handle_goal side (after hs sb) = Returned tt (after hs sb))
  /\ (forall side, handle_sog side (after hs sb) = Returned tt (after hs sb)).
Proof.
  intros Hl.
  assert (H : locked (after hs sb)
              /\ tally (usa_score (game_state sb)) (ussr_score (game_state sb))
                       (usa_sog (game_state sb)) (ussr_sog (game_state sb))
                       (after hs sb)).
  { assert (Ht : tally (usa_score (game_state sb)) (ussr_score (game_state sb))
                       (usa_sog (game_state sb)) (ussr_sog (game_state sb)) sb)
      by (repeat split).
    revert Ht. generalize (usa_score (game_state sb)) (ussr_score (game_state sb))
                          (usa_sog (game_state sb)) (ussr_sog (game_state sb)).
    intros a b c d. revert sb Hl.
    induction hs as [| h hs IH]; intros sb Hl Ht; [now split |].
    cbn [after fold_left]. apply IH.
    - pose proof (locked_ignores h sb Hl) as Hi.
      destruct h as [side | side | dt now]; cbn [happen] in *.
      + unfold exec. rewrite Hi. exact Hl.
      + unfold exec. rewrite Hi. exact Hl.
      + now apply locked_frame.
    - pose proof (locked_ignores h sb Hl) as Hi.
      destruct h as [side | side | dt now]; cbn [happen] in *.
      + unfold exec. rewrite Hi. exact Ht.
      + unfold exec. rewrite Hi. exact Ht.
      + now apply tally_frame. }
  destruct H as (Hl' & H1 & H2 & H3 & H4).
  repeat split; auto.
  - intros side. apply (locked_ignores (Goal_edge side) _ Hl').
  - intros side. apply (locked_ignores (Shot_edge side) _ Hl').
Qed.

Lemma counts_frozen_witness :
  let hs := [Frame 16 9000; Goal_edge USSR; Shot_edge USA; Frame 16 9016;
             Goal_edge USA] in
  locked (after hs board_goal)
  /\ usa_score (game_state (after hs board_goal))
     = usa_score (game_state board_goal)
  /\ ussr_score (game_state (after hs board_goal))
     = ussr_score (game_state board_goal)
  /\ usa_sog (game_state (after hs board_goal))
     = usa_sog (game_state board_goal)
  /\ ussr_sog (game_state (after hs board_goal))
     = ussr_sog (game_state board_goal)
  /\ (forall side, handle_goal side (after hs board_goal)
                   = Returned tt (after hs board_goal))
  /\ (forall side, handle_sog side (after hs board_goal)
                   = Returned tt (after hs board_goal)).
Proof.
  apply (counts_frozen [Frame 16 9000; Goal_edge USSR; Shot_edge USA;
                        Frame 16 9016; Goal_edge USA] board_goal).
  left. vm_compute. split; [reflexivity | discriminate].
Defined.


(** ** Player cards *)

Lemma load_known_card (sb : Scoreboard) (card_id player_num : Z)
    (player_data : PlayerData) (name_dd pri_color_dd sec_color_dd : Dropdown)
    (player_names_list color_names_list sec_color_names_list : list string)
    (now : Z) :
  players sb !! Text.str card_id = Some player_data ->
  exists sb',
    load_player_profile card_id player_num name_dd pri_color_dd sec_color_dd
      player_names_list color_names_list sec_color_names_list now sb
    = Returned (try_select (profile_name player_data) player_names_list name_dd,
                try_select (primary_color player_data) color_names_list
                           pri_color_dd,
                try_select (secondary_color player_data) sec_color_names_list
                           sec_color_dd) sb'
    /\ (let g' := game_state sb' in
        rfid_welcome_message g' = "Welcome " +:+ profile_name player_data
        /\ rfid_welcome_message_end_time g' = now + 2000
        /\ rfid_welcome_message_player g' = Some player_num
        /\ rfid_welcome_message_color g'
           = match named_color (primary_color player_data) sb with
             | Some c => color_display c
             | None => COLOR_WHITE
             end
        /\ rfid_load_message g' = rfid_load_message (game_state sb)
        /\ match named_color (primary_color player_data) sb with
           | Some pri =>
               rfid_scan_animation_active g' = true
               /\ rfid_scan_animation_player g' = Some player_num
               /\ rfid_scan_animation_start_time g' = now
               /\ rfid_scan_animation_end_time g' = now + 3000
               /\ rfid_scan_animation_pri_color g' = color_led pri
               /\ rfid_scan_animation_sec_color g'
                  = match named_color (secondary_color player_data) sb with
                    | Some sec => color_led sec
                    | None => ((color_led pri).1.1 / 2, (color_led pri).1.2 / 2,
                               (color_led pri).2 / 2)
                    end
           | None =>
               rfid_scan_animation_active g'
               = rfid_scan_animation_active (game_state sb)
               /\ rfid_scan_animation_end_time g'
                  = rfid_scan_animation_end_time (game_state sb)
           end)
    /\ players sb' = players sb /\ custom_colors sb' = custom_colors sb.
Proof.
  intros Hcard.
  unfold load_player_profile. unfold bind at 1, get. cbv beta iota.
  rewrite Hcard. cbv zeta. unfold named_color.
  destruct (first _ (custom_colors sb)) as [pri |] eqn:Epri.
  - destruct (first (fun c => String.eqb (color_name c)
                                (secondary_color player_data))
                    (custom_colors sb)) as [sec |] eqn:Esec.
    + eexists. split; [reflexivity |]. cbn. repeat split.
    + destruct pri as [pn [[r g] b] pd]. cbn [color_led].
      eexists. split; [reflexivity |]. cbn. repeat split.
  - eexists. split; [reflexivity |]. cbn. repeat split.
Qed.

(** X11: a known card greets its player: the welcome message ["Welcome <name>"]
    is set for the scanning player for 2000 ms in the display colour of the
    stored primary colour (white when no colour bears that name); the
    "no data" message is left alone; and the scan animation is started for
    3000 ms with the stored colours, the secondary one defaulting to the
    primary halved, exactly when the stored primary colour exists. *)
Theorem known_card_welcome (sb : Scoreboard) (card_id player_num : Z)
    (player_data : PlayerData) (name_dd pri_color_dd sec_color_dd : Dropdown)
    (player_names_list color_names_list sec_color_names_list : list string)
    (now : Z) :
  players sb !! Text.str card_id = Some player_data ->
  let g' := game_state
              (exec (load_player_profile card_id player_num name_dd
                       pri_color_dd sec_color_dd player_names_list
                       color_names_list sec_color_names_list now) sb) in
  rfid_welcome_message g' = "Welcome " +:+ profile_name player_data
  /\ rfid_welcome_message_end_time g' = now + 2000
  /\ rfid_welcome_message_player g' = Some player_num
  /\ rfid_welcome_message_color g'
     = match named_color (primary_color player_data) sb with
       | Some c => color_display c
       | None => COLOR_WHITE
       end
  /\ rfid_load_message g' = rfid_load_message (game_state sb)
  /\ match named_color (primary_color player_data) sb with
     | Some pri =>
         rfid_scan_animation_active g' = true
         /\ rfid_scan_animation_player g' = Some player_num
         /\ rfid_scan_animation_start_time g' = now
         /\ rfid_scan_animation_end_time g' = now + 3000
         /\ rfid_scan_animation_pri_color g' = color_led pri
         /\ rfid_scan_animation_sec_color g'
            = match named_color (secondary_color player_data) sb with
              | Some sec => color_led sec
              | None => ((color_led pri).1.1 / 2, (color_led pri).1.2 / 2,
                         (color_led pri).2 / 2)
              end
     | None =>
         rfid_scan_animation_active g'
         = rfid_scan_animation_active (game_state sb)
         /\ rfid_scan_animation_end_time g'
            = rfid_scan_animation_end_time (game_state sb)
     end.
Proof.
  intros Hcard. cbv zeta.
  destruct (load_known_card sb card_id player_num player_data name_dd
              pri_color_dd sec_color_dd player_names_list color_names_list
              sec_color_names_list now Hcard) as (sb' & E & H & _).
  unfold exec. rewrite E. exact H.
Qed.

Lemma known_card_welcome_witness :
  let player_data := {| profile_name := "Oma"; primary_color := "Blue";
                        secondary_color := "Gold" |} in
  let g' := game_state
              (exec (load_player_profile 777 2 p2_name_dd0
                       (p2_pri_color_dd0 board_start) (sec_color_dd0 board_start)
                       HOME_NAMES (color_names board_start)
                       (secondary_color_names board_start) 5000) board_start) in
  rfid_welcome_message g' = "Welcome " +:+ profile_name player_data
  /\ rfid_welcome_message_end_time g' = 5000 + 2000
  /\ rfid_welcome_message_player g' = Some 2
  /\ rfid_welcome_message_color g'
     = match named_color (primary_color player_data) board_start with
       | Some c => color_display c
       | None => COLOR_WHITE
       end
  /\ rfid_load_message g' = rfid_load_message (game_state board_start)
  /\ match named_color (primary_color player_data) board_start with
     | Some pri =>
         rfid_scan_animation_active g' = true
         /\ rfid_scan_animation_player g' = Some 2
         /\ rfid_scan_animation_start_time g' = 5000
         /\ rfid_scan_animation_end_time g' = 5000 + 3000
         /\ rfid_scan_animation_pri_color g' = color_led pri
         /\ rfid_scan_animation_sec_color g'
            = match named_color (secondary_color player_data) board_start with
              | Some sec => color_led sec
              | None => ((color_led pri).1.1 / 2, (color_led pri).1.2 / 2,
                         (color_led pri).2 / 2)
              end
     | None =>
         rfid_scan_animation_active g'
         = rfid_scan_animation_active (game_state board_start)
         /\ rfid_scan_animation_end_time g'
            = rfid_scan_animation_end_time (game_state board_start)
     end.
Proof.
  apply (known_card_welcome board_start 777 2
           {| profile_name := "Oma"; primary_color := "Blue";
              secondary_color := "Gold" |}).
  reflexivity.
Defined.








End GameFlow.

(* ===================================================================== *)
(** * The colour picker's main loop and its strip *)
(* ===================================================================== *)

Module PickerLoop.
Import Py Text TextFacts Runs LED_color_picker ColorStore PyFacts.


Lemma list3_length (c : RGB) : length (list3 c) = 3%nat.
Proof. reflexivity. Qed.

Lemma list3_ok (c : RGB) : rgb_ok c -> Forall chan_ok (list3 c).
Proof.
  intros (H1 & H2 & H3). unfold list3.
  do 3 (constructor; [assumption |]). constructor.
Qed.

Lemma nth_ok (l : list Z) (n : nat) : Forall chan_ok l -> chan_ok (nth n l 0).
Proof.
  intros Hl. revert n. induction Hl as [| z l Hz Hl IH]; intros [| n]; cbn;
    auto; unfold chan_ok; lia.
Qed.

Lemma tuple3_ok (l : list Z) : Forall chan_ok l -> rgb_ok (tuple3 l).
Proof. intros Hl. unfold tuple3, rgb_ok. cbn. auto using nth_ok. Qed.

(** Computes the attributes of a picker given by record updates. *)
Ltac fit_fields :=
  unfold fit, sound, sec_ok, in_gamut, synced in *;
  cbn [saved_colors primary_index secondary_index current_led_rgb
       current_display_rgb is_saving input_text editing_mode animation_mode
       overhead_mode frame_counter colors_changed key_hold_timers
       key_repeat_timers color_file
       set_saved_colors set_primary_index set_secondary_index
       set_current_led_rgb set_current_display_rgb set_is_saving
       set_input_text set_editing_mode set_animation_mode set_overhead_mode
       set_frame_counter set_colors_changed set_key_hold_timers
       set_key_repeat_timers set_color_file] in *.

Lemma update_current_run (p : ColorPicker) :
  0 <= primary_index p < Z.of_nat (length (saved_colors p)) ->
  exists e,
    index (saved_colors p) (primary_index p) = Some e
    /\ update_current_colors_from_selection p
       = Returned tt (set_current_display_rgb (list3 (entry_display e))
                        (set_current_led_rgb (list3 (entry_led e)) p)).
Proof.
  intros Hi.
  destruct (index_is_some _ _ Hi) as [[[n l] d] He].
  exists (n, l, d). split; [exact He |].
  unfold update_current_colors_from_selection, bind, get.
  rewrite bool_decide_eq_false_2
    by (destruct (saved_colors p); [cbn in Hi; lia | discriminate]).
  destruct (Z.ltb_spec (primary_index p) (Z.of_nat (length (saved_colors p))));
    [| lia].
  cbn [negb andb when]. rewrite He. reflexivity.
Qed.

Lemma entry_ok (l : list ColorEntry) (i : Z) (e : ColorEntry) :
  Forall (fun e => rgb_ok (entry_led e) /\ rgb_ok (entry_display e)) l ->
  index l i = Some e ->
  Forall chan_ok (list3 (entry_led e))
  /\ Forall chan_ok (list3 (entry_display e)).
Proof.
  intros Hl He. destruct (Forall_index _ _ _ _ Hl He) as [H1 H2].
  split; now apply list3_ok.
Qed.

(** Splits [fit] into its seven parts. *)
Ltac fit_split :=
  fit_fields;
  split; [split; [| split; [| split]] | split; [| split]].


Lemma adjust_channel_fit (A B C : Prop) (idx direction : Z) (p : ColorPicker) :
  0 <= idx < 3 -> fit A B C p ->
  exists p', adjust_channel idx direction p = Returned tt p'
             /\ fit A B C p' /\ same_store p p'
             /\ key_hold_timers p' = key_hold_timers p
             /\ key_repeat_timers p' = key_repeat_timers p.
Proof.
  intros Hidx (Hs & Ha & Hb & Hc). destruct Hs as (Hi & Hl & Hd & Hk).
  unfold adjust_channel, bind, get.
  destruct (editing_mode p).
  - destruct (index_is_some (current_led_rgb p) idx ltac:(lia)) as [v Hv].
    rewrite Hv, assign_on_list by lia. cbn [modify].
    eexists. split; [reflexivity |]. split; [| now repeat split].
    fit_split; try assumption.
    { rewrite length_insert. exact Hl. }
    intros HB. destruct (Hb HB) as (H1 & H2 & H3).
    split; [| split; assumption].
    apply Forall_insert; [exact H1 |]. unfold chan_ok. lia.
  - destruct (index_is_some (current_display_rgb p) idx ltac:(lia)) as [v Hv].
    rewrite Hv, assign_on_list by lia. cbn [modify].
    eexists. split; [reflexivity |]. split; [| now repeat split].
    fit_split; try assumption.
    { rewrite length_insert. exact Hd. }
    intros HB. destruct (Hb HB) as (H1 & H2 & H3).
    split; [assumption | split; [| assumption]].
    apply Forall_insert; [exact H2 |]. unfold chan_ok. lia.
Qed.

Lemma store_at_primary_run (e : ColorEntry) (p : ColorPicker) :
  0 <= primary_index p < Z.of_nat (length (saved_colors p)) ->
  store_at_primary e p
  = Returned tt (set_saved_colors
                   (<[Z.to_nat (primary_index p) := e]> (saved_colors p)) p).
Proof.
  intros Hi. unfold store_at_primary, bind, get.
  rewrite assign_on_list by exact Hi. reflexivity.
Qed.

Lemma rgb_key_index (key : Key) (idx direction : Z) :
  rgb_key_map key = Some (idx, direction) -> 0 <= idx < 3.
Proof. destruct key; cbn; intros [= <- <-] || discriminate; lia. Qed.

Lemma keydown_normal_fit (A B C : Prop) (now : Z) (key : Key) :
  returning (fit A B C) (keydown_normal now key).
Proof.
  intros p Hp. pose proof Hp as (Hs & Ha & Hb & Hc).
  destruct Hs as (Hi & Hl & Hd & Hk).
  assert (Hne : bool_decide (saved_colors p = []) = false)
    by (apply bool_decide_eq_false_2;
        destruct (saved_colors p); [cbn in Hi; lia | discriminate]).
  unfold keydown_normal. unfold bind at 1. unfold get. cbv beta iota zeta.
  rewrite Hne. cbn [negb andb].
  destruct key; cbn [rgb_key_map]; cbv beta iota.
  all: try (eexists _, _; split; [reflexivity | exact Hp]).
  all: try (unfold bind at 1;
    match goal with
    | H : fit _ _ _ ?q |- context [adjust_channel ?i ?d ?q] =>
        destruct (adjust_channel_fit _ _ _ i d q ltac:(lia) H)
          as (p' & E & Hf & _)
    end;
    rewrite E; eexists _, _; (split; [reflexivity |]);
    destruct Hf as ((Hi' & Hl' & Hd' & Hk') & Ha' & Hb' & Hc');
    fit_split; try assumption;
    [ intros k; unfold dict_set; destruct (decide _); [discriminate | apply Hk']
    | intros _; discriminate ]).
  - (* K_UP *)
    cbn [when]. unfold bind at 1 2. cbn [modify].
    destruct (update_current_run
                (set_primary_index (Z.max 0 (primary_index p - 1)) p))
      as (e & He & E); [fit_fields; lia |].
    rewrite E. eexists _, _. split; [reflexivity |].
    fit_split; try assumption; try reflexivity; try lia.
    intros HB. destruct (Hb HB) as (_ & _ & H3).
    destruct (entry_ok _ _ _ H3 He). auto.
  - (* K_DOWN *)
    cbn [when]. unfold bind at 1 2. cbn [modify].
    destruct (update_current_run
                (set_primary_index
                   (Z.min (Z.of_nat (length (saved_colors p)) - 1)
                          (primary_index p + 1)) p))
      as (e & He & E); [fit_fields; lia |].
    rewrite E. eexists _, _. split; [reflexivity |].
    fit_split; try assumption; try reflexivity; try lia.
    intros HB. destruct (Hb HB) as (_ & _ & H3).
    destruct (entry_ok _ _ _ H3 He). auto.
  - (* K_PAGEUP *)
    eexists _, _. split; [reflexivity |].
    fit_split; try assumption. intros HA. specialize (Ha HA). lia.
  - (* K_PAGEDOWN *)
    eexists _, _. split; [reflexivity |].
    fit_split; try assumption. intros HA. specialize (Ha HA). lia.
  - (* K_s *)
    destruct (index_is_some _ _ Hi) as [e He].
    cbn [when]. rewrite He.
    eexists _, _. split; [reflexivity |]. fit_split; assumption.
  - (* K_a *)
    unfold bind at 1. cbn [modify]. unfold bind at 1. cbn [modify].
    unfold bind at 1.
    destruct (update_current_run
                (set_primary_index (Z.of_nat (length (saved_colors p)) + 1 - 1)
                   (set_saved_colors
                      (saved_colors p
                       ++ [("New Color"%string, (0, 0, 0), (0, 0, 0))]) p)))
      as (e & He & E).
    { fit_fields. rewrite length_app. cbn [length]. lia. }
    rewrite E. eexists _, _. split; [reflexivity |].
    assert (Hnew : Forall (fun e => rgb_ok (entry_led e)
                                    /\ rgb_ok (entry_display e))
                     [("New Color"%string, (0, 0, 0), (0, 0, 0))])
      by (constructor; [| constructor]; cbn; unfold rgb_ok, chan_ok; cbn; lia).
    fit_split; try assumption; try reflexivity.
    + rewrite length_app. cbn [length]. lia.
    + intros HA. specialize (Ha HA). rewrite length_app. lia.
    + intros HB. destruct (Hb HB) as (_ & _ & H3).
      assert (H4 := proj2 (Forall_app _ _ _) (conj H3 Hnew)).
      destruct (entry_ok _ _ _ H4 He). auto.
    + intros _. discriminate.
  - (* K_DELETE *)
    destruct (Z.ltb_spec 1 (Z.of_nat (length (saved_colors p)))) as [Hlen | Hlen];
      cbn [when]; [| eexists _, _; split; [reflexivity | exact Hp]].
    rewrite pop_on_list by exact Hi.
    set (l := delete (Z.to_nat (primary_index p)) (saved_colors p)).
    assert (Hll : length (saved_colors p) = S (length l)).
    { subst l. rewrite length_delete; [lia |]. apply lookup_lt_is_Some. lia. }
    unfold bind at 1 2. cbn [modify]. unfold bind at 1. cbn [modify].
    unfold bind at 1. cbn [modify]. unfold bind at 1.
    destruct (update_current_run
                (set_secondary_index
                   (Z.min (secondary_index p) (Z.of_nat (length l) - 1))
                   (set_primary_index
                      (Z.min (primary_index p) (Z.of_nat (length l) - 1))
                      (set_saved_colors l p))))
      as (e & He & E); [fit_fields; lia |].
    rewrite E. eexists _, _. split; [reflexivity |].
    assert (Hdel : B -> Forall (fun e => rgb_ok (entry_led e)
                                         /\ rgb_ok (entry_display e)) l).
    { intros HB. destruct (Hb HB) as (_ & _ & H3). subst l.
      now apply Forall_delete. }
    unfold save_colors, bind, get. cbn [modify].
    fit_split; try assumption; try reflexivity; try lia.
    + intros HA. specialize (Ha HA). lia.
    + intros HB. destruct (entry_ok _ _ _ (Hdel HB) He). auto.
Qed.

Lemma keydown_saving_fit (A B C : Prop) (key : Key) (unicode : string) :
  returning (fit A B C) (keydown_saving key unicode).
Proof.
  intros p Hp. pose proof Hp as (Hs & Ha & Hb & Hc).
  destruct Hs as (Hi & Hl & Hd & Hk).
  unfold keydown_saving. unfold bind at 1. unfold get. cbv beta iota.
  destruct key.
  all: try (eexists _, _; split; [reflexivity | exact Hp]).
  (* K_RETURN *)
  destruct (nonempty (input_text p)); cbn [when];
    [| eexists _, _; split; [reflexivity | exact Hp]].
  unfold bind at 1. rewrite store_at_primary_run by exact Hi.
  eexists _, _. split; [reflexivity |].
  unfold save_colors, bind, get. cbn [modify].
  fit_split; try assumption; try reflexivity.
  - rewrite length_insert. exact Hi.
  - intros HA. rewrite length_insert. exact (Ha HA).
  - intros HB. destruct (Hb HB) as (H1 & H2 & H3).
    split; [exact H1 | split; [exact H2 |]].
    apply Forall_insert; [exact H3 |].
    split; now apply tuple3_ok.
Qed.

Lemma handle_event_fit (A B C : Prop) (now : Z) (ev : Event) :
  returning (fit A B C) (handle_event now ev).
Proof.
  destruct ev as [| key | key unicode |]; unfold handle_event.
  - apply returning_ret.
  - intros p Hp. eexists _, _. split; [reflexivity |].
    destruct Hp as ((Hi & Hl & Hd & Hk) & Ha & Hb & Hc).
    fit_split; try assumption.
    intros k. unfold dict_del. destruct (decide _); [congruence | apply Hk].
  - intros p Hp. unfold bind at 1, get. cbv beta iota.
    destruct (is_saving p).
    + destruct (keydown_saving_fit A B C key unicode p Hp) as ([] & p' & E & Hf).
      unfold bind. rewrite E. eexists _, _. split; [reflexivity | exact Hf].
    + now apply keydown_normal_fit.
  - apply returning_ret.
Qed.

Lemma handle_input_fit (A B C : Prop) (now : Z) (events : list Event) :
  returning (fit A B C) (handle_input now events).
Proof.
  induction events as [| ev rest IH]; cbn [handle_input];
    [apply returning_ret |].
  apply returning_bind; [apply handle_event_fit |].
  intros [|]; [exact IH | apply returning_ret].
Qed.




Lemma hold_step_fit (A B C : Prop) (now : Z) (pressed : Key -> bool)
    (key : Key) (idx direction : Z) :
  0 <= idx < 3 ->
  returning (fit A B C) (hold_step now pressed (key, (idx, direction))).
Proof.
  intros Hidx p Hp. pose proof Hp as (Hs & Ha & Hb & Hc).
  destruct Hs as (Hi & Hl & Hd & Hk).
  unfold hold_step. unfold bind at 1. unfold get. cbv beta iota.
  destruct (key_hold_timers p key) as [held |] eqn:Eh;
    [| eexists _, _; split; [reflexivity | exact Hp]].
  destruct (pressed key && (400 <? now - held)); cbn [when];
    [| eexists _, _; split; [reflexivity | exact Hp]].
  destruct (key_repeat_timers p key) as [last |] eqn:Er;
    [| exfalso; apply (Hk key); [rewrite Eh; discriminate | exact Er]].
  destruct (30 <? now - last); cbn [when];
    [| eexists _, _; split; [reflexivity | exact Hp]].
  unfold bind at 1. cbn [modify]. unfold bind at 1.
  assert (Hp1 : fit A B C (set_key_repeat_timers
                             (dict_set (key_repeat_timers p) key now) p)).
  { fit_split; try assumption.
    intros k Hk'. unfold dict_set. destruct (decide _); [discriminate |].
    now apply Hk. }
  destruct (adjust_channel_fit A B C idx direction _ Hidx Hp1)
    as (p' & E & Hf & _).
  rewrite E. eexists _, _. split; [reflexivity |].
  destruct Hf as ((Hi' & Hl' & Hd' & Hk') & Ha' & Hb' & Hc').
  fit_split; try assumption. intros _. discriminate.
Qed.

Lemma process_key_holds_fit (A B C : Prop) (now : Z) (pressed : Key -> bool) :
  returning (fit A B C) (process_key_holds now pressed).
Proof.
  intros p Hp. unfold process_key_holds. unfold bind at 1, get.
  cbv beta iota.
  destruct (is_saving p); [eexists _, _; split; [reflexivity | exact Hp] |].
  revert p Hp. apply returning_for_each. unfold hold_key_map.
  repeat (constructor; [apply hold_step_fit; lia |]). constructor.
Qed.

(** After the write-back of a frame, outside the rename box, nothing is
    pending and (for a picker that was in step with its file) the file
    holds the store. *)
Lemma flush_changes_fit (A B C : Prop) (p : ColorPicker) :
  fit A B C p ->
  exists p', flush_changes p = Returned tt p'
             /\ fit A B C p'
             /\ (is_saving p' = false ->
                 colors_changed p' = false
                 /\ (C -> color_file p' = Some (file_text (saved_colors p')))).
Proof.
  intros Hp. pose proof Hp as (Hs & Ha & Hb & Hc).
  destruct Hs as (Hi & Hl & Hd & Hk).
  assert (Hne : bool_decide (saved_colors p = []) = false)
    by (apply bool_decide_eq_false_2;
        destruct (saved_colors p); [cbn in Hi; lia | discriminate]).
  unfold flush_changes. unfold bind at 1. cbn [modify]. unfold bind at 1, get.
  cbv beta iota.
  cbn [colors_changed saved_colors is_saving primary_index set_frame_counter
       current_led_rgb current_display_rgb].
  rewrite Hne. cbn [negb andb].
  destruct (colors_changed p) eqn:Ech; cbn [when].
  2:{ eexists. split; [reflexivity |]. split; [exact Hp |].
      intros _. split; [exact Ech |]. intros HC.
      cbn [color_file saved_colors set_frame_counter]. now apply Hc. }
  destruct (is_saving p) eqn:Esav; cbn [negb when].
  { eexists. split; [reflexivity |]. split; [exact Hp |].
    cbn [is_saving set_frame_counter]. congruence. }
  destruct (index_is_some _ _ Hi) as [[[n l] d] He]. rewrite He.
  unfold bind at 1. rewrite store_at_primary_run by exact Hi.
  unfold save_colors, bind, get. cbn [modify].
  eexists. split; [reflexivity |]. split.
  - fit_split; try assumption; try reflexivity.
    + rewrite length_insert. exact Hi.
    + intros HA. rewrite length_insert. exact (Ha HA).
    + intros HB. destruct (Hb HB) as (H1 & H2 & H3).
      split; [exact H1 | split; [exact H2 |]].
      apply Forall_insert; [exact H3 |]. split; now apply tuple3_ok.
  - intros _. split; reflexivity.
Qed.

Lemma run_iteration_fit (A B C : Prop) (now : Z) (pressed : Key -> bool)
    (events : list Event) (p : ColorPicker) :
  fit A B C p ->
  exists p', run_iteration now pressed events p = Returned tt p'
             /\ fit A B C p'
             /\ (is_saving p' = false ->
                 colors_changed p' = false
                 /\ (C -> color_file p' = Some (file_text (saved_colors p')))).
Proof.
  intros Hp. unfold run_iteration.
  destruct (handle_input_fit A B C now events p Hp) as (r & p1 & E1 & Hp1).
  unfold bind at 1. rewrite E1.
  destruct (process_key_holds_fit A B C now pressed p1 Hp1)
    as ([] & p2 & E2 & Hp2).
  unfold bind at 1. rewrite E2.
  exact (flush_changes_fit A B C p2 Hp2).
Qed.


(** ** Start-up *)

Lemma load_colors_returns (p : ColorPicker) :
  load_colors p = Returned tt (exec load_colors p).
Proof.
  unfold exec, load_colors, save_colors, bind, get, modify, when, ret.
  destruct (color_file p) as [txt |]; [| reflexivity].
  destruct (read_lines ([], false) (file_lines txt)) as [[colors [|]] |];
    cbn; try reflexivity;
    match goal with
    | |- context [if ?c then _ else _] => destruct c
    end; reflexivity.
Qed.

Lemma load_colors_frame (p : ColorPicker) :
  let p' := exec load_colors p in
  primary_index p' = primary_index p
  /\ secondary_index p' = secondary_index p
  /\ current_led_rgb p' = current_led_rgb p
  /\ current_display_rgb p' = current_display_rgb p
  /\ key_hold_timers p' = key_hold_timers p
  /\ key_repeat_timers p' = key_repeat_timers p
  /\ is_saving p' = is_saving p
  /\ colors_changed p' = colors_changed p.
Proof.
  cbv zeta. rewrite load_colors_run.
  destruct (color_file p) as [txt |]; [| now repeat split].
  destruct (read_lines ([], false) (file_lines txt)) as [[colors [|]] |];
    cbv zeta; try (now repeat split);
    destruct (length colors <? 2)%nat; now repeat split.
Qed.

(** X13: whatever the colour file holds, and when there is none, [__init__]
    returns a picker on which the main loop can run: the store is not
    empty, the primary selection is its first entry and the colour being
    edited is that entry's.  The secondary selection, index 1, is on the
    store exactly when the store has two entries or more. *)
Theorem init_sound (file : option string) :
  exists p,
    init (new_picker file) = Returned tt p
    /\ sound p
    /\ primary_index p = 0 /\ secondary_index p = 1
    /\ (exists e rest,
          saved_colors p = e :: rest
          /\ current_led_rgb p = list3 (entry_led e)
          /\ current_display_rgb p = list3 (entry_display e))
    /\ (sec_ok p <-> (2 <= length (saved_colors p))%nat).
Proof.
  set (p0 := new_picker file).
  pose proof (stocked_load_colors p0) as Hst. unfold stocked in Hst.
  pose proof (load_colors_frame p0) as Hfr. cbv zeta in Hfr.
  destruct Hfr as (H1 & H2 & H3 & H4 & H5 & H6 & H7 & H8).
  set (p1 := exec load_colors p0) in *.
  unfold init. unfold bind at 1. rewrite load_colors_returns. fold p1.
  unfold bind at 1, get. cbv beta iota.
  rewrite bool_decide_eq_false_2
    by (destruct (saved_colors p1); [cbn in Hst; lia | discriminate]).
  cbn [negb when].
  destruct (update_current_run p1) as (e & He & E);
    [rewrite H1; cbn; lia |].
  rewrite E. eexists. split; [reflexivity |].
  rewrite H1 in He. change (primary_index p0) with 0 in He.
  destruct (saved_colors p1) as [| e0 rest] eqn:Esc; [cbn in Hst; lia |].
  cbn in He. injection He as <-.
  split; [| split; [| split; [| split]]].
  - fit_fields. rewrite Esc, H1, H5, H6. cbn. repeat split; try lia.
    intros k Hk. exact Hk.
  - fit_fields. rewrite H1. reflexivity.
  - fit_fields. rewrite H2. reflexivity.
  - exists e0, rest. fit_fields. rewrite Esc. repeat split.
  - fit_fields. rewrite H2, Esc. change (secondary_index p0) with 1.
    cbn [length]. lia.
Qed.


(** ** One iteration of the main loop *)

(** X14: on a picker whose primary selection is on the store, whose colour
    being edited has three channels and whose held keys have their repeat
    timers, one iteration of the main loop returns, whatever events are
    queued and whatever keys are held: no index is out of range and no
    timer is missing.  The picker is left in the same condition, and the
    secondary selection stays on the store when it was. *)
Theorem picker_loop_safe (now : Z) (pressed : Key -> bool)
    (events : list Event) (p : ColorPicker) :
  sound p ->
  exists p',
    run_iteration now pressed events p = Returned tt p'
    /\ sound p' /\ (sec_ok p -> sec_ok p').
Proof.
  intros Hs.
  destruct (run_iteration_fit (sec_ok p) False False now pressed events p)
    as (p' & E & (Hs' & Ha' & _) & _).
  { split; [exact Hs |]. split; [auto |]. split; intros []. }
  exists p'. auto.
Qed.

Lemma picker_loop_safe_witness :
  exists p',
    run_iteration 1000 (fun _ => true)
      [KEYDOWN K_r EmptyString; KEYDOWN K_a EmptyString;
       KEYDOWN K_DELETE EmptyString; KEYDOWN K_DOWN EmptyString;
       KEYUP K_r] picker_ready
    = Returned tt p'
    /\ sound p' /\ (sec_ok picker_ready -> sec_ok p').
Proof.
  apply (picker_loop_safe 1000 (fun _ => true)
           [KEYDOWN K_r EmptyString; KEYDOWN K_a EmptyString;
            KEYDOWN K_DELETE EmptyString; KEYDOWN K_DOWN EmptyString;
            KEYUP K_r] picker_ready).
  vm_compute. repeat split; try discriminate. intros k H. exact H.
Defined.

(** X15: editing never leaves the byte range: when every channel of the store
    and of the colour being edited lies in 0..255, the same holds after
    one iteration of the main loop, whatever the events and held keys. *)
Theorem edited_colours_stay_bytes (now : Z) (pressed : Key -> bool)
    (events : list Event) (p : ColorPicker) :
  sound p -> in_gamut p ->
  in_gamut (exec (run_iteration now pressed events) p).
Proof.
  intros Hs Hg.
  destruct (run_iteration_fit False True False now pressed events p)
    as (p' & E & (_ & _ & Hb' & _) & _).
  { split; [exact Hs |]. split; [intros [] |]. split; [auto | intros []]. }
  unfold exec. rewrite E. now apply Hb'.
Qed.

Lemma edited_colours_stay_bytes_witness :
  in_gamut (exec (run_iteration 1000 (fun _ => true)
                    [KEYDOWN K_r EmptyString; KEYDOWN K_TAB EmptyString;
                     KEYDOWN K_h EmptyString] ) picker_ready).
Proof.
  apply (edited_colours_stay_bytes 1000 (fun _ => true)
           [KEYDOWN K_r EmptyString; KEYDOWN K_TAB EmptyString;
            KEYDOWN K_h EmptyString] picker_ready).
  - vm_compute. repeat split; try discriminate. intros k H. exact H.
  - unfold in_gamut, picker_ready.
    repeat split; repeat constructor; vm_compute; discriminate.
Defined.

(** X16: the colour file follows the store.  On a picker whose file holds the
    store unless a change is pending, one iteration of the main loop keeps
    that, and when the iteration ends outside the rename box nothing is
    pending and the file holds exactly the lines of the store. *)
Theorem file_follows_store (now : Z) (pressed : Key -> bool)
    (events : list Event) (p : ColorPicker) :
  sound p -> synced p ->
  let p' := exec (run_iteration now pressed events) p in
  synced p'
  /\ (is_saving p' = false ->
      colors_changed p' = false
      /\ color_file p' = Some (file_text (saved_colors p'))).
Proof.
  intros Hs Hsync. cbv zeta.
  destruct (run_iteration_fit False False True now pressed events p)
    as (p' & E & (_ & _ & _ & Hc') & Hq).
  { split; [exact Hs |]. split; [intros [] |]. split; [intros [] | auto]. }
  unfold exec. rewrite E. cbn [final]. split; [now apply Hc' |].
  intros Hsav. destruct (Hq Hsav) as [H1 H2]. split; [exact H1 | now apply H2].
Qed.

Lemma file_follows_store_witness :
  let p' := exec (run_iteration 1000 (fun _ => false)
                    [KEYDOWN K_a EmptyString; KEYDOWN K_y EmptyString])
                 picker_ready in
  synced p'
  /\ (is_saving p' = false ->
      colors_changed p' = false
      /\ color_file p' = Some (file_text (saved_colors p'))).
Proof.
  apply (file_follows_store 1000 (fun _ => false)
           [KEYDOWN K_a EmptyString; KEYDOWN K_y EmptyString] picker_ready).
  - vm_compute. repeat split; try discriminate. intros k H. exact H.
  - intros _. vm_compute. reflexivity.
Defined.


(** ** A colour file with a malformed number *)

Lemma ints_numbers (parts : list string) :
  ints parts = None <-> numbers parts = false.
Proof.
  induction parts as [| c parts IH]; cbn [ints numbers forallb].
  - split; discriminate.
  - fold (numbers parts). destruct (Text.int c) as [z |] eqn:E.
    + rewrite bool_decide_eq_true_2 by discriminate. cbn [andb].
      destruct (ints parts); [| tauto].
      split; [discriminate |]. intros H. apply IH in H. discriminate.
    + rewrite bool_decide_eq_false_2 by (intros H; now apply H).
      split; reflexivity.
Qed.

Lemma numbers_app (a b : list string) :
  numbers (a ++ b) = numbers a && numbers b.
Proof. apply forallb_app. Qed.

Lemma read_line_garbled (acc : list ColorEntry * bool) (line : string) :
  read_line acc line = None <-> garbled line = true.
Proof.
  unfold read_line, garbled. cbv zeta.
  set (s := strip line). set (parts := split comma s).
  destruct (nonempty s); cbn [negb andb]; [| split; discriminate].
  destruct (length parts =? 4)%nat eqn:E4.
  - cbn [orb andb]. rewrite negb_true_iff, <- ints_numbers.
    destruct (ints (drop 1 parts)); split; congruence.
  - destruct (length parts =? 7)%nat eqn:E7; cbn [orb andb];
      [| split; discriminate].
    apply Nat.eqb_eq in E7.
    rewrite negb_true_iff, <- ints_numbers.
    assert (Hsplit : drop 1 parts
                     = take 3 (drop 1 parts) ++ take 3 (drop 4 parts)).
    { do 8 (destruct parts as [| ? parts]; try discriminate). reflexivity. }
    destruct (ints (take 3 (drop 1 parts))) as [led |] eqn:El.
    + destruct (ints (take 3 (drop 4 parts))) as [disp |] eqn:Ed.
      * split; [discriminate |]. rewrite ints_numbers, Hsplit, numbers_app.
        assert (H1 : numbers (take 3 (drop 1 parts)) = true).
        { destruct (numbers (take 3 (drop 1 parts))) eqn:N; [reflexivity |].
          apply ints_numbers in N. congruence. }
        assert (H2 : numbers (take 3 (drop 4 parts)) = true).
        { destruct (numbers (take 3 (drop 4 parts))) eqn:N; [reflexivity |].
          apply ints_numbers in N. congruence. }
        rewrite H1, H2. discriminate.
      * split; [intros _ | reflexivity].
        rewrite ints_numbers, Hsplit, numbers_app.
        apply ints_numbers in Ed. rewrite Ed. apply andb_false_r.
    + split; [intros _ | reflexivity].
      rewrite ints_numbers, Hsplit, numbers_app.
      apply ints_numbers in El. rewrite El. reflexivity.
Qed.

Lemma read_lines_garbled (lines : list string) (acc : list ColorEntry * bool) :
  read_lines acc lines = None <-> existsb garbled lines = true.
Proof.
  revert acc. induction lines as [| line rest IH]; intros acc;
    cbn [read_lines existsb]; [split; discriminate |].
  destruct (read_line acc line) as [acc' |] eqn:E.
  - assert (Hg : garbled line = false).
    { destruct (garbled line) eqn:G; [| reflexivity].
      apply (read_line_garbled acc) in G. congruence. }
    rewrite Hg. cbn [orb]. apply IH.
  - apply read_line_garbled in E. rewrite E. split; reflexivity.
Qed.

(** X17: one malformed number spoils the whole file: when some line of the
    colour file has four or seven fields and a field after the name is not
    an integer literal, [load_colors] drops everything it has read and
    leaves the three built-in fallback colours in the store; the file is
    not touched.  Without such a line the fallback is not used: the store
    is what the lines give, plus ["Black"] when that is less than two
    entries. *)
Theorem load_colors_garbled (p : ColorPicker) (txt : string) :
  color_file p = Some txt ->
  (existsb garbled (file_lines txt) = true ->
   saved_colors (exec load_colors p) = fallback_colors
   /\ color_file (exec load_colors p) = Some txt)
  /\ (existsb garbled (file_lines txt) = false ->
      exists colors converted,
        read_lines ([], false) (file_lines txt) = Some (colors, converted)
        /\ saved_colors (exec load_colors p)
           = colors ++ (if (length colors <? 2)%nat then [black] else [])).
Proof.
  intros Hfile. rewrite load_colors_run, Hfile. split.
  - intros Hg. apply (read_lines_garbled _ ([], false)) in Hg.
    rewrite Hg. split; [reflexivity | exact Hfile].
  - intros Hg.
    destruct (read_lines ([], false) (file_lines txt))
      as [[colors converted] |] eqn:E.
    + exists colors, converted. split; [reflexivity |]. cbv zeta.
      destruct (length colors <? 2)%nat, converted; cbn;
        rewrite ?app_nil_r; reflexivity.
    + apply read_lines_garbled in E. congruence.
Qed.

Lemma load_colors_garbled_witness :
  saved_colors (exec load_colors (new_picker (Some spoiled_file)))
  = fallback_colors
  /\ color_file (exec load_colors (new_picker (Some spoiled_file)))
     = Some spoiled_file.
Proof.
  apply (proj1 (load_colors_garbled (new_picker (Some spoiled_file))
                  spoiled_file eq_refl)).
  vm_compute. reflexivity.
Defined.


(** ** Renaming an entry *)

Lemma finish_rename (now : Z) (unicode : string) (keys : list (Key * string)) :
  forall (p : ColorPicker) (t : string),
    is_saving p = true -> input_text p = t ->
    0 <= primary_index p < Z.of_nat (length (saved_colors p)) ->
    forallb (fun k => types k.1) keys = true ->
    nonempty (t +:+ typed_text keys) = true ->
    exists p',
      handle_input now (typing keys ++ [KEYDOWN K_RETURN unicode]) p
      = Returned true p'
      /\ saved_colors p'
         = <[Z.to_nat (primary_index p) :=
               (t +:+ typed_text keys, tuple3 (current_led_rgb p),
                tuple3 (current_display_rgb p))]> (saved_colors p)
      /\ color_file p' = Some (file_text (saved_colors p'))
      /\ is_saving p' = false /\ input_text p' = EmptyString
      /\ primary_index p' = primary_index p.
Proof.
  induction keys as [| [k u] keys IH]; intros p t Hsav Ht Hi Hkeys Hne.
  - cbn [typing map app handle_input typed_text Text.concat] in *.
    rewrite append_empty_r in *.
    unfold bind at 1. unfold handle_event. unfold bind at 1, get.
    cbv beta iota. rewrite Hsav. unfold bind at 1.
    unfold keydown_saving. unfold bind at 1, get. cbv beta iota.
    rewrite Ht, Hne. cbn [when].
    unfold bind at 1. rewrite store_at_primary_run by exact Hi.
    unfold save_colors, bind, get. cbn [modify ret handle_input].
    eexists. split; [reflexivity |]. now repeat split.
  - cbn [forallb] in Hkeys. apply andb_true_iff in Hkeys as [Hk Hkeys].
    cbn [fst] in Hk.
    destruct (IH (set_input_text (t +:+ u) p) (t +:+ u)) as (p' & E & H);
      try assumption; try reflexivity.
    { unfold typed_text in *. cbn [map snd Text.concat] in Hne.
      rewrite append_assoc. exact Hne. }
    exists p'. split.
    + cbn [typing map app handle_input fst snd].
      unfold bind at 1. unfold handle_event. unfold bind at 1, get.
      cbv beta iota. rewrite Hsav. unfold bind at 1.
      unfold keydown_saving. unfold bind at 1, get. cbv beta iota.
      rewrite Ht.
      destruct k; try discriminate; cbn [modify ret]; exact E.
    + unfold typed_text in *. cbn [map snd Text.concat].
      rewrite <- append_assoc. exact H.
Qed.

(** X18: pressing S, typing, pressing RETURN: on a picker outside the rename
    box with its primary selection on the store, the selected entry gets
    the name it had followed by the characters typed, and the colours being
    edited; every other entry stays; the file is rewritten to hold the
    store, and the box is closed.  (Any key but RETURN, BACKSPACE and
    ESCAPE types, the editing keys included.) *)
Theorem rename_by_typing (now : Z) (u0 u1 : string)
    (keys : list (Key * string)) (p : ColorPicker) (e : ColorEntry) :
  is_saving p = false ->
  0 <= primary_index p < Z.of_nat (length (saved_colors p)) ->
  index (saved_colors p) (primary_index p) = Some e ->
  forallb (fun k => types k.1) keys = true ->
  nonempty (entry_name e +:+ typed_text keys) = true ->
  exists p',
    handle_input now
      (KEYDOWN K_s u0 :: typing keys ++ [KEYDOWN K_RETURN u1]) p
    = Returned true p'
    /\ saved_colors p'
       = <[Z.to_nat (primary_index p) :=
             (entry_name e +:+ typed_text keys, tuple3 (current_led_rgb p),
              tuple3 (current_display_rgb p))]> (saved_colors p)
    /\ color_file p' = Some (file_text (saved_colors p'))
    /\ is_saving p' = false /\ input_text p' = EmptyString.
Proof.
  intros Hsav Hi He Hkeys Hne.
  assert (Hnil : bool_decide (saved_colors p = []) = false)
    by (apply bool_decide_eq_false_2;
        destruct (saved_colors p); [cbn in Hi; lia | discriminate]).
  destruct (finish_rename now u1 keys
              (set_is_saving true (set_input_text (entry_name e) p))
              (entry_name e))
    as (p' & E & H1 & H2 & H3 & H4 & _); try assumption; try reflexivity.
  exists p'. split; [| now repeat split].
  cbn [handle_input]. unfold bind at 1. unfold handle_event.
  unfold bind at 1, get. cbv beta iota. rewrite Hsav.
  unfold keydown_normal. unfold bind at 1, get. cbv beta iota zeta.
  rewrite Hnil. cbn [negb when]. rewrite He.
  unfold bind at 1 2. cbn [modify ret]. exact E.
Qed.

Lemma rename_by_typing_witness :
  exists p',
    handle_input 1000
      (KEYDOWN K_s "s"
       :: typing [(K_other 32, " "%string); (K_r, "r"%string)]
       ++ [KEYDOWN K_RETURN EmptyString]) picker_ready
    = Returned true p'
    /\ saved_colors p'
       = <[Z.to_nat (primary_index picker_ready) :=
             (entry_name ("Default Red"%string, (255, 0, 0), (200, 0, 0))
              +:+ typed_text [(K_other 32, " "%string); (K_r, "r"%string)],
              tuple3 (current_led_rgb picker_ready),
              tuple3 (current_display_rgb picker_ready))]>
           (saved_colors picker_ready)
    /\ color_file p' = Some (file_text (saved_colors p'))
    /\ is_saving p' = false /\ input_text p' = EmptyString.
Proof.
  apply (rename_by_typing 1000 "s" EmptyString
           [(K_other 32, " "%string); (K_r, "r"%string)] picker_ready
           ("Default Red"%string, (255, 0, 0), (200, 0, 0)));
    [reflexivity | vm_compute; split; [discriminate | reflexivity]
    | reflexivity | reflexivity | reflexivity].
Defined.


(** ** The LED strip *)

Lemma write_led_run (c : RGB) (i : Z) (px : Strip) :
  0 <= i < Z.of_nat (length (leds px)) ->
  write_led c i (Some px)
  = Returned tt (Some {| leds := <[Z.to_nat i := c]> (leds px);
                         shown := shown px |}).
Proof.
  intros Hi. unfold write_led, bind, get.
  rewrite assign_on_list by exact Hi. reflexivity.
Qed.

(** A loop of LED writes over indices that are on the strip returns, and
    changes the buffer at those indices only. *)
Lemma paint_leds_list (f : Z -> RGB) (idxs : list Z) :
  forall px : Strip,
    Forall (fun i => 0 <= i < Z.of_nat (length (leds px))) idxs ->
    exists l,
      for_each (fun i => write_led (f i) i) idxs (Some px)
      = Returned tt (Some {| leds := l; shown := shown px |})
      /\ length l = length (leds px)
      /\ forall n : nat,
           (n < length (leds px))%nat ->
           l !! n = if bool_decide (Z.of_nat n ∈ idxs)
                    then Some (f (Z.of_nat n)) else leds px !! n.
Proof.
  induction idxs as [| i rest IH]; intros px Hall.
  - exists (leds px). split; [destruct px; reflexivity |].
    split; [reflexivity |]. intros n Hn.
    rewrite bool_decide_eq_false_2; [reflexivity | apply not_elem_of_nil].
  - inversion Hall as [| ? ? Hi Hrest]; subst.
    set (px1 := {| leds := <[Z.to_nat i := f i]> (leds px);
                   shown := shown px |}).
    destruct (IH px1) as (l & E & Hlen & Hl).
    { cbn [leds px1]. rewrite length_insert. exact Hrest. }
    exists l. split; [| split].
    + cbn [for_each]. unfold bind at 1.
      rewrite (write_led_run (f i) i px Hi). fold px1. exact E.
    + rewrite Hlen. cbn [leds px1]. apply length_insert.
    + intros n Hn.
      rewrite Hl by (cbn [leds px1]; now rewrite length_insert).
      cbn [leds px1].
      destruct (decide (Z.of_nat n = i)) as [<- | Hne].
      * rewrite Nat2Z.id, list_lookup_insert_eq by exact Hn.
        rewrite (bool_decide_eq_true_2 (Z.of_nat n ∈ Z.of_nat n :: rest))
          by (apply elem_of_cons; now left).
        now destruct (bool_decide (Z.of_nat n ∈ rest)).
      * rewrite list_lookup_insert_ne by lia.
        destruct (bool_decide (Z.of_nat n ∈ rest)) eqn:Er.
        -- apply bool_decide_eq_true_1 in Er.
           rewrite bool_decide_eq_true_2; [reflexivity |].
           apply elem_of_cons. now right.
        -- apply bool_decide_eq_false_1 in Er.
           rewrite bool_decide_eq_false_2; [reflexivity |].
           intros [? | ?]%elem_of_cons; [congruence | contradiction].
Qed.

Lemma paint_leds (f : Z -> RGB) (a b : Z) (px : Strip) :
  0 <= a -> b <= Z.of_nat (length (leds px)) ->
  exists l,
    paint f a b (Some px) = Returned tt (Some {| leds := l; shown := shown px |})
    /\ length l = length (leds px)
    /\ (forall n : nat, a <= Z.of_nat n < b -> l !! n = Some (f (Z.of_nat n)))
    /\ (forall n : nat, ~ a <= Z.of_nat n < b -> l !! n = leds px !! n).
Proof.
  intros Ha Hb. unfold paint.
  destruct (paint_leds_list f (range a b) px) as (l & E & Hlen & Hl).
  { apply Forall_forall. intros i Hi. unfold range in Hi.
    apply elem_of_seqZ in Hi. lia. }
  exists l. split; [exact E |]. split; [exact Hlen |]. split.
  - intros n Hn. rewrite Hl by lia.
    rewrite bool_decide_eq_true_2; [reflexivity |].
    unfold range. apply elem_of_seqZ. lia.
  - intros n Hn. destruct (Nat.lt_ge_cases n (length (leds px))) as [Hlt | Hge].
    + rewrite Hl by exact Hlt.
      rewrite bool_decide_eq_false_2; [reflexivity |].
      unfold range. rewrite elem_of_seqZ. lia.
    + rewrite !lookup_ge_None_2 by lia. reflexivity.
Qed.

Lemma ret_leds (px : Strip) :
  exists l,
    @ret (option Strip) unit tt (Some px)
    = Returned tt (Some {| leds := l; shown := shown px |})
    /\ length l = length (leds px)
    /\ forall n : nat, l !! n = leds px !! n.
Proof. exists (leds px). destruct px. now repeat split. Qed.

Lemma lit_full (px : Strip) :
  TOTAL_LED_COUNT <= Z.of_nat (length (leds px)) -> lit (Some px) = true.
Proof.
  intros Hlen. unfold lit. destruct (leds px); [| reflexivity].
  exfalso. revert Hlen. vm_compute. intros H. now apply H.
Qed.

Section LedFacts.

Variable dim : Z -> Z -> Z.

(** The base section: written over the first [BASE_LED_COUNT] LEDs. *)
Lemma base_strip_run (p : ColorPicker) (pri sec : RGB) (px : Strip) :
  BASE_LED_COUNT <= Z.of_nat (length (leds px)) ->
  exists l,
    base_strip_animation p pri sec (Some px)
    = Returned tt (Some {| leds := l; shown := shown px |})
    /\ length l = length (leds px)
    /\ (forall n : nat, BASE_LED_COUNT <= Z.of_nat n -> l !! n = leds px !! n)
    /\ (animation_mode p = 0 ->
        forall n : nat, Z.of_nat n < BASE_LED_COUNT -> l !! n = Some pri)
    /\ (animation_mode p = 1 ->
        forall n : nat, Z.of_nat n < BASE_LED_COUNT ->
          l !! n = Some (if (Z.of_nat n + frame_counter p / 2) mod 10 <? 5
                         then pri else sec)).
Proof.
  intros Hlen. unfold base_strip_animation.
  destruct (Z.eqb_spec (animation_mode p) 0) as [E0 | E0].
  - destruct (paint_leds (fun _ => pri) 0 BASE_LED_COUNT px)
      as (l & E & Hl & Hin & Hout); [lia | lia |].
    exists l. split; [exact E |]. split; [exact Hl |].
    split; [intros n Hn; apply Hout; lia |].
    split; [intros _ n Hn; apply Hin; lia | intros H1; lia].
  - destruct (Z.eqb_spec (animation_mode p) 1) as [E1 | E1].
    + cbv zeta.
      destruct (paint_leds
                  (fun i => if (i + frame_counter p / 2) mod 10 <? 5
                            then pri else sec) 0 BASE_LED_COUNT px)
        as (l & E & Hl & Hin & Hout); [lia | lia |].
      exists l. split; [exact E |]. split; [exact Hl |].
      split; [intros n Hn; apply Hout; lia |].
      split; [intros H0; lia | intros _ n Hn; apply Hin; lia].
    + destruct (ret_leds px) as (l & E & Hl & Hsame).
      exists l. split; [exact E |]. split; [exact Hl |].
      split; [intros n _; apply Hsame |]. split; intros; lia.
Qed.

(** The overhead section: written from [OVERHEAD_START_INDEX] up to
    [TOTAL_LED_COUNT]. *)
Lemma overhead_strip_run (p : ColorPicker) (pri sec : RGB) (px : Strip) :
  TOTAL_LED_COUNT <= Z.of_nat (length (leds px)) ->
  exists l,
    overhead_strip_animation dim p pri sec (Some px)
    = Returned tt (Some {| leds := l; shown := shown px |})
    /\ length l = length (leds px)
    /\ (forall n : nat,
          ~ OVERHEAD_START_INDEX <= Z.of_nat n < TOTAL_LED_COUNT ->
          l !! n = leds px !! n)
    /\ (forall n : nat,
          OVERHEAD_START_INDEX <= Z.of_nat n < TOTAL_LED_COUNT ->
          (overhead_mode p = 0 -> l !! n = Some C_BLACK)
          /\ (overhead_mode p = 1 -> l !! n = Some pri)
          /\ (overhead_mode p = 2 -> l !! n = Some sec)).
Proof.
  intros Hlen. unfold overhead_strip_animation.
  assert (H0 : 0 <= OVERHEAD_START_INDEX) by (vm_compute; discriminate).
  destruct (Z.eqb_spec (overhead_mode p) 0) as [E0 | E0];
    [| destruct (Z.eqb_spec (overhead_mode p) 1) as [E1 | E1];
       [| destruct (Z.eqb_spec (overhead_mode p) 2) as [E2 | E2];
          [| destruct (Z.eqb_spec (overhead_mode p) 3) as [E3 | E3];
             [| destruct (Z.eqb_spec (overhead_mode p) 4) as [E4 | E4]]]]];
    cbv zeta.
  6:{ destruct (ret_leds px) as (l & E & Hl & Hsame).
      exists l. split; [exact E |]. split; [exact Hl |].
      split; [intros n _; apply Hsame |].
      intros n Hn. repeat split; intros; lia. }
  all: match goal with
       | |- context [paint ?f _ _] =>
           destruct (paint_leds f OVERHEAD_START_INDEX TOTAL_LED_COUNT px
                       H0 Hlen) as (l & E & Hl & Hin & Hout)
       end;
    exists l; (split; [exact E |]); (split; [exact Hl |]);
    (split; [exact Hout |]);
    intros n Hn; repeat split; intros; try lia; apply Hin; exact Hn.
Qed.

Lemma blank_strip_run (px : Strip) :
  blank_strip_section (Some px) = Returned tt (Some px).
Proof. destruct px. reflexivity. Qed.

(** [update_leds] once the secondary colour is there. *)
Lemma update_leds_run (p : ColorPicker) (sec : RGB) (px : Strip) :
  TOTAL_LED_COUNT <= Z.of_nat (length (leds px)) ->
  secondary_led_color p = Some sec ->
  exists l,
    update_leds dim p (Some px)
    = Returned tt (Some {| leds := l; shown := S (shown px) |})
    /\ length l = length (leds px)
    /\ (forall n : nat, TOTAL_LED_COUNT <= Z.of_nat n -> l !! n = leds px !! n)
    /\ (forall n : nat, Z.of_nat n < BASE_LED_COUNT ->
          (animation_mode p = 0 -> l !! n = Some (tuple3 (current_led_rgb p)))
          /\ (animation_mode p = 1 ->
              l !! n = Some (if (Z.of_nat n + frame_counter p / 2) mod 10 <? 5
                             then tuple3 (current_led_rgb p) else sec)))
    /\ (forall n : nat,
          OVERHEAD_START_INDEX <= Z.of_nat n < TOTAL_LED_COUNT ->
          (overhead_mode p = 0 -> l !! n = Some C_BLACK)
          /\ (overhead_mode p = 1 -> l !! n = Some (tuple3 (current_led_rgb p)))
          /\ (overhead_mode p = 2 -> l !! n = Some sec)).
Proof.
  intros Hlen Hsec.
  assert (Hb : BASE_LED_COUNT <= Z.of_nat (length (leds px)))
    by (unfold TOTAL_LED_COUNT, BLANK_LED_COUNT, OVERHEAD_LED_COUNT in Hlen; lia).
  assert (Hlit : lit (Some px) = true) by (apply lit_full; exact Hlen).
  unfold update_leds. unfold bind at 1, get. cbv beta iota zeta.
  rewrite Hlit, Hsec. cbn [negb].
  destruct (base_strip_run p (tuple3 (current_led_rgb p)) sec px Hb)
    as (l1 & E1 & Hl1 & Hup1 & Hm0 & Hm1).
  unfold bind at 1. rewrite E1.
  unfold bind at 1. rewrite blank_strip_run.
  destruct (overhead_strip_run p (tuple3 (current_led_rgb p)) sec
              {| leds := l1; shown := shown px |})
    as (l2 & E2 & Hl2 & Hout2 & Hin2).
  { cbn [leds]. rewrite Hl1. exact Hlen. }
  unfold bind at 1. rewrite E2. cbn [leds shown] in *.
  exists l2. split; [reflexivity |]. split; [congruence |].
  assert (Hos : OVERHEAD_START_INDEX = BASE_LED_COUNT) by reflexivity.
  split; [| split].
  - intros n Hn. rewrite Hout2 by lia. apply Hup1.
    unfold TOTAL_LED_COUNT, BLANK_LED_COUNT, OVERHEAD_LED_COUNT in Hn. lia.
  - intros n Hn. rewrite Hout2 by lia. split; intros Hm; auto.
  - exact Hin2.
Qed.

Lemma secondary_off_store (p : ColorPicker) :
  secondary_led_color p = None
  <-> saved_colors p <> []
      /\ ~ (- Z.of_nat (length (saved_colors p)) <= secondary_index p
            < Z.of_nat (length (saved_colors p))).
Proof.
  unfold secondary_led_color.
  destruct (decide (saved_colors p = [])) as [E | E].
  - rewrite bool_decide_eq_true_2 by exact E. split; [discriminate | tauto].
  - rewrite bool_decide_eq_false_2 by exact E.
    set (l := saved_colors p) in *. set (i := secondary_index p).
    destruct (decide (- Z.of_nat (length l) <= i < Z.of_nat (length l)))
      as [Hin | Hout].
    + assert (Hsome : exists e, index l i = Some e).
      { unfold index.
        destruct (Z.leb_spec 0 i) as [H0 | H0],
                 (Z.ltb_spec i (Z.of_nat (length l))) as [H1 | H1];
          cbn [andb]; try lia.
        - apply lookup_lt_is_Some_2. lia.
        - destruct (Z.leb_spec (- Z.of_nat (length l)) i) as [H2 | H2],
                   (Z.ltb_spec i 0) as [H3 | H3]; cbn [andb]; try lia.
          apply lookup_lt_is_Some_2. lia. }
      destruct Hsome as [e ->]. cbn. split; [discriminate | tauto].
    + assert (Hnone : index l i = None).
      { unfold index.
        destruct (Z.leb_spec 0 i) as [H0 | H0],
                 (Z.ltb_spec i (Z.of_nat (length l))) as [H1 | H1];
          cbn [andb]; try lia;
          destruct (Z.leb_spec (- Z.of_nat (length l)) i) as [H2 | H2],
                   (Z.ltb_spec i 0) as [H3 | H3]; cbn [andb]; try lia;
          reflexivity. }
      rewrite Hnone. cbn. split; [auto | reflexivity].
Qed.

(** X19: what a frame does to the strip.  Without a strip [update_leds] does
    nothing.  With a strip of [TOTAL_LED_COUNT] LEDs or more it raises
    [IndexError] before writing anything exactly when the store is not empty
    and the secondary selection is off it; otherwise it returns after one
    [show()], with the strip as long as before and untouched from
    [TOTAL_LED_COUNT] on, the base section in the colour being edited
    (solid mode) or in the chase pattern of that colour and the secondary
    one, and the overhead section black, in the primary or in the secondary
    colour for the overhead modes 0, 1 and 2. *)
Theorem update_leds_on_strip (p : ColorPicker) (px : Strip) :
  TOTAL_LED_COUNT <= Z.of_nat (length (leds px)) ->
  update_leds dim p None = Returned tt None
  /\ (secondary_led_color p = None
      <-> saved_colors p <> []
          /\ ~ (- Z.of_nat (length (saved_colors p)) <= secondary_index p
                < Z.of_nat (length (saved_colors p))))
  /\ match secondary_led_color p with
     | None => update_leds dim p (Some px) = Raised IndexError (Some px)
     | Some sec =>
         exists l,
           update_leds dim p (Some px)
           = Returned tt (Some {| leds := l; shown := S (shown px) |})
           /\ length l = length (leds px)
           /\ (forall n : nat,
                 TOTAL_LED_COUNT <= Z.of_nat n -> l !! n = leds px !! n)
           /\ (forall n : nat, Z.of_nat n < BASE_LED_COUNT ->
                 (animation_mode p = 0 ->
                  l !! n = Some (tuple3 (current_led_rgb p)))
                 /\ (animation_mode p = 1 ->
                     l !! n
                     = Some (if (Z.of_nat n + frame_counter p / 2) mod 10 <? 5
                             then tuple3 (current_led_rgb p) else sec)))
           /\ (forall n : nat,
                 OVERHEAD_START_INDEX <= Z.of_nat n < TOTAL_LED_COUNT ->
                 (overhead_mode p = 0 -> l !! n = Some C_BLACK)
                 /\ (overhead_mode p = 1 ->
                     l !! n = Some (tuple3 (current_led_rgb p)))
                 /\ (overhead_mode p = 2 -> l !! n = Some sec))
     end.
Proof.
  intros Hlen. split; [reflexivity |]. split; [apply secondary_off_store |].
  destruct (secondary_led_color p) as [sec |] eqn:Esec.
  - exact (update_leds_run p sec px Hlen Esec).
  - unfold update_leds, bind, get. rewrite (lit_full px Hlen), Esec.
    reflexivity.
Qed.

(** ** The first frame on a colour file without an entry *)

Lemma bare_handle_input (now : Z) (events : list Event) :
  forallb quiet events = true ->
  returning bare (handle_input now events).
Proof.
  induction events as [| ev rest IH]; cbn [handle_input forallb];
    [intros _; apply returning_ret |].
  intros [Hq Hrest]%andb_true_iff.
  apply returning_bind.
  - destruct ev as [| key | key unicode |]; try discriminate;
      unfold handle_event; try apply returning_ret.
    intros p (H1 & H2 & H3 & H4 & H5). eexists _, _.
    split; [reflexivity |]. unfold bare. fit_fields.
    repeat apply conj; try assumption.
    intros k. unfold dict_del. destruct (decide _); [reflexivity | apply H5].
  - intros [|]; [exact (IH Hrest) | apply returning_ret].
Qed.

Lemma bare_process_key_holds (now : Z) (pressed : Key -> bool) :
  returning bare (process_key_holds now pressed).
Proof.
  intros p Hp. unfold process_key_holds. unfold bind at 1, get.
  cbv beta iota. pose proof Hp as (H1 & H2 & H3 & H4 & H5). rewrite H3.
  clear H1 H2 H3 H4 H5. revert p Hp. apply returning_for_each.
  apply Forall_forall. intros [key [idx direction]] _ p Hp.
  unfold hold_step, bind, get. destruct Hp as (H1 & H2 & H3 & H4 & H5).
  rewrite H5. eexists _, _. split; [reflexivity |]. unfold bare. auto.
Qed.

Lemma bare_flush_changes : returning bare flush_changes.
Proof.
  intros p (H1 & H2 & H3 & H4 & H5).
  unfold flush_changes, bind, get. cbn [modify]. cbv beta iota.
  cbn [colors_changed set_frame_counter]. rewrite H4. cbn [when ret].
  eexists _, _. split; [reflexivity |]. unfold bare. fit_fields. auto.
Qed.

Lemma init_entryless (txt : string) (converted : bool) :
  read_lines ([], false) (file_lines txt) = Some ([], converted) ->
  exists p, init (new_picker (Some txt)) = Returned tt p /\ bare p.
Proof.
  intros Hread. unfold init. unfold bind at 1.
  rewrite load_colors_returns, load_colors_run.
  cbn [color_file new_picker]. rewrite Hread. cbv zeta. cbn [length Nat.ltb Nat.leb app].
  unfold bind at 1, get. cbv beta iota.
  destruct converted; cbn; eexists; (split; [reflexivity |]);
    unfold bare; cbn; auto.
Qed.

(** X20: on a Pi, a colour file none of whose lines is an entry stops the
    program in its first frame: [__init__] returns with ["Black"] as the
    only entry and the secondary selection at index 1, and unless a key
    goes down in that frame, [update_leds] raises [IndexError], with the
    strip not written. *)
Theorem entryless_file_stops_first_frame (txt : string) (converted : bool)
    (px : Strip) (now : Z) (pressed : Key -> bool) (events : list Event) :
  read_lines ([], false) (file_lines txt) = Some ([], converted) ->
  TOTAL_LED_COUNT <= Z.of_nat (length (leds px)) ->
  forallb quiet events = true ->
  exists p p',
    init (new_picker (Some txt)) = Returned tt p
    /\ saved_colors p = [black] /\ secondary_index p = 1
    /\ run_frame dim now pressed events (p, Some px)
       = Raised IndexError (p', Some px).
Proof.
  intros Hread Hlen Hq.
  destruct (init_entryless txt converted Hread) as (p & E & Hp).
  destruct (bare_handle_input now events Hq p Hp) as (r & p1 & E1 & Hp1).
  destruct (bare_process_key_holds now pressed p1 Hp1) as ([] & p2 & E2 & Hp2).
  destruct (bare_flush_changes p2 Hp2) as ([] & p3 & E3 & Hp3).
  exists p, p3. split; [exact E |].
  split; [apply Hp |]. split; [apply Hp |].
  unfold run_frame, bind, on_picker, on_strip. cbn [fst snd].
  rewrite E1. cbn [fst snd]. rewrite E2. cbn [fst snd]. rewrite E3.
  cbn [fst snd].
  assert (Hsec : secondary_led_color p3 = None).
  { destruct Hp3 as (H1 & H2 & _). unfold secondary_led_color.
    rewrite H1, H2. reflexivity. }
  unfold update_leds, bind, get. rewrite (lit_full px Hlen), Hsec.
  reflexivity.
Qed.

(** ** A frame with the strip *)

(** X21: on a picker whose two selections are on the store, a whole frame of
    the main loop returns, whatever events are queued and keys held and
    whether there is a strip or not (a strip having [TOTAL_LED_COUNT] LEDs
    or more): the picker is what the store part of the iteration makes of
    it, both selections are still on the store, and the strip keeps its
    length. *)
Theorem frame_with_strip_returns (now : Z) (pressed : Key -> bool)
    (events : list Event) (p : ColorPicker) (pixels : option Strip) :
  sound p -> sec_ok p -> full_strip pixels ->
  exists running p' pixels',
    run_frame dim now pressed events (p, pixels)
    = Returned running (p', pixels')
    /\ p' = exec (run_iteration now pressed events) p
    /\ sound p' /\ sec_ok p'
    /\ full_strip pixels'
    /\ option_map (fun px => length (leds px)) pixels'
       = option_map (fun px => length (leds px)) pixels.
Proof.
  intros Hs Hsec Hfull.
  assert (Hp : fit True False False p).
  { split; [exact Hs |]. split; [auto |]. split; intros []. }
  destruct (handle_input_fit True False False now events p Hp)
    as (r & p1 & E1 & Hp1).
  destruct (process_key_holds_fit True False False now pressed p1 Hp1)
    as ([] & p2 & E2 & Hp2).
  destruct (flush_changes_fit True False False p2 Hp2)
    as (p3 & E3 & Hp3 & _).
  assert (Hrun : exec (run_iteration now pressed events) p = p3).
  { unfold exec, run_iteration, bind. rewrite E1, E2, E3. reflexivity. }
  destruct Hp3 as (Hs3 & Ha3 & _). specialize (Ha3 I).
  assert (Hcol : exists sec, secondary_led_color p3 = Some sec).
  { destruct (secondary_led_color p3) as [sec |] eqn:E; [eauto |].
    apply secondary_off_store in E. destruct E as [_ E].
    unfold sec_ok in Ha3. lia. }
  destruct Hcol as [sec Hcol].
  unfold run_frame, bind, on_picker, on_strip. cbn [fst snd].
  rewrite E1. cbn [fst snd]. rewrite E2. cbn [fst snd]. rewrite E3.
  cbn [fst snd].
  destruct pixels as [px |].
  - cbn [full_strip] in Hfull.
    destruct (update_leds_run p3 sec px Hfull Hcol) as (l & E & Hl & _).
    rewrite E. eexists _, _, _. split; [reflexivity |].
    split; [auto |]. split; [exact Hs3 |]. split; [exact Ha3 |].
    cbn [full_strip option_map leds]. rewrite Hl. auto.
  - eexists _, _, _. split; [reflexivity |].
    split; [auto |]. split; [exact Hs3 |]. split; [exact Ha3 |].
    cbn. auto.
Qed.

End LedFacts.

Lemma update_leds_on_strip_witness :
  update_leds (fun c _ => c) picker_ready None = Returned tt None
  /\ (secondary_led_color picker_ready = None
      <-> saved_colors picker_ready <> []
          /\ ~ (- Z.of_nat (length (saved_colors picker_ready))
                <= secondary_index picker_ready
                < Z.of_nat (length (saved_colors picker_ready))))
  /\ match secondary_led_color picker_ready with
     | None => update_leds (fun c _ => c) picker_ready (Some new_strip)
               = Raised IndexError (Some new_strip)
     | Some sec =>
         exists l,
           update_leds (fun c _ => c) picker_ready (Some new_strip)
           = Returned tt (Some {| leds := l; shown := S (shown new_strip) |})
           /\ length l = length (leds new_strip)
           /\ (forall n : nat,
                 TOTAL_LED_COUNT <= Z.of_nat n -> l !! n = leds new_strip !! n)
           /\ (forall n : nat, Z.of_nat n < BASE_LED_COUNT ->
                 (animation_mode picker_ready = 0 ->
                  l !! n = Some (tuple3 (current_led_rgb picker_ready)))
                 /\ (animation_mode picker_ready = 1 ->
                     l !! n
                     = Some (if (Z.of_nat n + frame_counter picker_ready / 2)
                                  mod 10 <? 5
                             then tuple3 (current_led_rgb picker_ready)
                             else sec)))
           /\ (forall n : nat,
                 OVERHEAD_START_INDEX <= Z.of_nat n < TOTAL_LED_COUNT ->
                 (overhead_mode picker_ready = 0 -> l !! n = Some C_BLACK)
                 /\ (overhead_mode picker_ready = 1 ->
                     l !! n = Some (tuple3 (current_led_rgb picker_ready)))
                 /\ (overhead_mode picker_ready = 2 -> l !! n = Some sec))
     end.
Proof.
  apply (update_leds_on_strip (fun c _ => c) picker_ready new_strip).
  vm_compute. discriminate.
Defined.

Lemma entryless_file_stops_first_frame_witness :
  exists p p',
    init (new_picker (Some blank_file)) = Returned tt p
    /\ saved_colors p = [black] /\ secondary_index p = 1
    /\ run_frame (fun c _ => c) 1000 (fun _ => false) [OTHER; KEYUP K_r]
         (p, Some new_strip)
       = Raised IndexError (p', Some new_strip).
Proof.
  apply (entryless_file_stops_first_frame (fun c _ => c) blank_file false
           new_strip 1000 (fun _ => false) [OTHER; KEYUP K_r]);
    [reflexivity | vm_compute; discriminate | reflexivity].
Defined.

Lemma frame_with_strip_returns_witness :
  exists running p' pixels',
    run_frame (fun c _ => c) 1000 (fun _ => true)
      [KEYDOWN K_SPACE EmptyString; KEYDOWN K_o EmptyString;
       KEYDOWN K_PAGEDOWN EmptyString] (picker_ready, Some new_strip)
    = Returned running (p', pixels')
    /\ p' = exec (run_iteration 1000 (fun _ => true)
                    [KEYDOWN K_SPACE EmptyString; KEYDOWN K_o EmptyString;
                     KEYDOWN K_PAGEDOWN EmptyString]) picker_ready
    /\ sound p' /\ sec_ok p'
    /\ full_strip pixels'
    /\ option_map (fun px => length (leds px)) pixels'
       = option_map (fun px => length (leds px)) (Some new_strip).
Proof.
  apply (frame_with_strip_returns (fun c _ => c) 1000 (fun _ => true)
           [KEYDOWN K_SPACE EmptyString; KEYDOWN K_o EmptyString;
            KEYDOWN K_PAGEDOWN EmptyString] picker_ready (Some new_strip)).
  - vm_compute. repeat split; try discriminate. intros k H. exact H.
  - vm_compute. split; [discriminate | reflexivity].
  - vm_compute. discriminate.
Defined.

End PickerLoop.


(* ===================================================================== *)
(** * The colour file between the two programs *)
(* ===================================================================== *)

Module Palette.

Import Py Text TextFacts LED_color_picker ColorStore PickerLoop.
Import scoreboard.

Lemma strip_keeps_solid_tail (a s : string) :
  none_of is_space s = true -> s <> EmptyString ->
  nonempty (strip (a +:+ s)) = true.
Proof.
  intros Hs Hne. unfold strip. induction a as [| c a IH]; unfold_append.
  - destruct s as [| d s']; [congruence |]. cbn [lstrip].
    cbn [none_of] in Hs. apply andb_true_iff in Hs as [Hd Hs'].
    apply negb_true_iff in Hd. rewrite Hd.
    rewrite rstrip_solid; [reflexivity |].
    cbn [none_of]. now rewrite Hd, Hs'.
  - cbn [lstrip]. destruct (is_space c); [exact IH |].
    rewrite <- append_cons, rstrip_app_solid by assumption.
    rewrite append_cons. reflexivity.
Qed.

Lemma entry_text_not_blank (e : ColorEntry) :
  nonempty (strip (entry_text e)) = true.
Proof.
  destruct e as [[name [[lr lg] lb]] [[dr dg] db]].
  unfold entry_text. rewrite <- !append_assoc.
  apply strip_keeps_solid_tail; [apply str_no_space | apply str_nonempty].
Qed.


Lemma carried_spec (n : string) :
  carried n = true ->
  none_of (fun c => Ascii.eqb c ",") n = true /\ none_of is_break n = true.
Proof. unfold carried. now intros [H1 H2]%andb_true_iff. Qed.

Lemma read_color_line_entry (acc : list ColorDict) (e : ColorEntry) :
  carried (entry_name e) = true ->
  read_color_line acc (entry_text e) = Some (acc ++ [as_dict e]).
Proof.
  intros [Hc Hb]%carried_spec. unfold read_color_line.
  rewrite entry_text_not_blank. cbn [negb].
  destruct e as [[name [[lr lg] lb]] [[dr dg] db]]. cbn in Hc, Hb.
  cbv zeta. unfold comma. rewrite (entry_text_split _ _ _ _ _ _ _ Hc).
  cbn. rewrite !int_str. reflexivity.
Qed.


Lemma read_color_lines_file (l : list ColorEntry) (acc : list ColorDict) :
  forallb (fun e => carried (entry_name e)) l = true ->
  read_color_lines acc (file_lines (file_text l)) = acc ++ map as_dict l.
Proof.
  revert acc. induction l as [| e l IH]; intros acc Hl.
  - cbn. now rewrite app_nil_r.
  - cbn [forallb] in Hl. apply andb_true_iff in Hl as [He Hl].
    unfold file_text. cbn [map Text.concat].
    unfold entry_line at 1. rewrite append_assoc. unfold_append.
    rewrite file_lines_cons.
    2:{ apply carried_spec in He as [_ Hb].
        destruct e as [[name [[lr lg] lb]] [[dr dg] db]].
        now apply entry_text_no_break. }
    cbn [read_color_lines]. rewrite (read_color_line_entry acc e He).
    fold (file_text l). rewrite (IH _ Hl). cbn [map].
    now rewrite <- app_assoc.
Qed.


(** X22: the scoreboard reads the file the colour picker writes: for a store
    that is not empty and whose names hold no comma and no line break,
    [load_custom_colors] on the file [save_colors] has written gives the
    store's entries in order, names (leading blanks included), LED colours
    and display colours, and leaves the file alone.  With no file it writes
    the three default entries and reads them back. *)
Theorem palette_from_picker (p : ColorPicker) :
  (saved_colors p <> [] ->
   forallb (fun e => carried (entry_name e)) (saved_colors p) = true ->
   load_custom_colors (color_file (exec save_colors p))
   = (map as_dict (saved_colors p), Some (file_text (saved_colors p))))
  /\ load_custom_colors None
     = (map as_dict scoreboard.default_colors,
        Some (file_text scoreboard.default_colors)).
Proof.
  split.
  - intros Hne Hl. rewrite save_colors_run. cbn [color_file set_color_file].
    unfold load_custom_colors.
    rewrite (read_color_lines_file _ [] Hl). cbn [app].
    rewrite bool_decide_eq_false_2; [reflexivity |].
    destruct (saved_colors p); [congruence | discriminate].
  - unfold load_custom_colors.
    rewrite (read_color_lines_file scoreboard.default_colors [] eq_refl).
    reflexivity.
Qed.






Lemma palette_from_picker_witness :
  load_custom_colors (color_file (exec save_colors (picker_with [indented; black])))
  = (map as_dict [indented; black], Some (file_text [indented; black])).
Proof.
  apply (proj1 (palette_from_picker (picker_with [indented; black])));
    [discriminate | reflexivity].
Defined.




Lemma read_color_line_garbled (acc : list ColorDict) (line : string) :
  garbled7 line = true -> read_color_line acc line = None.
Proof.
  unfold garbled7, read_color_line. cbv zeta.
  set (parts := split comma line).
  intros [[Hne H7]%andb_true_iff Hbad]%andb_true_iff.
  rewrite Hne, H7. cbn [negb]. apply Nat.eqb_eq in H7.
  apply negb_true_iff in Hbad.
  assert (Hsplit : drop 1 parts
                   = take 3 (drop 1 parts) ++ take 3 (drop 4 parts)).
  { do 8 (destruct parts as [| ? parts]; try discriminate). reflexivity. }
  rewrite Hsplit, numbers_app in Hbad.
  destruct (ints (take 3 (drop 1 parts))) as [led |] eqn:El; [| reflexivity].
  destruct (ints (take 3 (drop 4 parts))) as [disp |] eqn:Ed; [| reflexivity].
  exfalso.
  assert (H1 : numbers (take 3 (drop 1 parts)) = true).
  { destruct (numbers (take 3 (drop 1 parts))) eqn:N; [reflexivity |].
    apply ints_numbers in N. congruence. }
  assert (H2 : numbers (take 3 (drop 4 parts)) = true).
  { destruct (numbers (take 3 (drop 4 parts))) eqn:N; [reflexivity |].
    apply ints_numbers in N. congruence. }
  rewrite H1, H2 in Hbad. discriminate.
Qed.

Lemma file_lines_prefix (l : list ColorEntry) (tail : string) :
  forallb (fun e => carried (entry_name e)) l = true ->
  file_lines (file_text l +:+ tail) = map entry_text l ++ file_lines tail.
Proof.
  induction l as [| e l IH]; intros Hl.
  - cbn. now rewrite append_nil.
  - cbn [forallb] in Hl. apply andb_true_iff in Hl as [He Hl].
    unfold file_text. cbn [map Text.concat].
    unfold entry_line at 1. rewrite !append_assoc. unfold_append.
    rewrite file_lines_cons.
    2:{ apply carried_spec in He as [_ Hb].
        destruct e as [[name [[lr lg] lb]] [[dr dg] db]].
        now apply entry_text_no_break. }
    fold (file_text l). rewrite (IH Hl). reflexivity.
Qed.

Lemma read_color_lines_prefix (l : list ColorEntry) (more : list string)
    (acc : list ColorDict) :
  forallb (fun e => carried (entry_name e)) l = true ->
  read_color_lines acc (map entry_text l ++ more)
  = read_color_lines (acc ++ map as_dict l) more.
Proof.
  revert acc. induction l as [| e l IH]; intros acc Hl.
  - cbn. now rewrite app_nil_r.
  - cbn [forallb] in Hl. apply andb_true_iff in Hl as [He Hl].
    cbn [map app read_color_lines].
    rewrite (read_color_line_entry acc e He), (IH _ Hl).
    now rewrite <- app_assoc.
Qed.

(** X24: a malformed number stops the scoreboard's reading where it stands:
    the entries before the first line of seven fields with a field that
    is not an integer literal are kept, that line and everything after it
    are lost, and the file is not touched. *)
Theorem palette_stops_at_garbled (l : list ColorEntry) (bad rest : string) :
  forallb (fun e => carried (entry_name e)) l = true ->
  none_of is_break bad = true -> garbled7 bad = true ->
  let txt := file_text l +:+ bad +:+ String LF rest in
  load_custom_colors (Some txt)
  = (match l with [] => [Default_color] | _ => map as_dict l end, Some txt).
Proof.
  intros Hl Hb Hbad. cbv zeta. unfold load_custom_colors.
  rewrite (file_lines_prefix l _ Hl), (file_lines_cons _ _ Hb).
  rewrite (read_color_lines_prefix l _ [] Hl). cbn [app read_color_lines].
  rewrite (read_color_line_garbled _ _ Hbad).
  destruct l as [| e l]; [reflexivity |].
  rewrite bool_decide_eq_false_2 by discriminate. reflexivity.
Qed.

Lemma palette_stops_at_garbled_witness :
  let txt := file_text [red] +:+ "Teal,0,x80,128,0,100,100"
             +:+ String LF (file_text [black]) in
  load_custom_colors (Some txt) = (map as_dict [red], Some txt).
Proof.
  apply (palette_stops_at_garbled [red] "Teal,0,x80,128,0,100,100"
           (file_text [black])); vm_compute; reflexivity.
Defined.
End Palette.

